(** * wwo-go: the client of the worldweatheronline.com premium API

    A shallow embedding of package [wwo] (wwo/fetch.go and the data model
    with its three custom XML scalar decoders), together with the parts of
    Go's standard library the package calls: [strconv.ParseUint],
    [strings.HasPrefix], [errors.New], and the fragment of package [time]
    reached through the layouts "2006-01-02", "3:04 PM" and "15:04".
    The network (net/http) and the decoder of the report structures
    (encoding/xml) are parameters of the client.

    Conventions.
    - Go's [int], [int64], [uint] and [uint64] are [Z]; where the code can
      leave the range of the type the wrap-around is written out.
    - A Go [string] is a [string] (a sequence of bytes).
    - A method with a pointer receiver [func (t *T) m(...) error] is a
      function from the old [*t] to the new [*t] and the error.
    - [error] is an inductive type; [nil] is [None] of [option error]. *)

From Stdlib Require Import ZArith Lia ZifyBool List Bool Ascii String.
From Stdlib Require Import Floats.SpecFloat.
From stdpp Require Import gmap strings list fin_maps.

Local Open Scope string_scope.
Local Open Scope Z_scope.

(** ** Errors *)

(** The message part of a [*time.ParseError]: empty when an element of
    the value does not match the layout, otherwise one of the two texts
    package time produces. *)
Inductive ParseMessage : Type :=
| MsgNone
| MsgExtraText (rest : string)
| MsgOutOfRange (what : string).

Inductive error : Type :=
| errorString (s : string)
    (* *errors.errorString, the result of errors.New(s) *)
| NumError (Func Num : string) (Err : error)
    (* *strconv.NumError *)
| ParseError (Layout Value LayoutElem ValueElem : string) (Message : ParseMessage)
    (* *time.ParseError *)
| ForeignError (pkg text : string).
    (* an error made by net/http, io or encoding/xml *)

Module errors.
Definition New (text : string) : error := errorString text.
End errors.

(** The result of a library call that yields a value or an error. *)
Inductive result (A : Type) : Type :=
| Ok (a : A)
| Err (e : error).
Arguments Ok {A} a.
Arguments Err {A} e.

(** ** Bytes of a string *)

Definition byte_of (c : ascii) : Z := Z.of_N (N_of_ascii c).

(** [s[i:]] and [s[:i]] for [0 <= i <= len(s)]. *)
Fixpoint str_drop (n : nat) (s : string) : string :=
  match n, s with
  | O, _ => s
  | S n', String _ s' => str_drop n' s'
  | S _, EmptyString => EmptyString
  end.

Fixpoint str_take (n : nat) (s : string) : string :=
  match n, s with
  | O, _ => EmptyString
  | S n', String c s' => String c (str_take n' s')
  | S _, EmptyString => EmptyString
  end.

Definition str_len (s : string) : Z := Z.of_nat (String.length s).

Module strings.
(** strings.HasPrefix(s, prefix) *)
Definition HasPrefix (s prefix : string) : bool := String.prefix prefix s.
End strings.

(** ** Machine integers *)

Definition maxUint64 : Z := 2 ^ 64 - 1.
Definition uint64 (z : Z) : Z := z mod 2 ^ 64.
Definition int64 (z : Z) : Z := (z + 2 ^ 63) mod 2 ^ 64 - 2 ^ 63.

(** ** strconv *)

Module strconv.

Definition ErrSyntax : error := errors.New "invalid syntax".
Definition ErrRange : error := errors.New "value out of range".

Definition syntaxError (fn str : string) : error := NumError fn str ErrSyntax.
Definition rangeError (fn str : string) : error := NumError fn str ErrRange.

Definition lower (c : Z) : Z := Z.lor c 32.

(** The loop of ParseUint over the bytes of [s], for a base between 2
    and 36: [n] is the value read so far, [s0] the whole argument.
    A byte that is no digit of the base is a syntax error with value 0;
    a value above [maxVal] (or above uint64) is a range error with
    value [maxVal]. *)
Fixpoint parseUintLoop (s0 : string) (base cutoff maxVal : Z)
         (s : string) (n : Z) : Z * option error :=
  match s with
  | EmptyString => (n, None)
  | String ch rest =>
      let c := byte_of ch in
      let d :=
        if (48 <=? c) && (c <=? 57) then Some (c - 48)
        else if (97 <=? lower c) && (lower c <=? 122)
             then Some (lower c - 97 + 10)
             else None in
      match d with
      | None => (0, Some (syntaxError "ParseUint" s0))
      | Some d =>
          if base <=? d then (0, Some (syntaxError "ParseUint" s0))
          else if cutoff <=? n then (maxVal, Some (rangeError "ParseUint" s0))
          else
            let n := uint64 (n * base) in
            let n1 := uint64 (n + d) in
            if (n1 <? n) || (maxVal <? n1)
            then (maxVal, Some (rangeError "ParseUint" s0))
            else parseUintLoop s0 base cutoff maxVal rest n1
      end
  end.

(** strconv.ParseUint(s, base, bitSize) for [2 <= base <= 36] and
    [1 <= bitSize <= 64], the only way this package calls it (base 10,
    12 bits).  Outside that, Go looks for a base prefix (base 0), takes
    the size of [int] (bitSize 0) or reports the argument as invalid. *)
Definition ParseUint (s : string) (base bitSize : Z) : Z * option error :=
  match s with
  | EmptyString => (0, Some (syntaxError "ParseUint" s))
  | _ =>
      if (2 <=? base) && (base <=? 36) && (1 <=? bitSize) && (bitSize <=? 64) then
        let cutoff := maxUint64 / base + 1 in
        let maxVal := Z.shiftl 1 bitSize - 1 in
        parseUintLoop s base cutoff maxVal s 0
      else
        (0, Some (NumError "ParseUint" s (errors.New "invalid base or bit size")))
  end.

Definition isErrRange (e : error) : bool :=
  match e with
  | NumError _ _ (errorString "value out of range") => true
  | _ => false
  end.

(** strconv.ParseInt(s, base, bitSize), under the same conditions. *)
Definition ParseInt (s : string) (base bitSize : Z) : Z * option error :=
  match s with
  | EmptyString => (0, Some (syntaxError "ParseInt" s))
  | String ch rest =>
      (* Pick off leading sign. *)
      let s0 := s in
      let '(neg, s) :=
        if byte_of ch =? 43 then (false, rest)
        else if byte_of ch =? 45 then (true, rest)
        else (false, s) in
      (* Convert unsigned and check range. *)
      let '(un, err) := ParseUint s base bitSize in
      let cutoff := Z.shiftl 1 (bitSize - 1) in
      match err with
      | Some (NumError _ _ e as err') =>
          if negb (isErrRange err') then (0, Some (NumError "ParseInt" s0 e))
          else if negb neg && (cutoff <=? un) then (cutoff - 1, Some (rangeError "ParseInt" s0))
          else if neg && (cutoff <? un) then (- cutoff, Some (rangeError "ParseInt" s0))
          else (if neg then - un else un, None)
      | Some err' => (0, Some err')
      | None =>
          if negb neg && (cutoff <=? un) then (cutoff - 1, Some (rangeError "ParseInt" s0))
          else if neg && (cutoff <? un) then (- cutoff, Some (rangeError "ParseInt" s0))
          else (if neg then - un else un, None)
      end
  end.

End strconv.

(** ** time

    An instant is kept the way [time.Time] keeps one that has no monotonic
    clock reading: the seconds since January 1, year 1, 00:00:00 UTC and
    the nanoseconds within the second.  Every instant of this package is
    in UTC ([time.Parse] of a layout without a zone, and [time.Time{}]).

    Go counts days from an "absolute" year that precedes year 1 by a
    whole number of 400-year cycles, so as to stay in unsigned
    arithmetic; over [Z], whose division rounds down, the same
    computation is written from year 1. *)

Module time.

Definition Duration : Type := Z.           (* int64, nanoseconds *)

Definition Nanosecond : Duration := 1.
Definition Microsecond : Duration := 1000 * Nanosecond.
Definition Millisecond : Duration := 1000 * Microsecond.
Definition Second : Duration := 1000 * Millisecond.
Definition Minute : Duration := 60 * Second.
Definition Hour : Duration := 60 * Minute.

Definition minDuration : Duration := - 2 ^ 63.
Definition maxDuration : Duration := 2 ^ 63 - 1.

Record Time : Type := mkTime { sec : Z; nsec : Z }.

(** time.Time{}: January 1, year 1, 00:00:00.000000000 UTC. *)
Definition zero : Time := mkTime 0 0.

Definition secondsPerMinute : Z := 60.
Definition secondsPerHour : Z := 60 * secondsPerMinute.
Definition secondsPerDay : Z := 24 * secondsPerHour.
Definition daysPer400Years : Z := 365 * 400 + 97.
Definition daysPer100Years : Z := 365 * 100 + 24.
Definition daysPer4Years : Z := 365 * 4 + 1.

Definition January : Z := 1.
Definition February : Z := 2.
Definition March : Z := 3.

(** daysBefore[m]: the days of a non-leap year before month m+1. *)
Definition daysBefore (m : Z) : Z :=
  nth (Z.to_nat m) [0; 31; 59; 90; 120; 151; 181; 212; 243; 273; 304; 334; 365] 0.

Definition isLeap (year : Z) : bool :=
  (year mod 4 =? 0) && (negb (year mod 100 =? 0) || (year mod 400 =? 0)).

Definition daysIn (m year : Z) : Z :=
  if (m =? February) && isLeap year then 29
  else daysBefore m - daysBefore (m - 1).

(** norm: [nhi, nlo] with [hi * base + lo = nhi * base + nlo] and
    [0 <= nlo < base]. *)
Definition norm (hi lo base : Z) : Z * Z :=
  let '(hi, lo) :=
    if lo <? 0 then
      let n := (- lo - 1) / base + 1 in (hi - n, lo + n * base)
    else (hi, lo) in
  if base <=? lo then
    let n := lo / base in (hi + n, lo - n * base)
  else (hi, lo).

(** The days from January 1 of year 1 to January 1 of [year]. *)
Definition daysSinceEpoch (year : Z) : Z :=
  let y := year - 1 in
  (* Add in days from 400-year cycles. *)
  let n := y / 400 in
  let y := y - 400 * n in
  let d := daysPer400Years * n in
  (* Add in 100-year cycles. *)
  let n := y / 100 in
  let y := y - 100 * n in
  let d := d + daysPer100Years * n in
  (* Add in 4-year cycles. *)
  let n := y / 4 in
  let y := y - 4 * n in
  let d := d + daysPer4Years * n in
  (* Add in non-leap years. *)
  d + 365 * y.

(** time.Date(year, month, day, hour, min, sec, nsec, time.UTC) *)
Definition Date (year month day hour min sec nsec : Z) : Time :=
  (* Normalize month, overflowing into year. *)
  let '(year, m) := norm year (month - 1) 12 in
  let month := m + 1 in
  (* Normalize nsec, sec, min, hour, overflowing into day. *)
  let '(sec, nsec) := norm sec nsec 1000000000 in
  let '(min, sec) := norm min sec 60 in
  let '(hour, min) := norm hour min 60 in
  let '(day, hour) := norm day hour 24 in
  (* Compute days since the epoch. *)
  let d := daysSinceEpoch year in
  (* Add in days before this month. *)
  let d := d + daysBefore (month - 1) in
  let d := if isLeap year && (March <=? month) then d + 1 else d in
  (* Add in days before today. *)
  let d := d + (day - 1) in
  (* Add in time elapsed today. *)
  let abs := d * secondsPerDay in
  let abs := abs + (hour * secondsPerHour + min * secondsPerMinute + sec) in
  mkTime abs nsec.

(** The month and the day of the month of day [yday] (from 0) of a
    year; the second half of absDate. *)
Definition monthDay (leap : bool) (yday : Z) : Z * Z :=
  let day := yday in
  if leap && (day =? 31 + 29 - 1) then (February, 29)
  else
    (* After leap day; pretend it wasn't there. *)
    let day := if leap && (31 + 29 - 1 <? day) then day - 1 else day in
    (* Estimate month on assumption that every month has 31 days. *)
    let month := day / 31 in
    let end_ := daysBefore (month + 1) in
    let '(month, begin) :=
      if end_ <=? day then (month + 1, end_) else (month, daysBefore month) in
    (month + 1, day - begin + 1).

(** absDate: year, month, day and day of the year of an instant given
    in seconds since the epoch. *)
Definition absDate (abs : Z) : Z * Z * Z * Z :=
  (* Split into time and day. *)
  let d := abs / secondsPerDay in
  (* Account for 400 year cycles. *)
  let n := d / daysPer400Years in
  let y := 400 * n in
  let d := d - daysPer400Years * n in
  (* Cut off 100-year cycles; the last cycle has one extra leap year,
     so on its last day d / daysPer100Years is 4 instead of 3. *)
  let n := d / daysPer100Years in
  let n := n - Z.shiftr n 2 in
  let y := y + 100 * n in
  let d := d - daysPer100Years * n in
  (* Cut off 4-year cycles. *)
  let n := d / daysPer4Years in
  let y := y + 4 * n in
  let d := d - daysPer4Years * n in
  (* Cut off years within a 4-year cycle. *)
  let n := d / 365 in
  let n := n - Z.shiftr n 2 in
  let y := y + n in
  let d := d - 365 * n in
  let year := y + 1 in
  let yday := d in
  let '(month, day) := monthDay (isLeap year) yday in
  (year, month, day, yday).

(** absClock: hour, minute and second within the day. *)
Definition absClock (abs : Z) : Z * Z * Z :=
  let sec := abs mod secondsPerDay in
  let hour := sec / secondsPerHour in
  let sec := sec - hour * secondsPerHour in
  let min := sec / secondsPerMinute in
  let sec := sec - min * secondsPerMinute in
  (hour, min, sec).

(** t.Add(d).  Go's [/] and [%] on a negative duration round toward
    zero; the seconds saturate at the ends of int64. *)
Definition Add (t : Time) (d : Duration) : Time :=
  let dsec := Z.quot d 1000000000 in
  let nsec := nsec t + Z.rem d 1000000000 in
  let '(dsec, nsec) :=
    if 1000000000 <=? nsec then (dsec + 1, nsec - 1000000000)
    else if nsec <? 0 then (dsec - 1, nsec + 1000000000)
    else (dsec, nsec) in
  let sum := sec t + dsec in
  let ext :=
    if (- 2 ^ 63 <=? sum) && (sum <? 2 ^ 63) then sum
    else if 0 <? dsec then 2 ^ 63 - 1 else - (2 ^ 63 - 1) in
  mkTime ext nsec.

(** t.Sub(u): the duration t-u, or the minimum or maximum duration
    when t-u does not fit one. *)
Definition Sub (t u : Time) : Duration :=
  let d := (sec t - sec u) * Second + (nsec t - nsec u) in
  if d <? minDuration then minDuration
  else if maxDuration <? d then maxDuration
  else d.

(** *** Layouts

    Parse and Format cut a layout into chunks with nextStdChunk: a
    literal prefix followed by one standard element, until no element
    is left.  A layout is kept here as its text and that list of
    chunks, followed by the literal text after the last element. *)

Inductive Std : Type :=
| stdLongYear     (* "2006" *)
| stdZeroMonth    (* "01" *)
| stdZeroDay      (* "02" *)
| stdHour         (* "15" *)
| stdHour12       (* "3" *)
| stdZeroMinute   (* "04" *)
| stdPM.          (* "PM" *)

Definition stdstr (std : Std) : string :=
  match std with
  | stdLongYear => "2006"
  | stdZeroMonth => "01"
  | stdZeroDay => "02"
  | stdHour => "15"
  | stdHour12 => "3"
  | stdZeroMinute => "04"
  | stdPM => "PM"
  end.

Record Layout : Type :=
  mkLayout { text : string; chunks : list (string * Std); tail : string }.

(** "2006-01-02" *)
Definition DateOnly : Layout :=
  mkLayout "2006-01-02"
           [("", stdLongYear); ("-", stdZeroMonth); ("-", stdZeroDay)] "".

(** "3:04 PM" *)
Definition Clock12 : Layout :=
  mkLayout "3:04 PM"
           [("", stdHour12); (":", stdZeroMinute); (" ", stdPM)] "".

(** "15:04" *)
Definition Clock24 : Layout :=
  mkLayout "15:04" [("", stdHour); (":", stdZeroMinute)] "".

(** *** Formatting *)

Definition digit (d : Z) : ascii := ascii_of_N (Z.to_N (48 + d)).

(** The decimal digits of [u], most significant first, put before
    [acc]; twenty rounds are enough for a 64-bit number. *)
Fixpoint utoa (fuel : nat) (u : Z) (acc : string) : string :=
  match fuel with
  | O => acc
  | S fuel' =>
      let acc := String (digit (u mod 10)) acc in
      if u <? 10 then acc else utoa fuel' (u / 10) acc
  end.

Fixpoint zeros (n : nat) (s : string) : string :=
  match n with
  | O => s
  | S n' => String "0" (zeros n' s)
  end.

(** appendInt(b, x, width): the decimal form of [x], padded with zeros
    to at least [width] digits, after a "-" when [x] is negative. *)
Definition appendInt (b : string) (x width : Z) : string :=
  let u := Z.abs x in
  let ds := utoa 20 u "" in
  let pad := Z.to_nat (width - str_len ds) in
  b +:+ (if x <? 0 then "-" else "") +:+ zeros pad ds.

Definition formatStd (std : Std) (t : Time) (b : string) : string :=
  let '(year, month, day, _) := absDate (sec t) in
  let '(hour, min, _) := absClock (sec t) in
  match std with
  | stdLongYear => appendInt b year 4
  | stdZeroMonth => appendInt b month 2
  | stdZeroDay => appendInt b day 2
  | stdHour => appendInt b hour 2
  | stdHour12 =>
      (* Noon is 12PM, midnight is 12AM. *)
      let hr := hour mod 12 in
      let hr := if hr =? 0 then 12 else hr in
      appendInt b hr 0
  | stdZeroMinute => appendInt b min 2
  | stdPM => if 12 <=? hour then b +:+ "PM" else b +:+ "AM"
  end.

Fixpoint formatChunks (cs : list (string * Std)) (t : Time) (b : string) : string :=
  match cs with
  | [] => b
  | (prefix, std) :: cs' => formatChunks cs' t (formatStd std t (b +:+ prefix))
  end.

(** t.Format(layout) *)
Definition Format (t : Time) (layout : Layout) : string :=
  formatChunks (chunks layout) t "" +:+ tail layout.

(** *** Parsing *)

Definition isDigit (s : string) (i : nat) : bool :=
  match String.get i s with
  | Some ch => (48 <=? byte_of ch) && (byte_of ch <=? 57)
  | None => false
  end.

Definition digitAt (s : string) (i : nat) : Z :=
  match String.get i s with
  | Some ch => byte_of ch - 48
  | None => 0
  end.

(** getnum parses s[0:1] or s[0:2] (fixed forces s[0:2]) as a decimal
    integer and returns the integer and the remainder of the string;
    the boolean is errBad. *)
Definition getnum (s : string) (fixed : bool) : Z * string * bool :=
  if negb (isDigit s 0) then (0, s, true)
  else if negb (isDigit s 1) then
    if fixed then (0, s, true) else (digitAt s 0, str_drop 1 s, false)
  else (digitAt s 0 * 10 + digitAt s 1, str_drop 2 s, false).

(** leadingInt consumes the leading [0-9]* from s; [None] is
    errLeadingInt. *)
Fixpoint leadingInt (s : string) (x : Z) : option (Z * string) :=
  match s with
  | EmptyString => Some (x, s)
  | String ch rest =>
      let c := byte_of ch in
      if (c <? 48) || (57 <? c) then Some (x, s)
      else if 2 ^ 63 / 10 <? x then None
      else
        let x := x * 10 + c - 48 in
        if 2 ^ 63 <? x then None else leadingInt rest x
  end.

(** atoi: a decimal integer with an optional sign and nothing after
    it; [None] is errAtoi. *)
Definition atoi (s : string) : option Z :=
  let '(neg, s) :=
    match s with
    | String ch rest =>
        if (byte_of ch =? 45) || (byte_of ch =? 43)
        then (byte_of ch =? 45, rest) else (false, s)
    | EmptyString => (false, s)
    end in
  match leadingInt s 0 with
  | Some (q, EmptyString) => Some (if neg then - int64 q else int64 q)
  | _ => None
  end.

Fixpoint cutspace (s : string) : string :=
  match s with
  | String " " rest => cutspace rest
  | _ => s
  end.

(** skip removes the given prefix from value, treating runs of space
    characters as equivalent; the boolean is errBad. *)
Fixpoint skipLoop (fuel : nat) (value prefix : string) : string * bool :=
  match prefix with
  | EmptyString => (value, false)
  | String p0 prest =>
      match fuel with
      | O => (value, true)
      | S fuel' =>
          if (byte_of p0 =? 32) then
            match value with
            | String v0 _ =>
                if negb (byte_of v0 =? 32) then (value, true)
                else skipLoop fuel' (cutspace value) (cutspace prefix)
            | EmptyString => skipLoop fuel' (cutspace value) (cutspace prefix)
            end
          else
            match value with
            | String v0 vrest =>
                if negb (byte_of v0 =? byte_of p0) then (value, true)
                else skipLoop fuel' vrest prest
            | EmptyString => (value, true)
            end
      end
  end.

Definition skip (value prefix : string) : string * bool :=
  skipLoop (String.length prefix) value prefix.

(** The fields of the time being constructed by Parse that the
    elements above can set, with the flags of the AM/PM element. *)
Record parsed : Type := mkParsed {
  year : Z; month : Z; day : Z; hour : Z; min : Z;
  amSet : bool; pmSet : bool }.

Definition parsed0 : parsed := mkParsed 0 (-1) (-1) 0 0 false false.

Definition set_year (v : Z) (p : parsed) : parsed :=
  mkParsed v (month p) (day p) (hour p) (min p) (amSet p) (pmSet p).
Definition set_month (v : Z) (p : parsed) : parsed :=
  mkParsed (year p) v (day p) (hour p) (min p) (amSet p) (pmSet p).
Definition set_day (v : Z) (p : parsed) : parsed :=
  mkParsed (year p) (month p) v (hour p) (min p) (amSet p) (pmSet p).
Definition set_hour (v : Z) (p : parsed) : parsed :=
  mkParsed (year p) (month p) (day p) v (min p) (amSet p) (pmSet p).
Definition set_min (v : Z) (p : parsed) : parsed :=
  mkParsed (year p) (month p) (day p) (hour p) v (amSet p) (pmSet p).
Definition set_amSet (p : parsed) : parsed :=
  mkParsed (year p) (month p) (day p) (hour p) (min p) true (pmSet p).
Definition set_pmSet (p : parsed) : parsed :=
  mkParsed (year p) (month p) (day p) (hour p) (min p) (amSet p) true.

(** One element of the layout against the value: the fields, the rest
    of the value, rangeErrString (empty when in range) and errBad. *)
Definition parseStd (std : Std) (value : string) (p : parsed)
  : parsed * string * string * bool :=
  match std with
  | stdLongYear =>
      if (str_len value <? 4) || negb (isDigit value 0) then (p, value, "", true)
      else
        match atoi (str_take 4 value) with
        | Some y => (set_year y p, str_drop 4 value, "", false)
        | None => (set_year 0 p, str_drop 4 value, "", true)
        end
  | stdZeroMonth =>
      let '(m, value, err) := getnum value true in
      (set_month m p, value,
       if negb err && ((m <=? 0) || (12 <? m)) then "month" else "", err)
  | stdZeroDay =>
      (* Any two-digit day is allowed here; the month, day, year
         combination is validated after parsing is complete. *)
      let '(d, value, err) := getnum value true in
      (set_day d p, value, "", err)
  | stdHour =>
      let '(h, value, err) := getnum value false in
      (set_hour h p, value, if (h <? 0) || (24 <=? h) then "hour" else "", err)
  | stdHour12 =>
      let '(h, value, err) := getnum value false in
      (set_hour h p, value, if (h <? 0) || (12 <? h) then "hour" else "", err)
  | stdZeroMinute =>
      let '(m, value, err) := getnum value true in
      (set_min m p, value, if (m <? 0) || (60 <=? m) then "minute" else "", err)
  | stdPM =>
      if str_len value <? 2 then (p, value, "", true)
      else
        let ampm := str_take 2 value in
        let value := str_drop 2 value in
        if String.eqb ampm "PM" then (set_pmSet p, value, "", false)
        else if String.eqb ampm "AM" then (set_amSet p, value, "", false)
        else (p, value, "", true)
  end.

(** The loop of Parse: one round for each chunk of the layout, and a
    last one for the text after the last element. *)
Fixpoint parseChunks (alayout avalue : string) (cs : list (string * Std))
         (tail value : string) (p : parsed) : result parsed :=
  match cs with
  | [] =>
      let '(value, err) := skip value tail in
      if err then Err (ParseError alayout avalue tail value MsgNone)
      else
        match value with
        | EmptyString => Ok p
        | _ => Err (ParseError alayout avalue "" value (MsgExtraText value))
        end
  | (prefix, std) :: cs' =>
      let '(value, err) := skip value prefix in
      if err then Err (ParseError alayout avalue prefix value MsgNone)
      else
        let hold := value in
        let '(p, value, rangeErrString, err) := parseStd std value p in
        if negb (String.eqb rangeErrString "")
        then Err (ParseError alayout avalue (stdstr std) value
                             (MsgOutOfRange rangeErrString))
        else if err then Err (ParseError alayout avalue (stdstr std) hold MsgNone)
        else parseChunks alayout avalue cs' tail value p
  end.

(** time.Parse(layout, value).  Elements omitted from the layout are
    zero or, when zero is impossible, one: without a year the result
    is in year 0, which is before the zero Time. *)
Definition Parse (layout : Layout) (value : string) : Time * option error :=
  match parseChunks (text layout) value (chunks layout) (tail layout) value parsed0 with
  | Err e => (zero, Some e)
  | Ok p =>
      let hour :=
        if pmSet p && (hour p <? 12) then hour p + 12
        else if amSet p && (hour p =? 12) then 0
        else hour p in
      let month := if month p <? 0 then January else month p in
      let day := if day p <? 0 then 1 else day p in
      (* Validate the day of the month. *)
      if (day <? 1) || (daysIn month (year p) <? day)
      then (zero, Some (ParseError (text layout) value "" "" (MsgOutOfRange "day")))
      else (Date (year p) month day hour (min p) 0 0, None)
  end.

End time.

(** * Package wwo: the data model *)

(** ** The scalar types with a decoder of their own

    Each UnmarshalXML first reads the character data of its element with
    [d.DecodeElement(&content, &start)]; [elem] is the outcome of that
    call, the content or the error. *)

(** Weather reports include the date with no time attached. *)
Definition Date : Type := time.Time.

Definition Date_UnmarshalXML (elem : result string) (t : Date) : Date * option error :=
  match elem with
  | Err err => (t, Some err)
  | Ok content =>
      let '(ti, err) := time.Parse time.DateOnly content in
      (ti, err)
  end.

Definition Date_String (t : Date) : string := time.Format t time.DateOnly.

(** Times of tides, sun/moon rise/set, are given in local time without a date. *)
Definition Time12 : Type := time.Duration.

Definition Time12_UnmarshalXML (elem : result string) (t : Time12) : Time12 * option error :=
  match elem with
  | Err err => (t, Some err)
  | Ok content =>
      (* No moonrise, No moonset, etc. *)
      if strings.HasPrefix content "No " then (-1, None)
      else
        let '(ti, err) := time.Parse time.Clock12 content in
        (time.Sub ti time.zero, err)
  end.

Definition Time12_String (t : Time12) : string :=
  time.Format (time.Add time.zero t) time.Clock24.

(** Times of forecast and historical detailed conditions as an integer
    representing local time. *)
Definition TimeHMM : Type := time.Duration.

Definition TimeHMM_UnmarshalXML (elem : result string) (t : TimeHMM) : TimeHMM * option error :=
  match elem with
  | Err err => (t, Some err)
  | Ok content =>
      let '(u, err) := strconv.ParseUint content 10 12 in
      let h := u / 100 in
      let m := u mod 100 in
      (int64 (int64 (int64 h * time.Hour) + int64 (int64 m * time.Minute)), err)
  end.

Definition TimeHMM_String (t : TimeHMM) : string :=
  time.Format (time.Add time.zero t) time.Clock24.

(** ** The report structures

    A field is named after its struct; an embedded struct is the field
    named after its type.  The comment of a field is the name of its
    payload element (the xml tag) and, for a number, its Go type.
    float64 is an IEEE 754 binary64 value, a slice is a list, a pointer
    is an option. *)

Definition float64 : Type := spec_float.
Definition float64_zero : float64 := S754_zero false.

(** Most queries include the request that generated them. *)
Record Request : Type := mkRequest {
  Request_Query : string;  (* query *)
  Request_Type  : string   (* type *)
}.

Definition Request_zero : Request := mkRequest "" "".

(** Timezone Offset Information *)
Record Zone : Type := mkZone {
  Zone_Offset : float64   (* utcOffset *)
}.

Definition Zone_zero : Zone := mkZone float64_zero.

(** Describes an area known to WorldWeatherOnline *)
Record Area : Type := mkArea {
  Area_Country    : string;       (* country *)
  Area_Latitude   : float64;      (* latitude *)
  Area_Longitude  : float64;      (* longitude *)
  Area_Name       : string;       (* areaName *)
  Area_Region     : string;       (* region *)
  Area_Population : Z;            (* population, uint *)
  Area_DistanceMI : float64;      (* distance_miles *)
  Area_WeatherURL : string;       (* weatherUrl *)
  Area_Zone       : option Zone   (* timezone *)
}.

Definition Area_zero : Area := mkArea "" float64_zero float64_zero "" "" 0
    float64_zero "" None.

(** A range of temperatures in a given period of time *)
Record TempRange : Type := mkTempRange {
  TempRange_MaxTemp  : Z;  (* maxtempC, int *)
  TempRange_MaxTempF : Z;  (* maxtempF, int *)
  TempRange_MinTemp  : Z;  (* mintempC, int *)
  TempRange_MinTempF : Z   (* mintempF, int *)
}.

Definition TempRange_zero : TempRange := mkTempRange 0 0 0 0.

(** Astronomical events for a day. *)
Record Astronomy : Type := mkAstronomy {
  Astronomy_Moonrise : Time12;  (* moonrise *)
  Astronomy_Moonset  : Time12;  (* moonset *)
  Astronomy_Sunrise  : Time12;  (* sunrise *)
  Astronomy_Sunset   : Time12   (* sunset *)
}.

Definition Astronomy_zero : Astronomy := mkAstronomy 0 0 0 0.

(** Weather conditions common to most reports. *)
Record Condition : Type := mkCondition {
  Condition_Time              : TimeHMM;  (* time *)
  Condition_CloudCover        : Z;        (* cloudcover, uint *)
  Condition_DewPoint          : Z;        (* DewPointC, int *)
  Condition_DewPointF         : Z;        (* DewPointF, int *)
  Condition_FeelsLike         : Z;        (* FeelsLikeC, int *)
  Condition_FeelsLikeF        : Z;        (* FeelsLikeF, int *)
  Condition_HeatIndex         : Z;        (* HeatIndexC, int *)
  Condition_HeatIndexF        : Z;        (* HeatIndexF, int *)
  Condition_Humidity          : Z;        (* humidity, uint *)
  Condition_Precip            : float64;  (* precipMM *)
  Condition_PrecipInches      : float64;  (* precipInches *)
  Condition_Pressure          : Z;        (* pressure, uint *)
  Condition_PressureInches    : Z;        (* pressureInches, uint *)
  Condition_Temp              : Z;        (* tempC, int *)
  Condition_TempF             : Z;        (* tempF, int *)
  Condition_Visibility        : Z;        (* visibility, uint *)
  Condition_VisibilityMiles   : Z;        (* visibilityMiles, uint *)
  Condition_WeatherCode       : Z;        (* weatherCode, uint *)
  Condition_WeatherDesc       : string;   (* weatherDesc *)
  Condition_WeatherIconUrl    : string;   (* weatherIconUrl *)
  Condition_WindChill         : Z;        (* WindChillC, int *)
  Condition_WindChillF        : Z;        (* WindChillF, int *)
  Condition_WindDir           : Z;        (* winddirDegree, uint *)
  Condition_WindDirCompass    : string;   (* winddir16Point *)
  Condition_WindGust          : Z;        (* WindGustKmph, uint *)
  Condition_WindGustMiles     : Z;        (* WindGustMiles, uint *)
  Condition_WindSpeed         : Z;        (* windspeedKmph, uint *)
  Condition_WindSpeedKnots    : Z;        (* windspeedKnots, uint *)
  Condition_WindSpeedMeterSec : Z;        (* windspeedMeterSec, uint *)
  Condition_WindSpeedMiles    : Z         (* windspeedMiles, uint *)
}.

Definition Condition_zero : Condition := mkCondition 0 0 0 0 0 0 0 0 0
    float64_zero float64_zero 0 0 0 0 0 0 0 "" "" 0 0 0 "" 0 0 0 0 0 0.

(** The common fields of weather reports. *)
Record Weather : Type := mkWeather {
  Weather_TempRange : TempRange;       (* embedded *)
  Weather_Astronomy : Astronomy;       (* astronomy *)
  Weather_Date      : Date;            (* date *)
  Weather_SunHour   : float64;         (* sunHour *)
  Weather_TotalSnow : float64;         (* totalSnow_cm *)
  Weather_UVIndex   : Z;               (* uvIndex, uint *)
  Weather_Condition : list Condition   (* hourly *)
}.

Definition Weather_zero : Weather := mkWeather TempRange_zero Astronomy_zero
    time.zero float64_zero float64_zero 0 [].

(** Chances of various conditions in a Local Forecast. *)
Record ForecastChances : Type := mkForecastChances {
  ForecastChances_ChanceFog      : Z;  (* chanceoffog, uint *)
  ForecastChances_ChanceFrost    : Z;  (* chanceoffrost, uint *)
  ForecastChances_ChanceOvercast : Z;  (* chanceofovercast, uint *)
  ForecastChances_ChanceRain     : Z;  (* chanceofrain, uint *)
  ForecastChances_ChanceSnow     : Z;  (* chanceofsnow, uint *)
  ForecastChances_ChanceHighTemp : Z;  (* chanceofhightemp, uint *)
  ForecastChances_ChanceDry      : Z;  (* chanceofremdry, uint *)
  ForecastChances_ChanceSunshine : Z;  (* chanceofsunshine, uint *)
  ForecastChances_ChanceThunder  : Z;  (* chanceofthunder, uint *)
  ForecastChances_ChanceWindy    : Z   (* chanceofwindy, uint *)
}.

Definition ForecastChances_zero : ForecastChances := mkForecastChances 0 0 0
    0 0 0 0 0 0 0.

(** Conditions in the n-hourly Local Forecast. *)
Record ForecastCondition : Type := mkForecastCondition {
  ForecastCondition_Condition       : Condition;        (* embedded *)
  ForecastCondition_ForecastChances : ForecastChances   (* embedded *)
}.

Definition ForecastCondition_zero : ForecastCondition := mkForecastCondition
    Condition_zero ForecastChances_zero.

(** Weather report for a Local Forecast. *)
Record ForecastWeather : Type := mkForecastWeather {
  ForecastWeather_Weather   : Weather;                 (* embedded *)
  ForecastWeather_Condition : list ForecastCondition   (* hourly *)
}.

Definition ForecastWeather_zero : ForecastWeather := mkForecastWeather
    Weather_zero [].

(** Conditions in the n-hourly Marine Forecast. *)
Record MarineCondition : Type := mkMarineCondition {
  MarineCondition_Condition       : Condition;  (* embedded *)
  MarineCondition_SigHeight       : float64;    (* sigHeight_m *)
  MarineCondition_SwellHeight     : float64;    (* swellHeight_m *)
  MarineCondition_SwellHeight_ft  : float64;    (* swellHeight_ft *)
  MarineCondition_SwellDir        : Z;          (* swellDir, uint *)
  MarineCondition_SwellDirCompass : string;     (* swellDir16Point *)
  MarineCondition_SwellPeriod     : float64;    (* swellPeriod_secs *)
  MarineCondition_WaterTemp       : Z;          (* waterTemp_C, int *)
  MarineCondition_WaterTemp_F     : Z           (* waterTemp_F, int *)
}.

Definition MarineCondition_zero : MarineCondition := mkMarineCondition
    Condition_zero float64_zero float64_zero float64_zero 0 "" float64_zero 0 0.

(** A tide entry in a Marine Forecast or Record. *)
Record Tide : Type := mkTide {
  Tide_Time   : Time12;   (* tideTime *) 
  Tide_Height : float64;  (* tideHeight_mt *)
  Tide_Type   : string    (* tide_type *)
}.

Definition Tide_zero : Tide := mkTide 0 float64_zero "".

(** Weather report for a Marine Forecast. *)
Record MarineWeather : Type := mkMarineWeather {
  MarineWeather_Weather   : Weather;               (* embedded *)
  MarineWeather_Condition : list MarineCondition;  (* hourly *)
  MarineWeather_Tide      : list Tide              (* tides>tide_data *)
}.

Definition MarineWeather_zero : MarineWeather := mkMarineWeather
    Weather_zero [] [].

(** Weather conditions at a particular elevation band. *)
Record LevelCond : Type := mkLevelCond {
  LevelCond_Temp              : Z;       (* tempC, int *)
  LevelCond_TempF             : Z;       (* tempF, int *)
  LevelCond_WindSpeed         : Z;       (* windspeedKmph, uint *)
  LevelCond_WindSpeedKnots    : Z;       (* windspeedKnots, uint *)
  LevelCond_WindSpeedMeterSec : Z;       (* windspeedMeterSec, uint *)
  LevelCond_WindSpeedMiles    : Z;       (* windspeedMiles, uint *)
  LevelCond_WindDir           : Z;       (* winddirDegree, uint *)
  LevelCond_WindDirCompass    : string;  (* winddir16Point *)
  LevelCond_WeatherCode       : Z;       (* weatherCode, uint *)
  LevelCond_WeatherDesc       : string;  (* weatherDesc *)
  LevelCond_WeatherIconUrl    : string   (* weatherIconUrl *)
}.

Definition LevelCond_zero : LevelCond := mkLevelCond 0 0 0 0 0 0 0 "" 0 ""
    "".

(** Weather conditions for a Ski Forecast. *)
Record SkiCondition : Type := mkSkiCondition {
  SkiCondition_ForecastChances : ForecastChances;  (* embedded *)
  SkiCondition_Top             : LevelCond;        (* top *)
  SkiCondition_Mid             : LevelCond;        (* mid *)
  SkiCondition_Bottom          : LevelCond;        (* bottom *)
  SkiCondition_CloudCover      : Z;                (* cloudcover, uint *)
  SkiCondition_Visibility      : Z;                (* visibility, uint *)
  SkiCondition_VisibilityMiles : Z;                (* visibilityMiles, uint *)
  SkiCondition_Pressure        : Z;                (* pressure, uint *)
  SkiCondition_PressureInches  : Z;                (* pressureInches, uint *)
  SkiCondition_Snowfall        : float64;          (* snowfall_cm *)
  SkiCondition_FreezeLevel     : Z;                (* freezeLevel, uint *)
  SkiCondition_Humidity        : Z;                (* humidity, uint *)
  SkiCondition_Precip          : float64;          (* precipMM *)
  SkiCondition_PrecipInches    : float64           (* precipInches *)
}.

Definition SkiCondition_zero : SkiCondition := mkSkiCondition
    ForecastChances_zero LevelCond_zero LevelCond_zero LevelCond_zero 0 0 0 0 0
    float64_zero 0 0 float64_zero float64_zero.

(** weather report for a Ski Forecast *)
Record SkiWeather : Type := mkSkiWeather {
  SkiWeather_Weather    : Weather;            (* embedded *)
  SkiWeather_ChanceSnow : Z;                  (* chanceofsnow, uint *)
  SkiWeather_TotalSnow  : float64;            (* totalSnowfall_cm *)
  SkiWeather_Top        : TempRange;          (* top *)
  SkiWeather_Mid        : TempRange;          (* mid *)
  SkiWeather_Bottom     : TempRange;          (* bottom *)
  SkiWeather_Condition  : list SkiCondition   (* hourly *)
}.

Definition SkiWeather_zero : SkiWeather := mkSkiWeather Weather_zero 0
    float64_zero TempRange_zero TempRange_zero TempRange_zero [].

(** Current weather conditions in a Local Forecast. *)
Record CurrentCondition : Type := mkCurrentCondition {
  CurrentCondition_Condition : Condition;  (* embedded *)
  CurrentCondition_TempF     : Z;          (* temp_F, int *)
  CurrentCondition_Temp      : Z;          (* temp_C, int *)
  CurrentCondition_Time      : Time12      (* observation_time *)
}.

Definition CurrentCondition_zero : CurrentCondition := mkCurrentCondition
    Condition_zero 0 0 0.

(** Climate averages in a Local Forecast. *)
Record ClimateAverage : Type := mkClimateAverage {
  ClimateAverage_Index                : Z;        (* index, uint *)
  ClimateAverage_Name                 : string;   (* name *)
  ClimateAverage_MinTemp              : float64;  (* avgMinTemp *)
  ClimateAverage_MinTemp_F            : float64;  (* avgMinTemp_F *)
  ClimateAverage_MaxTemp              : float64;  (* avgMaxTemp *)
  ClimateAverage_MaxTemp_F            : float64;  (* avgMaxTemp_F *)
  ClimateAverage_AbsMinTemp           : float64;  (* absMinTemp *)
  ClimateAverage_AbsMinTemp_F         : float64;  (* absMinTemp_F *)
  ClimateAverage_AbsMaxTemp           : float64;  (* absMaxTemp *)
  ClimateAverage_AbsMaxTemp_F         : float64;  (* absMaxTemp_F *)
  ClimateAverage_Temp                 : float64;  (* avgTemp *)
  ClimateAverage_Temp_F               : float64;  (* avgTemp_F *)
  ClimateAverage_MaxWindSpeed         : float64;  (* maxWindSpeed_kmph *)
  ClimateAverage_MaxWindSpeed_mph     : float64;  (* maxWindSpeed_mph *)
  ClimateAverage_MaxWindSpeed_knots   : float64;  (* maxWindSpeed_knots *)
  ClimateAverage_MaxWindSpeed_ms      : float64;  (* maxWindSpeed_ms *)
  ClimateAverage_WindSpeed            : float64;  (* avgWindSpeed_kmph *)
  ClimateAverage_WindSpeed_miles      : float64;  (* avgWindSpeed_miles *)
  ClimateAverage_WindSpeed_knots      : float64;  (* avgWindSpeed_knots *)
  ClimateAverage_WindSpeed_ms         : float64;  (* avgWindSpeed_ms *)
  ClimateAverage_WindGust             : float64;  (* avgWindGust_kmph *)
  ClimateAverage_WindGust_miles       : float64;  (* avgWindGust_miles *)
  ClimateAverage_WindGust_knots       : float64;  (* avgWindGust_knots *)
  ClimateAverage_WindGust_ms          : float64;  (* avgWindGust_ms *)
  ClimateAverage_DailyRainfall        : float64;  (* avgDailyRainfall *)
  ClimateAverage_DailyRainfall_inch   : float64;  (* avgDailyRainfall_inch *)
  ClimateAverage_MonthlyRainfall      : float64;  (* avgMonthlyRainfall *)
  ClimateAverage_MonthlyRainfall_inch : float64;  (* avgMonthlyRainfall_inch *)
  ClimateAverage_Humidity             : float64;  (* avgHumidity *)
  ClimateAverage_Cloud                : float64;  (* avgCloud *)
  ClimateAverage_Visibility           : float64;  (* avgVis_km *)
  ClimateAverage_Visibility_miles     : float64;  (* avgVis_miles *)
  ClimateAverage_Pressure             : float64;  (* avgPressure_mb *)
  ClimateAverage_Pressure_inch        : float64;  (* avgPressure_inch *)
  ClimateAverage_DryDays              : Z;        (* avgDryDays, uint *)
  ClimateAverage_RainDays             : Z;        (* avgRainDays, uint *)
  ClimateAverage_SnowDays             : Z;        (* avgSnowDays, uint *)
  ClimateAverage_FogDays              : Z;        (* avgFogDays, uint *)
  ClimateAverage_ThunderDays          : Z;        (* avgThunderDays, uint *)
  ClimateAverage_UVIndex              : Z;        (* avgUVIndex, uint *)
  ClimateAverage_SunHour              : float64   (* avgSunHour *)
}.

Definition ClimateAverage_zero : ClimateAverage := mkClimateAverage 0 ""
    float64_zero float64_zero float64_zero float64_zero float64_zero
    float64_zero float64_zero float64_zero float64_zero float64_zero
    float64_zero float64_zero float64_zero float64_zero float64_zero
    float64_zero float64_zero float64_zero float64_zero float64_zero
    float64_zero float64_zero float64_zero float64_zero float64_zero
    float64_zero float64_zero float64_zero float64_zero float64_zero
    float64_zero float64_zero 0 0 0 0 0 0 float64_zero.

(** A Local Weather Forecast *)
Record Local : Type := mkLocal {
  Local_Area    : Area;                  (* nearest_area *)
  Local_Climate : list ClimateAverage;   (* ClimateAverages>month *)
  Local_Current : CurrentCondition;      (* current_condition *)
  Local_Request : Request;               (* request *)
  Local_Weather : list ForecastWeather;  (* weather *)
  Local_Error   : option string          (* error>msg *)
}.

Definition Local_zero : Local := mkLocal Area_zero [] CurrentCondition_zero
    Request_zero [] None.

(** A Marine Weather Forecast *)
Record Marine : Type := mkMarine {
  Marine_Request : Request;             (* request *)
  Marine_Area    : Area;                (* nearest_area *)
  Marine_Weather : list MarineWeather;  (* weather *)
  Marine_Error   : option string        (* error>msg *)
}.

Definition Marine_zero : Marine := mkMarine Request_zero Area_zero [] None.

(** historical marine reports are very similar to marine forecasts *)
Definition PastMarine : Type := Marine.
Definition PastMarine_zero : PastMarine := Marine_zero.

(** A Historical Local Weather Report *)
Record PastLocal : Type := mkPastLocal {
  PastLocal_Request : Request;        (* request *)
  PastLocal_Area    : Area;           (* nearest_area *)
  PastLocal_Weather : list Weather;   (* weather *)
  PastLocal_Error   : option string   (* error>msg *)
}.

Definition PastLocal_zero : PastLocal := mkPastLocal Request_zero Area_zero
    [] None.

(** A Ski Weather Forecast *)
Record Ski : Type := mkSki {
  Ski_Request : Request;          (* request *)
  Ski_Area    : Area;             (* nearest_area *)
  Ski_Weather : list SkiWeather;  (* weather *)
  Ski_Error   : option string     (* error>msg *)
}.

Definition Ski_zero : Ski := mkSki Request_zero Area_zero [] None.

(** A Timezone Report *)
Record TimeZone : Type := mkTimeZone {
  TimeZone_Request : Request;        (* request *)
  TimeZone_Area    : Area;           (* nearest_area *)
  TimeZone_Zone    : Zone;           (* time_zone *)
  TimeZone_Error   : option string   (* error>msg *)
}.

Definition TimeZone_zero : TimeZone := mkTimeZone Request_zero Area_zero
    Zone_zero None.

(** An Area Search Report *)
Record Search : Type := mkSearch {
  Search_Area  : list Area;      (* result *)
  Search_Error : option string   (* error>msg *)
}.

Definition Search_zero : Search := mkSearch [] None.

(** ** Decoding a struct from its element

    encoding/xml fills a struct from the child elements of its element,
    in document order: a child whose name is the tag of a field is
    decoded into that field, any other child is skipped; the first error
    ends the decoding, and what was decoded before it stays in the
    struct.  The fields of an embedded struct are fields of the
    embedding one (so the four of [TempRange] are filled the same way
    in a day entry, [Weather], and in the top, mid and bottom ranges of
    a ski day). *)

Record Element : Type := mkElement { Element_Name : string; Element_CharData : string }.

(** A field of a struct [T] for the decoder: its tag and how the
    character data of a matching element is stored into it. *)
Definition Field (T : Type) : Type := string * (string -> T -> T * option error).

Fixpoint findField {T : Type} (fields : list (Field T)) (name : string)
  : option (string -> T -> T * option error) :=
  match fields with
  | [] => None
  | (tag, store) :: fields' =>
      if String.eqb tag name then Some store else findField fields' name
  end.

Fixpoint unmarshalStruct {T : Type} (fields : list (Field T))
         (children : list Element) (t : T) : T * option error :=
  match children with
  | [] => (t, None)
  | e :: children' =>
      match findField fields (Element_Name e) with
      | None => unmarshalStruct fields children' t
      | Some store =>
          match store (Element_CharData e) t with
          | (t, None) => unmarshalStruct fields children' t
          | (t, Some err) => (t, Some err)
          end
      end
  end.

Section TempRangeFields.

(** The conversion encoding/xml applies to the character data of an
    element that goes into a field of kind int. *)
Variable copyInt : string -> result Z.

Definition storeInt {T : Type} (set : Z -> T -> T) (src : string) (t : T)
  : T * option error :=
  match copyInt src with
  | Ok v => (set v t, None)
  | Err err => (t, Some err)
  end.

Definition TempRange_fields : list (Field TempRange) :=
  [ ("maxtempC", storeInt (fun v t =>
       mkTempRange v (TempRange_MaxTempF t) (TempRange_MinTemp t) (TempRange_MinTempF t)));
    ("maxtempF", storeInt (fun v t =>
       mkTempRange (TempRange_MaxTemp t) v (TempRange_MinTemp t) (TempRange_MinTempF t)));
    ("mintempC", storeInt (fun v t =>
       mkTempRange (TempRange_MaxTemp t) (TempRange_MaxTempF t) v (TempRange_MinTempF t)));
    ("mintempF", storeInt (fun v t =>
       mkTempRange (TempRange_MaxTemp t) (TempRange_MaxTempF t) (TempRange_MinTemp t) v)) ].

Definition TempRange_unmarshal (children : list Element) (t : TempRange)
  : TempRange * option error :=
  unmarshalStruct TempRange_fields children t.

End TempRangeFields.

(** * Package wwo: the client (wwo/fetch.go) *)

(** Essential information for WorldWeatherOnline lookups. *)
Record WWO : Type := mkWWO {
  WWO_Key      : string;   (* API key *)
  WWO_Insecure : bool      (* Use http rather than https *)
}.

Module url.

(** url.Values, a map[string][]string local to fetch. *)
Abbreviation Values := (gmap string (list string)).

(** v.Set(key, value): the key gets the single value, replacing any
    existing values. *)
Definition Values_Set (v : Values) (key value : string) : Values :=
  <[key := [value]]> v.

(** The fields of url.URL that fetch assigns.  [Query] stands for
    RawQuery: the Values of which RawQuery is the encoding. *)
Record URL : Type := mkURL {
  Scheme : string; Host : string; Path : string; Query : Values }.

End url.

(** ** Maps, the network and panics

    A Go map value is nil or a reference to a map object, and a function
    that is passed one shares the object with its caller.  The world of
    a call is the store of map objects and the requests sent so far. *)

Definition loc : Type := positive.

Definition mapref : Type := option loc.

Record World : Type := mkWorld {
  heap : gmap loc (gmap string string);
  sent : list url.URL }.

Inductive outcome (A : Type) : Type :=
| Returns (a : A) (σ : World)
| Panics (msg : string).
Arguments Returns {A} a σ.
Arguments Panics {A} msg.

Definition Go (A : Type) : Type := World -> outcome A.

#[global] Instance Go_ret : MRet Go := fun A a σ => Returns a σ.

#[global] Instance Go_bind : MBind Go := fun A B k m σ =>
  match m σ with
  | Returns a σ' => k a σ'
  | Panics msg => Panics msg
  end.

(** [m[k] = v] *)
Definition mapassign (m : mapref) (k v : string) : Go unit := fun σ =>
  match m with
  | None => Panics "assignment to entry in nil map"
  | Some l => Returns tt (mkWorld (alter (insert k v) l (heap σ)) (sent σ))
  end.

(** The entries of [m], for [range m]: none when [m] is nil. *)
Definition mapentries (m : mapref) : Go (gmap string string) := fun σ =>
  match m with
  | None => Returns ∅ σ
  | Some l => Returns (default ∅ (heap σ !! l)) σ
  end.

(** The decoder of a report structure: [xml.Unmarshal(text, o)] as a
    function from the payload and the old [*o] to the new [*o] and the
    error. *)
Class Unmarshaler (T : Type) : Type :=
  xml_Unmarshal : list Byte.byte -> T -> T * option error.

Section Client.

(** The transport: the response body read from a GET of the URL, or
    the error of [http.Get] or of [ioutil.ReadAll]. *)
Variable transport : url.URL -> result (list Byte.byte).

Definition http_Get (u : url.URL) : Go (result (list Byte.byte)) := fun σ =>
  Returns (transport u) (mkWorld (heap σ) (sent σ ++ [u])).

(** fetch.  [range query] visits the entries in an unspecified order;
    the keys of a map are distinct, so the values it leaves do not
    depend on the order ([map_fold] takes one).  The calls from
    [values.Encode()] to [ioutil.ReadAll] are the transport, applied to
    the URL with the values to encode. *)
Definition fetch (w : WWO) (service : string) (query : mapref)
  : Go (list Byte.byte * option error) :=
  let Scheme := if WWO_Insecure w then "http" else "https" in
  let Host := "api.worldweatheronline.com" in
  let Path := "/premium/v1/" +:+ service +:+ ".ashx" in
  let values : url.Values := ∅ in
  let values := url.Values_Set values "key" (WWO_Key w) in
  entries ← mapentries query;
  let values := map_fold (fun k v values => url.Values_Set values k v) values entries in
  let values := url.Values_Set values "format" "xml" in
  r ← http_Get (url.mkURL Scheme Host Path values);
  match r with
  | Err err => mret ([], Some err)
  | Ok text => mret (text, None)
  end.

Context {decodeLocal : Unmarshaler Local}.

Definition GetLocal (w : WWO) (location : string) (opt : mapref)
  : Go (option Local * option error) :=
  mapassign opt "q" location;;
  mapassign opt "date_format" "";;
  '(text, err) ← fetch w "weather" opt;
  match err with
  | Some err => mret (None, Some err)
  | None =>
      let o := Local_zero in
      let '(o, err) := xml_Unmarshal text o in
      match err with
      | Some err => mret (Some o, Some err)
      | None =>
          match Local_Error o with
          | Some msg => mret (Some o, Some (errors.New msg))
          | None => mret (Some o, None)
          end
      end
  end.

Context {decodeMarine : Unmarshaler Marine}.

Definition GetMarine (w : WWO) (location : string) (opt : mapref)
  : Go (option Marine * option error) :=
  mapassign opt "q" location;;
  mapassign opt "date_format" "";;
  '(text, err) ← fetch w "marine" opt;
  match err with
  | Some err => mret (None, Some err)
  | None =>
      let o := Marine_zero in
      let '(o, err) := xml_Unmarshal text o in
      match err with
      | Some err => mret (Some o, Some err)
      | None =>
          match Marine_Error o with
          | Some msg => mret (Some o, Some (errors.New msg))
          | None => mret (Some o, None)
          end
      end
  end.

Context {decodeSki : Unmarshaler Ski}.

Definition GetSki (w : WWO) (location : string) (opt : mapref)
  : Go (option Ski * option error) :=
  mapassign opt "q" location;;
  mapassign opt "date_format" "";;
  '(text, err) ← fetch w "ski" opt;
  match err with
  | Some err => mret (None, Some err)
  | None =>
      let o := Ski_zero in
      let '(o, err) := xml_Unmarshal text o in
      match err with
      | Some err => mret (Some o, Some err)
      | None =>
          match Ski_Error o with
          | Some msg => mret (Some o, Some (errors.New msg))
          | None => mret (Some o, None)
          end
      end
  end.

Context {decodePastLocal : Unmarshaler PastLocal}.

Definition GetPastLocal (w : WWO) (location : string) (opt : mapref)
  : Go (option PastLocal * option error) :=
  mapassign opt "q" location;;
  mapassign opt "date_format" "";;
  '(text, err) ← fetch w "past-weather" opt;
  match err with
  | Some err => mret (None, Some err)
  | None =>
      let o := PastLocal_zero in
      let '(o, err) := xml_Unmarshal text o in
      match err with
      | Some err => mret (Some o, Some err)
      | None =>
          match PastLocal_Error o with
          | Some msg => mret (Some o, Some (errors.New msg))
          | None => mret (Some o, None)
          end
      end
  end.

(** PastMarine has the structure of Marine, field for field and tag
    for tag, and is decoded the same way. *)

Definition GetPastMarine (w : WWO) (location : string) (opt : mapref)
  : Go (option PastMarine * option error) :=
  mapassign opt "q" location;;
  mapassign opt "date_format" "";;
  '(text, err) ← fetch w "past-marine" opt;
  match err with
  | Some err => mret (None, Some err)
  | None =>
      let o := PastMarine_zero in
      let '(o, err) := xml_Unmarshal text o in
      match err with
      | Some err => mret (Some o, Some err)
      | None =>
          match Marine_Error o with
          | Some msg => mret (Some o, Some (errors.New msg))
          | None => mret (Some o, None)
          end
      end
  end.

Context {decodeSearch : Unmarshaler Search}.

Definition GetSearch (w : WWO) (location : string) (opt : mapref)
  : Go (option Search * option error) :=
  mapassign opt "q" location;;
  mapassign opt "date_format" "";;
  '(text, err) ← fetch w "search" opt;
  match err with
  | Some err => mret (None, Some err)
  | None =>
      let o := Search_zero in
      let '(o, err) := xml_Unmarshal text o in
      match err with
      | Some err => mret (Some o, Some err)
      | None =>
          match Search_Error o with
          | Some msg => mret (Some o, Some (errors.New msg))
          | None => mret (Some o, None)
          end
      end
  end.

Context {decodeTimeZone : Unmarshaler TimeZone}.

Definition GetTimeZone (w : WWO) (location : string) (opt : mapref)
  : Go (option TimeZone * option error) :=
  mapassign opt "q" location;;
  mapassign opt "date_format" "";;
  '(text, err) ← fetch w "tz" opt;
  match err with
  | Some err => mret (None, Some err)
  | None =>
      let o := TimeZone_zero in
      let '(o, err) := xml_Unmarshal text o in
      match err with
      | Some err => mret (Some o, Some err)
      | None =>
          match TimeZone_Error o with
          | Some msg => mret (Some o, Some (errors.New msg))
          | None => mret (Some o, None)
          end
      end
  end.

End Client.

(** A field of type Time12: encoding/xml hands the element to
    Time12.UnmarshalXML with the address of the field. *)
Definition storeTime12 {T : Type} (get : T -> Time12) (set : Time12 -> T -> T)
           (src : string) (t : T) : T * option error :=
  let '(v, err) := Time12_UnmarshalXML (Ok src) (get t) in
  (set v t, err).

Definition Astronomy_fields : list (Field Astronomy) :=
  [ ("moonrise", storeTime12 Astronomy_Moonrise (fun v a =>
       mkAstronomy v (Astronomy_Moonset a) (Astronomy_Sunrise a) (Astronomy_Sunset a)));
    ("moonset", storeTime12 Astronomy_Moonset (fun v a =>
       mkAstronomy (Astronomy_Moonrise a) v (Astronomy_Sunrise a) (Astronomy_Sunset a)));
    ("sunrise", storeTime12 Astronomy_Sunrise (fun v a =>
       mkAstronomy (Astronomy_Moonrise a) (Astronomy_Moonset a) v (Astronomy_Sunset a)));
    ("sunset", storeTime12 Astronomy_Sunset (fun v a =>
       mkAstronomy (Astronomy_Moonrise a) (Astronomy_Moonset a) (Astronomy_Sunrise a) v)) ].

Definition Astronomy_unmarshal (children : list Element) (a : Astronomy)
  : Astronomy * option error :=
  unmarshalStruct Astronomy_fields children a.

(** * The example program (example/main.go) *)

(** [make] or a map literal: a new map object with the given entries. *)
Definition newmap (m : gmap string string) : Go mapref := fun σ =>
  let l := fresh (dom (heap σ)) in
  Returns (Some l) (mkWorld (<[l := m]> (heap σ)) (sent σ)).

(** [err.Error()]: the text of an error made by errors.New is the text
    it was made from; [describe] stands for the Error methods of
    strconv and time. *)
Definition Error (describe : error -> string) (err : error) : string :=
  match err with
  | errorString s => s
  | ForeignError _ text => text
  | _ => describe err
  end.

Definition newline : string := String (ascii_of_nat 10) "".
Definition tab : string := String (ascii_of_nat 9) "".
(** The degree sign, two bytes in UTF-8. *)
Definition degree : string := String (ascii_of_nat 194) (String (ascii_of_nat 176) "").

Module fmt.

(** The operands the example program prints. *)
Inductive operand : Type :=
| OString (s : string)
| OInt (n : Z)                  (* an int or a uint *)
| OFloat (f : float64)
| OStringer (text : string).    (* an integer type with a String method, and its result *)

Definition isString (arg : operand) : bool :=
  match arg with
  | OString _ => true
  | _ => false
  end.

(** The decimal form of an integer, for the verb v. *)
Definition fmtInteger (n : Z) : string :=
  (if n <? 0 then "-" else "") +:+ time.utoa 20 (Z.abs n) "".

Section Print.

(** The form of a float64 for the verb v. *)
Variable fmtFloat : float64 -> string.

Definition printArg (arg : operand) : string :=
  match arg with
  | OString s => s
  | OInt n => fmtInteger n
  | OFloat f => fmtFloat f
  | OStringer text => text
  end.

(** doPrint: a space goes between two operands when neither is a string. *)
Fixpoint doPrint (first prevString : bool) (a : list operand) : string :=
  match a with
  | [] => ""
  | arg :: rest =>
      (if negb first && negb (isString arg) && negb prevString then " " else "")
      +:+ printArg arg +:+ doPrint false (isString arg) rest
  end.

Definition Sprint (a : list operand) : string := doPrint true false a.

End Print.

End fmt.

(** How a run of the program ends: with an exit status, 0 when main
    returns, or with a panic. *)
Inductive ending : Type :=
| Exit (code : Z)
| Panic (msg : string).

Record Run : Type := mkRun {
  Run_world  : World;
  Run_stdout : string;
  Run_stderr : string;
  Run_ending : ending }.

(** [f != 0] for a float64: false for either zero, true for a NaN. *)
Definition float64_nonzero (f : float64) : bool :=
  match f with
  | S754_zero _ => false
  | _ => true
  end.

Section Example.

Variable transport : url.URL -> result (list Byte.byte).
Context {decodeLocal : Unmarshaler Local}.
Variable describe : error -> string.
Variable fmtFloat : float64 -> string.

(** An [if] of main around one call of fmt.Print. *)
Definition print_if (c : bool) (a : list fmt.operand) : string :=
  if c then fmt.Sprint fmtFloat a else "".

(** What main writes to the standard output once it has the forecast.
    [cc.Temp] and [cc.Time] are the fields of CurrentCondition itself,
    which hide those of the embedded Condition. *)
Definition print_conditions (cc : CurrentCondition) : string :=
  let c := CurrentCondition_Condition cc in
  fmt.Sprint fmtFloat [fmt.OString "Current Conditions: "]
  +:+ print_if (negb (CurrentCondition_Time cc =? 0))
        [fmt.OString "at "; fmt.OStringer (Time12_String (CurrentCondition_Time cc));
         fmt.OString newline]
  +:+ print_if (negb (CurrentCondition_Temp cc =? 0))
        [fmt.OString ("Temperature" +:+ tab); fmt.OInt (CurrentCondition_Temp cc);
         fmt.OString (degree +:+ "C" +:+ newline)]
  +:+ print_if (negb (Condition_FeelsLike c =? 0))
        [fmt.OString ("Feels Like" +:+ tab); fmt.OInt (Condition_FeelsLike c);
         fmt.OString (degree +:+ "C" +:+ newline)]
  +:+ print_if (negb (Condition_Humidity c =? 0))
        [fmt.OString ("Humidity" +:+ tab); fmt.OInt (Condition_Humidity c);
         fmt.OString ("%" +:+ newline)]
  +:+ print_if (negb (Condition_DewPoint c =? 0))
        [fmt.OString ("Dew Point" +:+ tab); fmt.OInt (Condition_DewPoint c);
         fmt.OString (degree +:+ "C" +:+ newline)]
  +:+ print_if (negb (Condition_Pressure c =? 0))
        [fmt.OString ("Pressure" +:+ tab); fmt.OInt (Condition_Pressure c);
         fmt.OString ("mbar" +:+ newline)]
  +:+ print_if (negb (Condition_Visibility c =? 0))
        [fmt.OString ("Visibility" +:+ tab); fmt.OInt (Condition_Visibility c);
         fmt.OString ("km" +:+ newline)]
  +:+ print_if (negb (Condition_CloudCover c =? 0))
        [fmt.OString ("Cloud cover" +:+ tab); fmt.OInt (Condition_CloudCover c);
         fmt.OString ("%" +:+ newline)]
  +:+ print_if (float64_nonzero (Condition_Precip c))
        [fmt.OString ("Precipitation" +:+ tab); fmt.OFloat (Condition_Precip c);
         fmt.OString ("mm" +:+ newline)]
  +:+ print_if (negb (Condition_WindSpeed c =? 0))
        [fmt.OString ("Wind Speed" +:+ tab); fmt.OInt (Condition_WindSpeed c);
         fmt.OString ("km/h" +:+ newline)]
  +:+ print_if (negb (Condition_WindDir c =? 0))
        [fmt.OString ("Wind Direction" +:+ tab); fmt.OInt (Condition_WindDir c);
         fmt.OString (degree +:+ "E of N ("); fmt.OString (Condition_WindDirCompass c);
         fmt.OString (")" +:+ newline)].

(** main, run with the arguments [Args] of the process. *)
Definition main (Args : list string) (σ : World) : Run :=
  let weather := mkWWO "" false in
  if Z.of_nat (length Args) <? 3 then
    match Args with
    | [] => mkRun σ "" "" (Panic "index out of range [0] with length 0")
    | arg0 :: _ =>
        mkRun σ "" ("Usage: " +:+ arg0 +:+ " (apikey) (location)" +:+ newline) (Exit 1)
    end
  else
    let weather := mkWWO (nth 1 Args "") (WWO_Insecure weather) in
    let location := nth 2 Args "" in
    match (options ← newmap {["fx" := "no"]};
           GetLocal transport weather location options) σ with
    | Panics msg => mkRun σ "" "" (Panic msg)
    | Returns (_, Some err) σ' =>
        mkRun σ' "" ("Error: " +:+ Error describe err +:+ newline) (Exit 2)
    | Returns (None, None) σ' =>
        mkRun σ' "Current Conditions: " "" (Panic "nil pointer dereference")
    | Returns (Some forecast, None) σ' =>
        mkRun σ' (print_conditions (Local_Current forecast)) "" (Exit 0)
    end.

End Example.

(** * The vocabulary of the properties *)

(** ** Requests, results and worlds

    The query of the request in closed form: every entry of the options
    with its single value, the credential under "key" unless the options
    have an entry of that name, and "format" forced to "xml". *)

Definition request_values (key : string) (entries : gmap string string) : url.Values :=
  <["format" := ["xml"]]> (((fun v => [v]) <$> entries) ∪ {["key" := [key]]}).

Definition request_url (w : WWO) (service : string) (entries : gmap string string)
  : url.URL :=
  url.mkURL (if WWO_Insecure w then "http" else "https")
            "api.worldweatheronline.com"
            ("/premium/v1/" +:+ service +:+ ".ashx")
            (request_values (WWO_Key w) entries).

(** The options object after the two assignments every Get starts with. *)
Definition options_sent (location : string) (m : gmap string string)
  : gmap string string :=
  <["date_format" := ""]> (<["q" := location]> m).

(** The world after fetch: one more request sent, nothing else. *)
Definition world_sent (σ : World) (u : url.URL) : World :=
  mkWorld (heap σ) (sent σ ++ [u]).

(** The entries fetch ranges over. *)
Definition entries_of (query : mapref) (σ : World) : gmap string string :=
  match query with
  | None => ∅
  | Some l => default ∅ (heap σ !! l)
  end.

(** What a Get returns, read off the response of the transport. *)
Definition get_result {T : Type} (zero : T) (Error : T -> option string)
           (decode : Unmarshaler T) (resp : result (list Byte.byte))
  : option T * option error :=
  match resp with
  | Err err => (None, Some err)
  | Ok text =>
      match decode text zero with
      | (o, Some err) => (Some o, Some err)
      | (o, None) =>
          match Error o with
          | Some msg => (Some o, Some (errors.New msg))
          | None => (Some o, None)
          end
      end
  end.

(** The world after a Get on the options object at [l], which held [m]:
    the object has the two entries written, and one request was sent. *)
Definition world_after (σ : World) (l : loc) (m : gmap string string)
           (w : WWO) (service location : string) : World :=
  mkWorld (<[l := options_sent location m]> (heap σ))
          (sent σ ++ [request_url w service (options_sent location m)]).

Section ClientSpec.

Variable transport : url.URL -> result (list Byte.byte).

(** The behaviour shared by the seven operations. *)
Definition runs_as {T : Type} (zero : T) (Error : T -> option string)
           (decode : Unmarshaler T) (service : string)
           (Get : WWO -> string -> mapref -> Go (option T * option error)) : Prop :=
  (forall w location σ,
      Get w location None σ = Panics "assignment to entry in nil map") /\
  (forall w location l m σ,
      heap σ !! l = Some m ->
      Get w location (Some l) σ
      = Returns (get_result zero Error decode
                            (transport (request_url w service (options_sent location m))))
                (world_after σ l m w service location)).

Context {decodeLocal : Unmarshaler Local} {decodeMarine : Unmarshaler Marine}
        {decodeSki : Unmarshaler Ski} {decodePastLocal : Unmarshaler PastLocal}
        {decodeSearch : Unmarshaler Search} {decodeTimeZone : Unmarshaler TimeZone}.

(** A property of a Get operation, given with the zero value of its
    report, the error field of the report, its decoder and the name of
    its service, holds of each of the seven operations. *)
Definition ForEachGet
  (P : forall T : Type, T -> (T -> option string) -> Unmarshaler T -> string ->
                        (WWO -> string -> mapref -> Go (option T * option error)) -> Prop)
  : Prop :=
  P Local Local_zero Local_Error xml_Unmarshal "weather" (GetLocal transport) /\
  P Marine Marine_zero Marine_Error xml_Unmarshal "marine" (GetMarine transport) /\
  P Ski Ski_zero Ski_Error xml_Unmarshal "ski" (GetSki transport) /\
  P PastLocal PastLocal_zero PastLocal_Error xml_Unmarshal "past-weather"
    (GetPastLocal transport) /\
  P PastMarine PastMarine_zero Marine_Error (xml_Unmarshal (T := Marine)) "past-marine"
    (GetPastMarine transport) /\
  P Search Search_zero Search_Error xml_Unmarshal "search" (GetSearch transport) /\
  P TimeZone TimeZone_zero TimeZone_Error xml_Unmarshal "tz" (GetTimeZone transport).

End ClientSpec.

(** ** A service for the examples

    A stand-in for the remote service and for encoding/xml: the service
    answers a query for "Nowhere" with its error document, one for
    "Garbled" with a document cut short, and any other with an empty
    document; the decoder fails on a document that is cut short and
    otherwise reads the error message and nothing else. *)

Definition sample_error : string :=
  "Unable to find any matching weather location to the query submitted!".

Definition sample_transport (u : url.URL) : result (list Byte.byte) :=
  match url.Query u !! "q" with
  | Some ["Nowhere"] =>
      Ok (list_byte_of_string
            ("<data><error><msg>" +:+ sample_error +:+ "</msg></error></data>"))
  | Some ["Garbled"] => Ok (list_byte_of_string "<data><request><type>City")
  | Some _ => Ok (list_byte_of_string "<data></data>")
  | None => Err (ForeignError "net/http" "no query")
  end.

Definition sample_decode {T : Type} (setError : string -> T -> T) : Unmarshaler T :=
  fun text o =>
    let s := string_of_list_byte text in
    match index 0 "</data>" s with
    | None => (o, Some (ForeignError "encoding/xml" "XML syntax error: unexpected EOF"))
    | Some _ =>
        match index 0 "<msg>" s, index 0 "</msg>" s with
        | Some i, Some j => (setError (substring (i + 5) (j - (i + 5)) s) o, None)
        | _, _ => (o, None)
        end
    end.

#[local] Instance sample_Local : Unmarshaler Local :=
  sample_decode (fun msg o =>
    mkLocal (Local_Area o) (Local_Climate o) (Local_Current o) (Local_Request o)
            (Local_Weather o) (Some msg)).
#[local] Instance sample_Marine : Unmarshaler Marine :=
  sample_decode (fun msg o =>
    mkMarine (Marine_Request o) (Marine_Area o) (Marine_Weather o) (Some msg)).
#[local] Instance sample_Ski : Unmarshaler Ski :=
  sample_decode (fun msg o =>
    mkSki (Ski_Request o) (Ski_Area o) (Ski_Weather o) (Some msg)).
#[local] Instance sample_PastLocal : Unmarshaler PastLocal :=
  sample_decode (fun msg o =>
    mkPastLocal (PastLocal_Request o) (PastLocal_Area o) (PastLocal_Weather o) (Some msg)).
#[local] Instance sample_Search : Unmarshaler Search :=
  sample_decode (fun msg o => mkSearch (Search_Area o) (Some msg)).
#[local] Instance sample_TimeZone : Unmarshaler TimeZone :=
  sample_decode (fun msg o =>
    mkTimeZone (TimeZone_Request o) (TimeZone_Area o) (TimeZone_Zone o) (Some msg)).

Definition sample_client : WWO := mkWWO "0123456789abcdef" false.

(** The options of the example program, in an object at address 1. *)
Definition sample_world : World := mkWorld {[1%positive := {["fx" := "no"]}]} [].

(** ** Elements and fields *)

(** The value a field gets from the children of its element: that of
    the last child of its name that converts, or the old one. *)
Definition field_step (copyInt : string -> result Z) (name : string)
           (acc : Z) (e : Element) : Z :=
  if String.eqb name (Element_Name e)
  then match copyInt (Element_CharData e) with
       | Ok v => v
       | Err _ => acc
       end
  else acc.

Definition field_value (copyInt : string -> result Z) (name : string)
           (children : list Element) (old : Z) : Z :=
  fold_left (field_step copyInt name) children old.

(** One child element against the fields of a struct. *)
Definition unmarshalChild {T : Type} (fields : list (Field T)) (e : Element) (t : T)
  : T * option error :=
  match findField fields (Element_Name e) with
  | None => (t, None)
  | Some store => store (Element_CharData e) t
  end.

(** The conversion of encoding/xml for a field of kind int, on
    character data without white space around it: empty data is 0,
    any other goes through strconv.ParseInt(data, 10, 64). *)
Definition sample_copyInt (src : string) : result Z :=
  match src with
  | EmptyString => Ok 0
  | _ =>
      match strconv.ParseInt src 10 64 with
      | (v, None) => Ok v
      | (_, Some err) => Err err
      end
  end.

(** ** Numerals, clock times and dates *)

(** The string of the decimal digits [ds], and the number it denotes. *)
Fixpoint numeral (ds : list Z) : string :=
  match ds with
  | [] => ""
  | d :: ds' => String (time.digit d) (numeral ds')
  end.

Definition digits_value (ds : list Z) : Z := fold_left (fun n d => n * 10 + d) ds 0.

Definition is_digit (d : Z) : Prop := 0 <= d <= 9.

(** "HH:MM" *)
Definition clock_string (h m : Z) : string :=
  numeral [h / 10; h mod 10] +:+ ":" +:+ numeral [m / 10; m mod 10].

(** "H:MM AM" or "H:MM PM", the hour without a leading zero. *)
Definition clock12_string (h m : Z) (pm : bool) : string :=
  (if h <? 10 then numeral [h] else numeral [h / 10; h mod 10]) +:+ ":" +:+
  numeral [m / 10; m mod 10] +:+ " " +:+ (if pm then "PM" else "AM").

(** The hour of the day of an hour of the 12-hour clock. *)
Definition hour24 (h : Z) (pm : bool) : Z :=
  if pm then (if h <? 12 then h + 12 else h) else (if h =? 12 then 0 else h).

(** The days of year 0, which lie between the instant time.Parse gives
    for a clock time and the zero Time. *)
Definition year_zero : time.Duration := 366 * 24 * time.Hour.

Definition leap_year (y : Z) : bool :=
  (y mod 4 =? 0) && (negb (y mod 100 =? 0) || (y mod 400 =? 0)).

Definition month_length (leap : bool) (m : Z) : Z :=
  nth (Z.to_nat (m - 1))
      [31; if leap then 29 else 28; 31; 30; 31; 30; 31; 31; 30; 31; 30; 31] 0.

(** A date of the (proleptic) Gregorian calendar with a four-digit year. *)
Definition calendar_date (y m d : Z) : Prop :=
  0 <= y <= 9999 /\ 1 <= m <= 12 /\ 1 <= d <= month_length (leap_year y) m.

(** "YYYY-MM-DD" *)
Definition date_string (y m d : Z) : string :=
  numeral [y / 1000; y / 100 mod 10; y / 10 mod 10; y mod 10] +:+ "-" +:+
  numeral [m / 10; m mod 10] +:+ "-" +:+
  numeral [d / 10; d mod 10].

(** The day of the year, from 0, of day [d] of month [m]. *)
Definition year_day (leap : bool) (m d : Z) : Z :=
  time.daysBefore (m - 1) + (if leap && (3 <=? m) then 1 else 0) + (d - 1).

(** Whether day [d] of month [m], both counted from 1 by one index
    below 12 * 31, is no date or comes back from its day of the year. *)
Definition monthDay_inverts (leap : bool) (i : Z) : bool :=
  let m := i / 31 + 1 in
  let d := i mod 31 + 1 in
  (month_length leap m <? d)
  || (let k := year_day leap m d in
      let '(m', d') := time.monthDay leap k in
      (m' =? m) && (d' =? d) && (0 <=? k) && (k <? 365 + (if leap then 1 else 0))).

Definition Time12_consistent (i : Z) : bool :=
  let pm := 720 <=? i in
  let h := i mod 720 / 60 + 1 in
  let m := i mod 60 in
  let expected := hour24 h pm * time.Hour + m * time.Minute - year_zero in
  match Time12_UnmarshalXML (Ok (clock12_string h m pm)) 0 with
  | (t, None) =>
      (t =? expected) && String.eqb (Time12_String t) (clock_string (hour24 h pm) m)
  | (_, Some _) => false
  end.

(** A transport without a network: every request fails. *)
Definition sample_offline (u : url.URL) : result (list Byte.byte) :=
  Err (ForeignError "net/http" "dial tcp: lookup api.worldweatheronline.com: no such host").

(** The hour and the minute of the day that a duration added to the
    zero Time falls on. *)
Definition clock_of (d : time.Duration) : Z * Z :=
  let s := (d / 1000000000) mod 86400 in
  (s / 3600, s mod 3600 / 60).

(** What TimeHMM.UnmarshalXML leaves when strconv.ParseUint reports a
    value out of range: the hours and minutes of 4095. *)
Definition TimeHMM_out_of_range : TimeHMM := 40 * time.Hour + 95 * time.Minute.

(** A time of the 12-hour clock as the service writes it, "HH:MM AM",
    or with a one-digit hour, "H:MM AM"; the hour may be 0. *)
Definition clock12_text (padded : bool) (h m : Z) (pm : bool) : string :=
  (if padded || (10 <=? h) then numeral [h / 10; h mod 10] else numeral [h]) +:+ ":" +:+
  numeral [m / 10; m mod 10] +:+ " " +:+ (if pm then "PM" else "AM").

Definition Time12_text_consistent (i : Z) : bool :=
  let padded := 1560 <=? i in
  let pm := 780 <=? i mod 1560 in
  let h := i mod 780 / 60 in
  let m := i mod 60 in
  let expected := hour24 h pm * time.Hour + m * time.Minute - year_zero in
  match Time12_UnmarshalXML (Ok (clock12_text padded h m pm)) 0 with
  | (t, None) =>
      (t =? expected) && String.eqb (Time12_String t) (clock_string (hour24 h pm) m)
  | (_, Some _) => false
  end.

(** An event of the astronomy block as the payload has it: a time of
    the 12-hour clock, or a text that says there is none that day. *)
Inductive event : Type :=
| Occurs (padded : bool) (h m : Z) (pm : bool)
| NoEvent (what : string).

Definition event_text (e : event) : string :=
  match e with
  | Occurs padded h m pm => clock12_text padded h m pm
  | NoEvent what => "No " +:+ what
  end.

Definition event_value (e : event) : Time12 :=
  match e with
  | Occurs _ h m pm => hour24 h pm * time.Hour + m * time.Minute - year_zero
  | NoEvent _ => -1
  end.

Definition event_on_clock (e : event) : Prop :=
  match e with
  | Occurs _ h m _ => 0 <= h <= 12 /\ 0 <= m < 60
  | NoEvent _ => True
  end.

Definition event_element (ne : string * event) : Element :=
  mkElement (fst ne) (event_text (snd ne)).

(** The value of the last event of the given name, or the old one. *)
Definition last_event (name : string) (events : list (string * event)) (old : Time12)
  : Time12 :=
  fold_left (fun acc ne => if String.eqb name (fst ne) then event_value (snd ne) else acc)
            events old.

(** ** The example program *)

(** The one request of the example program. *)
Definition example_request (key location : string) : url.URL :=
  url.mkURL "https" "api.worldweatheronline.com" "/premium/v1/weather.ashx"
            {[ "format" := ["xml"]; "date_format" := [""]; "q" := [location];
               "fx" := ["no"]; "key" := [key] ]}.

(** Its options object when the request is sent. *)
Definition example_options (location : string) : gmap string string :=
  {[ "date_format" := ""; "q" := location; "fx" := "no" ]}.

(** The world when the request has been sent. *)
Definition example_world (σ : World) (key location : string) : World :=
  mkWorld (<[fresh (dom (heap σ)) := example_options location]> (heap σ))
          (sent σ ++ [example_request key location]).

(** The fields main looks at are all zero. *)
Definition nothing_to_print (cc : CurrentCondition) : Prop :=
  let c := CurrentCondition_Condition cc in
  CurrentCondition_Time cc = 0 /\ CurrentCondition_Temp cc = 0 /\
  Condition_FeelsLike c = 0 /\ Condition_Humidity c = 0 /\ Condition_DewPoint c = 0 /\
  Condition_Pressure c = 0 /\ Condition_Visibility c = 0 /\ Condition_CloudCover c = 0 /\
  float64_nonzero (Condition_Precip c) = false /\
  Condition_WindSpeed c = 0 /\ Condition_WindDir c = 0.

(** A service that answers every request with the report of the
    example output of the README, and one whose report has an
    observation at midnight and, of the rest, only fields the program
    does not print. *)
Definition readme_report : Local :=
  mkLocal Area_zero []
    (mkCurrentCondition
       (mkCondition 0 0 0 0 20 68 0 0 60 float64_zero float64_zero 1022 30 0 0 10 6 113
                    "Sunny" "" 0 0 90 "E" 0 0 15 0 0 9)
       68 20 (event_value (Occurs true 2 45 true)))
    Request_zero [] None.

Definition midnight_report : Local :=
  mkLocal Area_zero []
    (mkCurrentCondition
       (mkCondition (12 * time.Hour) 0 0 0 0 0 0 0 0 float64_zero float64_zero 0 0 21 70 0 0 0
                    "" "" 0 0 0 "N" 0 0 0 0 0 0)
       70 0 (event_value (Occurs true 12 0 false)))
    Request_zero [] None.

Definition served_transport (u : url.URL) : result (list Byte.byte) := Ok [].

Definition serve (o : Local) : Unmarshaler Local := fun _ _ => (o, None).

Definition sample_describe (err : error) : string := "error".

Definition sample_fmtFloat (f : float64) : string := "0".

(** A report with every printed quantity zero and others not, and the
    report of the service's error document. *)
Definition calm_report : Local :=
  mkLocal Area_zero []
    (mkCurrentCondition
       (mkCondition (12 * time.Hour) 0 0 0 0 0 0 0 0 float64_zero float64_zero 0 0 21 70 0 0 0
                    "Clear" "" 0 0 0 "N" 0 0 0 0 0 0)
       32 0 0)
    Request_zero [] None.

Definition error_report : Local :=
  mkLocal Area_zero [] CurrentCondition_zero Request_zero [] (Some sample_error).

(** * Properties of the client *)

Lemma range_Set_lookup (init : url.Values) (entries : gmap string string) (k : string) :
  map_fold (fun k v values => url.Values_Set values k v) init entries !! k
  = match entries !! k with Some v => Some [v] | None => init !! k end.
Proof.
  revert k.
  apply (map_fold_weak_ind
           (fun r (m : gmap string string) =>
              forall k, r !! k = match m !! k with Some v => Some [v] | None => init !! k end)).
  - intros k. by rewrite lookup_empty.
  - intros i x m r Hi IH k. unfold url.Values_Set.
    destruct (decide (i = k)) as [->|Hne].
    + by rewrite !lookup_insert_eq.
    + rewrite !lookup_insert_ne by done. apply IH.
Qed.

Lemma range_Set_values (key : string) (entries : gmap string string) :
  url.Values_Set
    (map_fold (fun k v values => url.Values_Set values k v)
              (url.Values_Set ∅ "key" key) entries) "format" "xml"
  = request_values key entries.
Proof.
  unfold request_values, url.Values_Set. f_equal.
  apply map_eq. intros k.
  rewrite range_Set_lookup, lookup_union, lookup_fmap.
  destruct (entries !! k) as [v|]; simpl.
  - by destruct ({["key" := [key]]} !! k).
  - rewrite insert_empty. by destruct ({["key" := [key]]} !! k).
Qed.

Lemma request_values_format key entries :
  request_values key entries !! "format" = Some ["xml"].
Proof. unfold request_values. by rewrite lookup_insert_eq. Qed.

Lemma request_values_entry key entries k v :
  k ≠ "format" -> entries !! k = Some v ->
  request_values key entries !! k = Some [v].
Proof.
  intros Hk Hv. unfold request_values.
  rewrite lookup_insert_ne by done.
  rewrite lookup_union, lookup_fmap, Hv. simpl.
  by destruct ({["key" := [key]]} !! k).
Qed.

Lemma request_values_key key entries :
  request_values key entries !! "key"
  = Some [match entries !! "key" with Some v => v | None => key end].
Proof.
  unfold request_values.
  rewrite lookup_insert_ne by done.
  rewrite lookup_union, lookup_fmap.
  destruct (entries !! "key"); simpl; by rewrite lookup_singleton_eq.
Qed.

Section ClientFacts.

Variable transport : url.URL -> result (list Byte.byte).

Lemma fetch_sends (w : WWO) (service : string) (query : mapref) (σ : World) :
  let u := request_url w service (entries_of query σ) in
  fetch transport w service query σ
  = Returns (match transport u with
             | Err err => ([], Some err)
             | Ok text => (text, None)
             end) (world_sent σ u).
Proof.
  unfold fetch, mbind, Go_bind, mapentries, http_Get, entries_of; simpl.
  destruct query as [l|]; simpl; rewrite range_Set_values;
    unfold request_url, world_sent; by destruct (transport _).
Qed.

Lemma assigned_twice (h : gmap loc (gmap string string)) l m (k1 v1 k2 v2 : string) :
  h !! l = Some m ->
  alter (insert k2 v2) l (alter (insert k1 v1) l h) = <[l := <[k2 := v2]> (<[k1 := v1]> m)]> h.
Proof.
  intros Hl. apply map_eq. intros l'.
  destruct (decide (l = l')) as [<-|Hne].
  - by rewrite lookup_insert_eq, !lookup_alter_eq, Hl.
  - by rewrite lookup_insert_ne, !lookup_alter_ne.
Qed.

Ltac get_runs get :=
  split;
  [ reflexivity
  | intros w location l m σ Hl;
    unfold get;
    unfold mbind, Go_bind, mapassign; simpl;
    rewrite fetch_sends; simpl;
    unfold entries_of; simpl;
    rewrite (assigned_twice _ _ _ _ _ _ _ Hl), lookup_insert_eq; simpl;
    fold (options_sent location m);
    unfold get_result, world_after, world_sent, xml_Unmarshal; simpl;
    destruct (transport _) as [text|err]; simpl; [|reflexivity];
    match goal with |- context [?d text ?z] => destruct (d text z) as [o [err|]] end;
    simpl; [reflexivity|];
    match goal with |- context [match ?e with Some _ => _ | None => _ end] =>
                      destruct e end; reflexivity ].

Context {decodeLocal : Unmarshaler Local} {decodeMarine : Unmarshaler Marine}
        {decodeSki : Unmarshaler Ski} {decodePastLocal : Unmarshaler PastLocal}
        {decodeSearch : Unmarshaler Search} {decodeTimeZone : Unmarshaler TimeZone}.

Lemma GetLocal_runs :
  runs_as transport Local_zero Local_Error xml_Unmarshal "weather" (GetLocal transport).
Proof. get_runs @GetLocal. Qed.

Lemma GetMarine_runs :
  runs_as transport Marine_zero Marine_Error xml_Unmarshal "marine" (GetMarine transport).
Proof. get_runs @GetMarine. Qed.

Lemma GetSki_runs :
  runs_as transport Ski_zero Ski_Error xml_Unmarshal "ski" (GetSki transport).
Proof. get_runs @GetSki. Qed.

Lemma GetPastLocal_runs :
  runs_as transport PastLocal_zero PastLocal_Error xml_Unmarshal "past-weather"
          (GetPastLocal transport).
Proof. get_runs @GetPastLocal. Qed.

Lemma GetPastMarine_runs :
  runs_as transport PastMarine_zero Marine_Error (xml_Unmarshal (T := Marine)) "past-marine"
          (GetPastMarine transport).
Proof. get_runs @GetPastMarine. Qed.

Lemma GetSearch_runs :
  runs_as transport Search_zero Search_Error xml_Unmarshal "search" (GetSearch transport).
Proof. get_runs @GetSearch. Qed.

Lemma GetTimeZone_runs :
  runs_as transport TimeZone_zero TimeZone_Error xml_Unmarshal "tz" (GetTimeZone transport).
Proof. get_runs @GetTimeZone. Qed.

Lemma ForEachGet_runs P :
  (forall T zero Error decode service Get,
      @runs_as transport T zero Error decode service Get -> P T zero Error decode service Get) ->
  ForEachGet transport P.
Proof.
  intros HP. unfold ForEachGet.
  repeat split; apply HP;
    auto using GetLocal_runs, GetMarine_runs, GetSki_runs, GetPastLocal_runs,
               GetPastMarine_runs, GetSearch_runs, GetTimeZone_runs.
Qed.

(** C1. When the payload the transport returns decodes without error and
    holds an error message (the error field of the decoded report is not
    nil), each of the seven Get operations returns the decoded report,
    not nil, with an error of errors.New whose text is that message, as
    it is. *)
Theorem Get_returns_report_and_remote_error :
  ForEachGet transport (fun T zero remoteError decode service Get =>
    forall w location l m σ text o msg,
      heap σ !! l = Some m ->
      transport (request_url w service (options_sent location m)) = Ok text ->
      decode text zero = (o, None) ->
      remoteError o = Some msg ->
      Get w location (Some l) σ
      = Returns (Some o, Some (errorString msg)) (world_after σ l m w service location) /\
      forall describe, Error describe (errorString msg) = msg).
Proof.
  apply ForEachGet_runs.
  intros T zero remoteError decode service Get [_ Hrun]
         w location l m σ text o msg Hl Ht Hd He.
  split; [|reflexivity].
  rewrite (Hrun _ _ _ _ _ Hl). unfold get_result. by rewrite Ht, Hd, He.
Qed.

(** C4. When the decoder fails on the payload, each of the seven Get
    operations returns the report as the decoder left it, not nil, with
    the error of the decoder. *)
Theorem Get_returns_partial_report_and_decode_error :
  ForEachGet transport (fun T zero Error decode service Get =>
    forall w location l m σ text o err,
      heap σ !! l = Some m ->
      transport (request_url w service (options_sent location m)) = Ok text ->
      decode text zero = (o, Some err) ->
      Get w location (Some l) σ
      = Returns (Some o, Some err) (world_after σ l m w service location)).
Proof.
  apply ForEachGet_runs.
  intros T zero Error decode service Get [_ Hrun] w location l m σ text o err Hl Ht Hd.
  rewrite (Hrun _ _ _ _ _ Hl). unfold get_result. by rewrite Ht, Hd.
Qed.

(** C5, as the code has it. The request fetch sends always has format =
    "xml"; its key is the credential of the client unless the options
    have an entry named "key", whose value is then sent instead. *)
Theorem fetch_sends_format_and_key (w : WWO) (service : string) (query : mapref)
        (σ : World) :
  exists r u,
    fetch transport w service query σ = Returns r (world_sent σ u) /\
    url.Query u !! "format" = Some ["xml"] /\
    url.Query u !! "key"
    = Some [match entries_of query σ !! "key" with
            | Some v => v
            | None => WWO_Key w
            end].
Proof.
  eexists _, _. split; [apply fetch_sends|]. simpl.
  split; [apply request_values_format | apply request_values_key].
Qed.

(** C6, as the code has it. A Get that returns has sent one request and
    has written the entries "q" and "date_format" into the options
    object of the caller; it has changed nothing else. *)
Theorem Get_effects :
  ForEachGet transport (fun T zero Error decode service Get =>
    forall w location l m σ r σ',
      heap σ !! l = Some m ->
      Get w location (Some l) σ = Returns r σ' ->
      heap σ' = <[l := <["date_format" := ""]> (<["q" := location]> m)]> (heap σ) /\
      sent σ' = (sent σ ++ [request_url w service (options_sent location m)])%list).
Proof.
  apply ForEachGet_runs.
  intros T zero Error decode service Get [_ Hrun] w location l m σ r σ' Hl Hget.
  rewrite (Hrun _ _ _ _ _ Hl) in Hget. by injection Hget as _ <-.
Qed.

(** C8. Every Get on an options map sends "q" equal to the location
    argument and "date_format" empty, whatever the options held under
    these names. *)
Theorem Get_sends_location_and_empty_date_format :
  ForEachGet transport (fun T zero Error decode service Get =>
    forall w location l m σ,
      heap σ !! l = Some m ->
      exists r σ' u,
        Get w location (Some l) σ = Returns r σ' /\
        sent σ' = (sent σ ++ [u])%list /\
        url.Query u !! "q" = Some [location] /\
        url.Query u !! "date_format" = Some [""]).
Proof.
  apply ForEachGet_runs.
  intros T zero Error decode service Get [_ Hrun] w location l m σ Hl.
  eexists _, _, _. split; [apply (Hrun _ _ _ _ _ Hl)|].
  split; [reflexivity|]. simpl. unfold options_sent. split.
  - apply request_values_entry; [done|].
    by rewrite lookup_insert_ne, lookup_insert_eq.
  - apply request_values_entry; [done|]. by rewrite lookup_insert_eq.
Qed.

(** C10. A Get called with a nil options map panics at the assignment
    of "q"; called with an options map it returns. *)
Theorem Get_panics_on_nil_options :
  ForEachGet transport (fun T zero Error decode service Get =>
    (forall w location σ,
        Get w location None σ = Panics "assignment to entry in nil map") /\
    (forall w location l m σ,
        heap σ !! l = Some m ->
        exists r σ', Get w location (Some l) σ = Returns r σ')).
Proof.
  apply ForEachGet_runs.
  intros T zero Error decode service Get [Hnil Hrun]. split; [exact Hnil|].
  intros w location l m σ Hl. eexists _, _. apply (Hrun _ _ _ _ _ Hl).
Qed.

End ClientFacts.

(** ** Examples *)

Lemma Get_returns_report_and_remote_error_witness :
  GetLocal sample_transport sample_client "Nowhere" (Some 1%positive) sample_world
  = Returns (Some (mkLocal Area_zero [] CurrentCondition_zero Request_zero []
                           (Some sample_error)),
             Some (errorString sample_error))
            (world_after sample_world 1%positive {["fx" := "no"]} sample_client
                         "weather" "Nowhere") /\
  Error sample_describe (errorString sample_error)
  = "Unable to find any matching weather location to the query submitted!".
Proof.
  destruct (proj1 (Get_returns_report_and_remote_error sample_transport)
                  sample_client "Nowhere" 1%positive {["fx" := "no"]} sample_world
                  (list_byte_of_string
                     ("<data><error><msg>" +:+ sample_error +:+ "</msg></error></data>"))
                  (mkLocal Area_zero [] CurrentCondition_zero Request_zero []
                           (Some sample_error))
                  sample_error) as [Hget Htext].
  - reflexivity.
  - vm_compute. reflexivity.
  - vm_compute. reflexivity.
  - reflexivity.
  - split; [exact Hget | exact (Htext sample_describe)].
Defined.

Lemma Get_returns_partial_report_and_decode_error_witness :
  GetLocal sample_transport sample_client "Garbled" (Some 1%positive) sample_world
  = Returns (Some Local_zero,
             Some (ForeignError "encoding/xml" "XML syntax error: unexpected EOF"))
            (world_after sample_world 1%positive {["fx" := "no"]} sample_client
                         "weather" "Garbled").
Proof.
  apply (proj1 (Get_returns_partial_report_and_decode_error sample_transport)
               sample_client "Garbled" 1%positive {["fx" := "no"]} sample_world
               (list_byte_of_string "<data><request><type>City")).
  - reflexivity.
  - vm_compute. reflexivity.
  - vm_compute. reflexivity.
Defined.

(** C5, as the claim has it, fails: with an entry named "key" in the
    options, the request carries that entry, not the credential. *)
Lemma fetch_key_counterexample :
  let σ := mkWorld {[1%positive := {["key" := "another"; "q" := "London"]}]} [] in
  exists r u,
    fetch sample_transport sample_client "weather" (Some 1%positive) σ
    = Returns r (world_sent σ u) /\
    url.Query u !! "key" = Some ["another"] /\
    url.Query u !! "key" <> Some [WWO_Key sample_client].
Proof.
  intros σ. eexists _, _. split; [apply fetch_sends|]. simpl.
  rewrite request_values_key. by vm_compute.
Qed.

(** C6, as the claim has it, fails: the options of the example program
    hold two more entries after the call. *)
Lemma Get_options_counterexample :
  exists r σ',
    GetLocal sample_transport sample_client "London" (Some 1%positive) sample_world
    = Returns r σ' /\
    heap σ' !! 1%positive
    = Some {["date_format" := ""; "fx" := "no"; "q" := "London"]} /\
    heap σ' <> heap sample_world.
Proof.
  eexists _, _. split.
  - apply (proj2 (GetLocal_runs sample_transport)
                 sample_client "London" 1%positive {["fx" := "no"]}). reflexivity.
  - simpl. rewrite lookup_insert_eq. split.
    + by vm_compute.
    + intros Heq. apply (f_equal (fun h => h !! 1%positive ≫= (fun m => m !! "q"))) in Heq.
      revert Heq. rewrite lookup_insert_eq. by vm_compute.
Qed.

Lemma Get_effects_witness :
  let σ' := world_after sample_world 1%positive {["fx" := "no"]} sample_client
                        "weather" "London" in
  heap σ' = <[1%positive := <["date_format" := ""]> (<["q" := "London"]> {["fx" := "no"]})]>
              (heap sample_world) /\
  sent σ' = (sent sample_world ++
             [request_url sample_client "weather"
                          (options_sent "London" {["fx" := "no"]})])%list.
Proof.
  intros σ'.
  apply (proj1 (Get_effects sample_transport)
               sample_client "London" 1%positive {["fx" := "no"]} sample_world
               (Some Local_zero, None) σ').
  - reflexivity.
  - vm_compute. reflexivity.
Defined.

Lemma Get_sends_location_and_empty_date_format_witness :
  exists r σ' u,
    GetLocal sample_transport sample_client "London" (Some 1%positive) sample_world
    = Returns r σ' /\
    sent σ' = (sent sample_world ++ [u])%list /\
    url.Query u !! "q" = Some ["London"] /\
    url.Query u !! "date_format" = Some [""].
Proof.
  apply (proj1 (Get_sends_location_and_empty_date_format sample_transport)
               sample_client "London" 1%positive {["fx" := "no"]} sample_world).
  reflexivity.
Defined.

Lemma Get_panics_on_nil_options_witness :
  exists r σ',
    GetSearch sample_transport sample_client "London" (Some 1%positive) sample_world
    = Returns r σ'.
Proof.
  apply (proj2 (proj1 (proj2 (proj2 (proj2 (proj2 (proj2
           (Get_panics_on_nil_options sample_transport)))))))
         sample_client "London" 1%positive {["fx" := "no"]} sample_world).
  reflexivity.
Defined.

(** * Properties of the data model *)

(** ** The temperature range of a day *)

Lemma unmarshalStruct_cons {T : Type} (fields : list (Field T)) e children (t : T) :
  unmarshalStruct fields (e :: children) t
  = match unmarshalChild fields e t with
    | (t', None) => unmarshalStruct fields children t'
    | (t', Some err) => (t', Some err)
    end.
Proof.
  unfold unmarshalChild. simpl.
  destruct (findField fields (Element_Name e)); reflexivity.
Qed.

Lemma TempRange_child (copyInt : string -> result Z) (e : Element) (t0 t1 : TempRange) :
  unmarshalChild (TempRange_fields copyInt) e t0 = (t1, None) ->
  TempRange_MaxTemp t1 = field_step copyInt "maxtempC" (TempRange_MaxTemp t0) e /\
  TempRange_MaxTempF t1 = field_step copyInt "maxtempF" (TempRange_MaxTempF t0) e /\
  TempRange_MinTemp t1 = field_step copyInt "mintempC" (TempRange_MinTemp t0) e /\
  TempRange_MinTempF t1 = field_step copyInt "mintempF" (TempRange_MinTempF t0) e.
Proof.
  destruct e as [name data]. unfold unmarshalChild, field_step, TempRange_fields.
  cbn [findField Element_Name Element_CharData].
  destruct (String.eqb_spec "maxtempC" name) as [<-|N1];
    [|destruct (String.eqb_spec "maxtempF" name) as [<-|N2];
      [|destruct (String.eqb_spec "mintempC" name) as [<-|N3];
        [|destruct (String.eqb_spec "mintempF" name) as [<-|N4]]]];
    unfold storeInt; cbn;
    try (destruct (copyInt data) as [v|err]; [|discriminate]);
    intros [= <-]; auto.
Qed.

(** C7, as the claim has it, fails: two day entries with the same
    Celsius maximum decode to different Fahrenheit maxima, each read
    from the payload. *)
Lemma TempRange_units_counterexample :
  let day1 := [mkElement "maxtempC" "20"; mkElement "maxtempF" "68"] in
  let day2 := [mkElement "maxtempC" "20"; mkElement "maxtempF" "-4"] in
  exists t1 t2,
    TempRange_unmarshal sample_copyInt day1 TempRange_zero = (t1, None) /\
    TempRange_unmarshal sample_copyInt day2 TempRange_zero = (t2, None) /\
    TempRange_MaxTemp t1 = TempRange_MaxTemp t2 /\
    TempRange_MaxTempF t1 = 68 /\ TempRange_MaxTempF t2 = -4.
Proof.
  intros day1 day2.
  exists (mkTempRange 20 68 0 0), (mkTempRange 20 (-4) 0 0).
  repeat split; vm_compute; reflexivity.
Qed.

(** C7, as the code has it. Each of the four temperature fields of a
    decoded range is read from the payload elements of its own name
    (maxtempC, maxtempF, mintempC, mintempF) and from nothing else: no
    field is computed from another. *)
Theorem TempRange_fields_decoded_independently
        (copyInt : string -> result Z) (children : list Element) (t0 t : TempRange) :
  TempRange_unmarshal copyInt children t0 = (t, None) ->
  TempRange_MaxTemp t = field_value copyInt "maxtempC" children (TempRange_MaxTemp t0) /\
  TempRange_MaxTempF t = field_value copyInt "maxtempF" children (TempRange_MaxTempF t0) /\
  TempRange_MinTemp t = field_value copyInt "mintempC" children (TempRange_MinTemp t0) /\
  TempRange_MinTempF t = field_value copyInt "mintempF" children (TempRange_MinTempF t0).
Proof.
  unfold TempRange_unmarshal, field_value.
  revert t0. induction children as [|e children IH]; intros t0 H.
  - by injection H as <-.
  - rewrite unmarshalStruct_cons in H.
    destruct (unmarshalChild (TempRange_fields copyInt) e t0) as [t1 [err|]] eqn:Hchild;
      [discriminate|].
    apply TempRange_child in Hchild as (E1 & E2 & E3 & E4).
    cbn [fold_left]. rewrite <- E1, <- E2, <- E3, <- E4.
    apply (IH _ H).
Qed.

Lemma TempRange_fields_decoded_independently_witness :
  let t := mkTempRange 20 68 11 52 in
  let day := [mkElement "mintempC" "11"; mkElement "maxtempC" "20";
              mkElement "uvIndex" "5";
              mkElement "mintempF" "52"; mkElement "maxtempF" "68"] in
  TempRange_MaxTemp t = field_value sample_copyInt "maxtempC" day 0 /\
  TempRange_MaxTempF t = field_value sample_copyInt "maxtempF" day 0 /\
  TempRange_MinTemp t = field_value sample_copyInt "mintempC" day 0 /\
  TempRange_MinTempF t = field_value sample_copyInt "mintempF" day 0.
Proof.
  intros t day.
  apply (TempRange_fields_decoded_independently sample_copyInt day TempRange_zero t).
  vm_compute. reflexivity.
Defined.

(** * Properties of the scalar decoders *)

Lemma byte_of_digit (d : Z) : is_digit d -> byte_of (time.digit d) = 48 + d.
Proof.
  intros [H0 H9].
  assert (d = 0 \/ d = 1 \/ d = 2 \/ d = 3 \/ d = 4 \/ d = 5 \/ d = 6 \/ d = 7
          \/ d = 8 \/ d = 9) as Hd by lia.
  repeat (destruct Hd as [->|Hd]; [reflexivity|]). by subst.
Qed.

(** A property checked on every number below [n] holds of each. *)
Lemma forall_below (P : Z -> bool) (n : Z) :
  forallb P (map Z.of_nat (seq 0 (Z.to_nat n))) = true ->
  forall x, 0 <= x < n -> P x = true.
Proof.
  intros Hall x Hx. rewrite forallb_forall in Hall. apply Hall.
  apply in_map_iff. exists (Z.to_nat x). split; [lia|].
  apply in_seq. lia.
Qed.

(** Decide the test of a conditional by arithmetic. *)
Ltac if_true :=
  match goal with
  | |- context [if ?c then _ else _] =>
      let E := fresh "E" in destruct c eqn:E; [|exfalso; lia]
  end.

Ltac if_false :=
  match goal with
  | |- context [if ?c then _ else _] =>
      let E := fresh "E" in destruct c eqn:E; [exfalso; lia|]
  end.

Lemma int64_small (z : Z) : - 2 ^ 63 <= z < 2 ^ 63 -> int64 z = z.
Proof. intros H. unfold int64. rewrite Z.mod_small; lia. Qed.

Lemma uint64_small (z : Z) : 0 <= z < 2 ^ 64 -> uint64 z = z.
Proof. intros H. unfold uint64. by rewrite Z.mod_small. Qed.

(** ** strconv.ParseUint on numerals *)

Lemma digits_fold_ge (ds : list Z) (n : Z) :
  Forall is_digit ds -> 0 <= n -> n <= fold_left (fun n d => n * 10 + d) ds n.
Proof.
  intros Hds. revert n. induction Hds as [|d ds [Hd0 Hd9] _ IH]; intros n Hn; simpl.
  - lia.
  - specialize (IH (n * 10 + d)). lia.
Qed.

Lemma parseUintLoop_numeral (s0 : string) (maxVal : Z) (ds : list Z) (n : Z) :
  Forall is_digit ds -> 0 <= n ->
  maxVal < 2 ^ 32 ->
  fold_left (fun n d => n * 10 + d) ds n <= maxVal ->
  strconv.parseUintLoop s0 10 (maxUint64 / 10 + 1) maxVal (numeral ds) n
  = (fold_left (fun n d => n * 10 + d) ds n, None).
Proof.
  intros Hds. revert n.
  induction Hds as [|d ds Hd Hds IH]; intros n Hn Hmax Hle; [reflexivity|].
  pose proof Hd as [Hd0 Hd9].
  cbn [numeral fold_left strconv.parseUintLoop] in *.
  pose proof (digits_fold_ge ds (n * 10 + d) Hds ltac:(lia)) as Hge.
  rewrite (byte_of_digit d Hd).
  replace ((48 <=? 48 + d) && (48 + d <=? 57)) with true by (symmetry; apply andb_true_iff; lia).
  replace (48 + d - 48) with d by lia.
  replace (10 <=? d) with false by (symmetry; apply Z.leb_gt; lia).
  change (maxUint64 / 10 + 1) with 1844674407370955162.
  replace (1844674407370955162 <=? n) with false by (symmetry; apply Z.leb_gt; lia).
  rewrite (uint64_small (n * 10)) by lia.
  rewrite (uint64_small (n * 10 + d)) by lia.
  replace (n * 10 + d <? n * 10) with false by (symmetry; apply Z.ltb_ge; lia).
  replace (maxVal <? n * 10 + d) with false by (symmetry; apply Z.ltb_ge; lia).
  apply IH; lia.
Qed.

Lemma ParseUint_numeral (ds : list Z) :
  ds <> [] -> Forall is_digit ds -> digits_value ds <= 4095 ->
  strconv.ParseUint (numeral ds) 10 12 = (digits_value ds, None).
Proof.
  intros Hne Hds Hle. unfold strconv.ParseUint.
  destruct ds as [|d ds]; [done|].
  change (numeral (d :: ds)) with (String (time.digit d) (numeral ds)) at 1.
  cbv iota. change (String (time.digit d) (numeral ds)) with (numeral (d :: ds)).
  apply parseUintLoop_numeral; done.
Qed.

(** ** The clock of a duration since midnight *)

Lemma appendInt_2 (b : string) (x : Z) :
  0 <= x < 100 -> time.appendInt b x 2 = b +:+ numeral [x / 10; x mod 10].
Proof.
  intros Hx. unfold time.appendInt. f_equal.
  replace (x <? 0) with false by (symmetry; apply Z.ltb_ge; lia).
  pose proof (forall_below
                (fun x => String.eqb
                            ("" +:+ time.zeros (Z.to_nat (2 - str_len (time.utoa 20 (Z.abs x) "")))
                                               (time.utoa 20 (Z.abs x) ""))
                            (numeral [x / 10; x mod 10])) 100) as Hall.
  apply String.eqb_eq, Hall; [by vm_compute | lia].
Qed.

Lemma Add_zero_clock (h m : Z) :
  0 <= h < 24 -> 0 <= m < 60 ->
  time.Add time.zero (h * time.Hour + m * time.Minute)
  = time.mkTime (h * 3600 + m * 60) 0.
Proof.
  intros Hh Hm. unfold time.Add, time.zero. cbn [time.sec time.nsec].
  change time.Hour with (3600 * 1000000000).
  change time.Minute with (60 * 1000000000).
  replace (h * (3600 * 1000000000) + m * (60 * 1000000000))
    with ((h * 3600 + m * 60) * 1000000000) by lia.
  rewrite Z.quot_mul, Z.rem_mul by lia. cbn [Z.add].
  change (1000000000 <=? 0) with false. change (0 <? 0) with false. cbv iota.
  f_equal. if_true; lia.
Qed.

Lemma absClock_clock (h m : Z) :
  0 <= h < 24 -> 0 <= m < 60 ->
  time.absClock (h * 3600 + m * 60) = (h, m, 0).
Proof.
  intros Hh Hm. unfold time.absClock.
  change time.secondsPerDay with 86400. change time.secondsPerHour with 3600.
  change time.secondsPerMinute with 60.
  rewrite (Z.mod_small (h * 3600 + m * 60)) by lia.
  replace ((h * 3600 + m * 60) / 3600) with h by (apply Z.div_unique with (m * 60); lia).
  replace (h * 3600 + m * 60 - h * 3600) with (m * 60) by lia.
  rewrite Z.div_mul by lia. repeat f_equal. lia.
Qed.

Lemma Format_Clock24 (h m : Z) :
  0 <= h < 24 -> 0 <= m < 60 ->
  time.Format (time.mkTime (h * 3600 + m * 60) 0) time.Clock24 = clock_string h m.
Proof.
  intros Hh Hm. unfold time.Format, time.Clock24, clock_string.
  cbn [time.chunks time.tail time.formatChunks time.formatStd time.sec].
  unfold time.formatStd. cbn [time.sec].
  rewrite (absClock_clock h m Hh Hm).
  destruct (time.absDate _) as [[[? ?] ?] ?].
  rewrite !appendInt_2 by lia. reflexivity.
Qed.

(** ** TimeHMM *)

(** C3. Every numeral of a time v between 0 and 2359 with v % 100 < 60
    decodes, without error, to v / 100 hours and v % 100 minutes, which
    prints as that hour and minute. *)
Theorem TimeHMM_decodes_hours_and_minutes (ds : list Z) (t0 : TimeHMM) :
  let v := digits_value ds in
  ds <> [] -> Forall is_digit ds ->
  0 <= v <= 2359 -> v mod 100 < 60 ->
  TimeHMM_UnmarshalXML (Ok (numeral ds)) t0
  = (v / 100 * time.Hour + v mod 100 * time.Minute, None) /\
  TimeHMM_String (v / 100 * time.Hour + v mod 100 * time.Minute)
  = clock_string (v / 100) (v mod 100).
Proof.
  intros v Hne Hds Hv Hm.
  assert (0 <= v / 100 < 24) as Hh by (split; [apply Z.div_pos | apply Z.div_lt_upper_bound]; lia).
  assert (0 <= v mod 100 < 60) as Hm' by (pose proof (Z.mod_pos_bound v 100); lia).
  split.
  - unfold TimeHMM_UnmarshalXML.
    rewrite (ParseUint_numeral ds Hne Hds) by (fold v; lia). fold v.
    change time.Hour with 3600000000000. change time.Minute with 60000000000.
    rewrite (int64_small (v / 100)), (int64_small (v mod 100)) by lia.
    rewrite (int64_small (_ * _)), (int64_small (_ * _)) by lia.
    apply f_equal2; [|reflexivity]. apply int64_small. lia.
  - unfold TimeHMM_String. rewrite Add_zero_clock by done. by apply Format_Clock24.
Qed.

Lemma TimeHMM_decodes_hours_and_minutes_witness :
  TimeHMM_UnmarshalXML (Ok "930") 0 = (9 * time.Hour + 30 * time.Minute, None) /\
  TimeHMM_String (9 * time.Hour + 30 * time.Minute) = "09:30".
Proof.
  apply (TimeHMM_decodes_hours_and_minutes [9; 3; 0] 0).
  - discriminate.
  - repeat constructor; unfold is_digit; lia.
  - vm_compute. split; discriminate.
  - reflexivity.
Defined.

Example TimeHMM_0 :
  TimeHMM_UnmarshalXML (Ok "0") 0 = (0, None) /\ TimeHMM_String 0 = "00:00".
Proof. split; reflexivity. Qed.

Example TimeHMM_2359 :
  TimeHMM_UnmarshalXML (Ok "2359") 0 = (23 * time.Hour + 59 * time.Minute, None) /\
  TimeHMM_String (23 * time.Hour + 59 * time.Minute) = "23:59".
Proof. split; reflexivity. Qed.

Example TimeHMM_1830 :
  TimeHMM_UnmarshalXML (Ok "1830") 0 = (18 * time.Hour + 30 * time.Minute, None).
Proof. reflexivity. Qed.

(** ** Calendar dates *)

(** *** Parsing the digits *)

Lemma append_String (c : ascii) (s1 s2 : string) :
  String c s1 +:+ s2 = String c (s1 +:+ s2).
Proof. reflexivity. Qed.

Lemma append_Empty (s : string) : "" +:+ s = s.
Proof. reflexivity. Qed.

Ltac str_norm := cbn [numeral]; rewrite ?append_String, ?append_Empty.

Lemma getnum_two (e f : Z) (rest : string) (fixed : bool) :
  is_digit e -> is_digit f ->
  time.getnum (String (time.digit e) (String (time.digit f) rest)) fixed
  = (e * 10 + f, rest, false).
Proof.
  intros He Hf. unfold time.getnum, time.isDigit, time.digitAt.
  cbn [String.get str_drop]. rewrite !byte_of_digit by done.
  destruct He, Hf. repeat if_false. by replace (48 + e - 48) with e by lia;
    replace (48 + f - 48) with f by lia.
Qed.

Lemma leadingInt_numeral (ds : list Z) (x : Z) :
  Forall is_digit ds -> 0 <= x ->
  fold_left (fun n d => n * 10 + d) ds x < 2 ^ 32 ->
  time.leadingInt (numeral ds) x = Some (fold_left (fun n d => n * 10 + d) ds x, "").
Proof.
  intros Hds. revert x.
  induction Hds as [|d ds Hd Hds IH]; intros x Hx Hlt; [reflexivity|].
  pose proof Hd as [Hd0 Hd9].
  cbn [numeral fold_left time.leadingInt] in *.
  pose proof (digits_fold_ge ds (x * 10 + d) Hds ltac:(lia)) as Hge.
  rewrite (byte_of_digit d Hd).
  change (2 ^ 63 / 10) with 922337203685477580.
  repeat if_false.
  replace (x * 10 + (48 + d) - 48) with (x * 10 + d) by lia.
  apply IH; lia.
Qed.

Lemma atoi_four (a b c d : Z) :
  is_digit a -> is_digit b -> is_digit c -> is_digit d ->
  time.atoi (numeral [a; b; c; d]) = Some (a * 1000 + b * 100 + c * 10 + d).
Proof.
  intros Ha Hb Hc Hd. unfold time.atoi.
  change (numeral [a; b; c; d]) with (String (time.digit a) (numeral [b; c; d])) at 1.
  cbv iota. rewrite (byte_of_digit a Ha). destruct Ha, Hb, Hc, Hd.
  if_false. change (String (time.digit a) (numeral [b; c; d])) with (numeral [a; b; c; d]).
  rewrite leadingInt_numeral; cbn [fold_left];
    [|repeat constructor; done|lia|lia].
  rewrite int64_small by lia. f_equal. lia.
Qed.

Lemma parse_year (a b c d : Z) (rest : string) (p : time.parsed) :
  is_digit a -> is_digit b -> is_digit c -> is_digit d ->
  time.parseStd time.stdLongYear
    (String (time.digit a) (String (time.digit b) (String (time.digit c)
       (String (time.digit d) rest)))) p
  = (time.set_year (a * 1000 + b * 100 + c * 10 + d) p, rest, "", false).
Proof.
  intros Ha Hb Hc Hd. unfold time.parseStd, time.isDigit, str_len.
  cbn [String.length String.get str_take str_drop].
  rewrite (byte_of_digit a Ha). destruct Ha. if_false.
  change (String (time.digit a) (String (time.digit b) (String (time.digit c)
            (String (time.digit d) ""))))
    with (numeral [a; b; c; d]).
  by rewrite atoi_four.
Qed.

Lemma skip_nothing (value : string) : time.skip value "" = (value, false).
Proof. reflexivity. Qed.

Lemma skip_dash (rest : string) : time.skip (String "-" rest) "-" = (rest, false).
Proof. reflexivity. Qed.

Lemma parseChunks_DateOnly (a b c d e f g h : Z) (alayout avalue : string) :
  is_digit a -> is_digit b -> is_digit c -> is_digit d ->
  is_digit e -> is_digit f -> is_digit g -> is_digit h ->
  1 <= e * 10 + f <= 12 ->
  time.parseChunks alayout avalue (time.chunks time.DateOnly) (time.tail time.DateOnly)
    (numeral [a; b; c; d] +:+ "-" +:+ numeral [e; f] +:+ "-" +:+ numeral [g; h])
    time.parsed0
  = Ok (time.mkParsed (a * 1000 + b * 100 + c * 10 + d) (e * 10 + f) (g * 10 + h)
                      0 0 false false).
Proof.
  intros Ha Hb Hc Hd He Hf Hg Hh Hm.
  str_norm. unfold time.DateOnly. cbn [time.chunks time.tail time.parseChunks].
  rewrite skip_nothing, parse_year by done. cbn [String.eqb negb].
  rewrite skip_dash. unfold time.parseStd at 1. rewrite getnum_two by done.
  destruct Hm. cbn [negb andb]. if_false. cbn [String.eqb negb].
  rewrite skip_dash. unfold time.parseStd. rewrite getnum_two by done.
  cbn [String.eqb negb]. rewrite skip_nothing. reflexivity.
Qed.

(** *** Days and dates *)

Lemma isLeap_leap_year (y : Z) : time.isLeap y = leap_year y.
Proof. reflexivity. Qed.

Lemma absDate_year_day (y k secs : Z) :
  0 <= k < 365 + (if leap_year y then 1 else 0) ->
  0 <= secs < 86400 ->
  time.absDate ((time.daysSinceEpoch y + k) * 86400 + secs)
  = (y, fst (time.monthDay (leap_year y) k), snd (time.monthDay (leap_year y) k), k).
Proof.
  intros Hk Hs. unfold time.absDate.
  change time.secondsPerDay with 86400.
  replace (((time.daysSinceEpoch y + k) * 86400 + secs) / 86400)
    with (time.daysSinceEpoch y + k)
    by (apply Z.div_unique with secs; lia).
  assert (exists q r, y - 1 = 400 * q + r /\ 0 <= r < 400) as (q & r & Hy & Hr)
      by (exists ((y - 1) / 400), ((y - 1) mod 400);
          pose proof (Z.div_mod (y - 1) 400); pose proof (Z.mod_pos_bound (y - 1) 400); lia).
  assert (exists q1 r1, r = 100 * q1 + r1 /\ 0 <= r1 < 100) as (q1 & r1 & Hr1 & Hr1b)
      by (exists (r / 100), (r mod 100);
          pose proof (Z.div_mod r 100); pose proof (Z.mod_pos_bound r 100); lia).
  assert (exists q2 r2, r1 = 4 * q2 + r2 /\ 0 <= r2 < 4) as (q2 & r2 & Hr2 & Hr2b)
      by (exists (r1 / 4), (r1 mod 4);
          pose proof (Z.div_mod r1 4); pose proof (Z.mod_pos_bound r1 4); lia).
  assert (time.daysSinceEpoch y = 146097 * q + 36524 * q1 + 1461 * q2 + 365 * r2) as HD.
  { unfold time.daysSinceEpoch.
    change time.daysPer400Years with 146097. change time.daysPer100Years with 36524.
    change time.daysPer4Years with 1461.
    replace ((y - 1) / 400) with q by (apply Z.div_unique with r; lia).
    replace (y - 1 - 400 * q) with r by lia.
    replace (r / 100) with q1 by (apply Z.div_unique with r1; lia).
    replace (r - 100 * q1) with r1 by lia.
    replace (r1 / 4) with q2 by (apply Z.div_unique with r2; lia).
    lia. }
  assert (leap_year y = (r2 =? 3) && (negb (q2 =? 24) || (q1 =? 3))) as Hleap.
  { unfold leap_year. subst r r1. Z.div_mod_to_equations. lia. }
  assert (0 <= k /\ k <= 365 /\ (k = 365 -> r2 = 3 /\ (q2 <> 24 \/ q1 = 3))) as Hk'
      by (destruct (leap_year y); lia).
  clear Hk Hleap.
  change time.daysPer400Years with 146097. change time.daysPer100Years with 36524.
  change time.daysPer4Years with 1461.
  rewrite HD. clear HD.
  replace ((146097 * q + 36524 * q1 + 1461 * q2 + 365 * r2 + k) / 146097) with q
    by (apply Z.div_unique with (36524 * q1 + 1461 * q2 + 365 * r2 + k); lia).
  replace (146097 * q + 36524 * q1 + 1461 * q2 + 365 * r2 + k - 146097 * q)
    with (36524 * q1 + 1461 * q2 + 365 * r2 + k) by lia.
  replace ((36524 * q1 + 1461 * q2 + 365 * r2 + k) / 36524
           - Z.shiftr ((36524 * q1 + 1461 * q2 + 365 * r2 + k) / 36524) 2) with q1
    by (rewrite Z.shiftr_div_pow2 by lia; change (2 ^ 2) with 4;
        Z.div_mod_to_equations; lia).
  replace (36524 * q1 + 1461 * q2 + 365 * r2 + k - 36524 * q1)
    with (1461 * q2 + 365 * r2 + k) by lia.
  replace ((1461 * q2 + 365 * r2 + k) / 1461) with q2
    by (apply Z.div_unique with (365 * r2 + k); lia).
  replace (1461 * q2 + 365 * r2 + k - 1461 * q2) with (365 * r2 + k) by lia.
  replace ((365 * r2 + k) / 365 - Z.shiftr ((365 * r2 + k) / 365) 2) with r2
    by (rewrite Z.shiftr_div_pow2 by lia; change (2 ^ 2) with 4;
        Z.div_mod_to_equations; lia).
  replace (365 * r2 + k - 365 * r2) with k by lia.
  replace (400 * q + 100 * q1 + 4 * q2 + r2 + 1) with y by lia.
  rewrite isLeap_leap_year. by destruct (time.monthDay (leap_year y) k).
Qed.

Lemma month_length_max (leap : bool) (m : Z) : month_length leap m <= 31.
Proof.
  unfold month_length. generalize (Z.to_nat (m - 1)). intros n.
  do 12 (destruct n as [|n]; [destruct leap; simpl; lia|]).
  destruct n; simpl; lia.
Qed.

Lemma monthDay_year_day (leap : bool) (m d : Z) :
  1 <= m <= 12 -> 1 <= d <= month_length leap m ->
  time.monthDay leap (year_day leap m d) = (m, d) /\
  0 <= year_day leap m d < 365 + (if leap then 1 else 0).
Proof.
  intros Hm Hd. pose proof (month_length_max leap m) as Hmax.
  assert (monthDay_inverts leap ((m - 1) * 31 + (d - 1)) = true) as H.
  { apply (forall_below (monthDay_inverts leap) 372); [|lia].
    destruct leap; by vm_compute. }
  unfold monthDay_inverts in H.
  replace (((m - 1) * 31 + (d - 1)) / 31 + 1) with m in H
    by (Z.div_mod_to_equations; lia).
  replace (((m - 1) * 31 + (d - 1)) mod 31 + 1) with d in H
    by (Z.div_mod_to_equations; lia).
  destruct (time.monthDay leap (year_day leap m d)) as [m' d'].
  destruct leap; split; try f_equal; lia.
Qed.

Lemma daysIn_month_length (m y : Z) :
  1 <= m <= 12 -> time.daysIn m y = month_length (leap_year y) m.
Proof.
  intros Hm. unfold time.daysIn. rewrite isLeap_leap_year.
  assert (m = 1 \/ m = 2 \/ m = 3 \/ m = 4 \/ m = 5 \/ m = 6 \/ m = 7 \/ m = 8
          \/ m = 9 \/ m = 10 \/ m = 11 \/ m = 12) as Hcases by lia.
  repeat (destruct Hcases as [->|Hcases]; [by destruct (leap_year y)|]).
  subst. by destruct (leap_year y).
Qed.

Lemma norm_in_range (hi lo base : Z) :
  0 <= lo < base -> time.norm hi lo base = (hi, lo).
Proof. intros H. unfold time.norm. by repeat if_false. Qed.

Lemma Date_year_day (y m d : Z) :
  1 <= m <= 12 ->
  time.Date y m d 0 0 0 0
  = time.mkTime ((time.daysSinceEpoch y + year_day (leap_year y) m d) * 86400) 0.
Proof.
  intros Hm. unfold time.Date.
  rewrite (norm_in_range y (m - 1) 12) by lia.
  rewrite !norm_in_range by lia.
  replace (m - 1 + 1) with m by lia.
  rewrite isLeap_leap_year. unfold year_day.
  change time.secondsPerDay with 86400. change time.March with 3.
  f_equal. destruct (leap_year y && (3 <=? m)); lia.
Qed.

Lemma appendInt_4 (b : string) (y : Z) :
  0 <= y < 10000 ->
  time.appendInt b y 4 = b +:+ numeral [y / 1000; y / 100 mod 10; y / 10 mod 10; y mod 10].
Proof.
  intros Hy. unfold time.appendInt. f_equal.
  if_false.
  pose proof (forall_below
                (fun x => String.eqb
                            ("" +:+ time.zeros (Z.to_nat (4 - str_len (time.utoa 20 (Z.abs x) "")))
                                               (time.utoa 20 (Z.abs x) ""))
                            (numeral [x / 1000; x / 100 mod 10; x / 10 mod 10; x mod 10]))
                10000) as Hall.
  apply String.eqb_eq, Hall; [by vm_compute | lia].
Qed.

(** ** Date *)

Lemma Parse_DateOnly (y m d : Z) :
  calendar_date y m d ->
  time.Parse time.DateOnly (date_string y m d) = (time.Date y m d 0 0 0 0, None).
Proof.
  intros (Hy & Hm & Hd). pose proof (month_length_max (leap_year y) m) as Hmax.
  unfold time.Parse, date_string.
  rewrite parseChunks_DateOnly;
    try (unfold is_digit; Z.div_mod_to_equations; lia).
  replace (y / 1000 * 1000 + y / 100 mod 10 * 100 + y / 10 mod 10 * 10 + y mod 10)
    with y by (Z.div_mod_to_equations; lia).
  replace (m / 10 * 10 + m mod 10) with m by (Z.div_mod_to_equations; lia).
  replace (d / 10 * 10 + d mod 10) with d by (Z.div_mod_to_equations; lia).
  cbn [time.year time.month time.day time.hour time.min time.amSet time.pmSet andb].
  replace (m <? 0) with false by lia. replace (d <? 0) with false by lia.
  rewrite daysIn_month_length by lia.
  change (0 =? 12) with false. cbv iota.
  by if_false.
Qed.

Lemma Format_DateOnly (y m d : Z) :
  calendar_date y m d ->
  time.Format (time.Date y m d 0 0 0 0) time.DateOnly = date_string y m d.
Proof.
  intros (Hy & Hm & Hd). pose proof (month_length_max (leap_year y) m) as Hmax.
  destruct (monthDay_year_day (leap_year y) m d Hm Hd) as [Hmd Hk].
  rewrite Date_year_day by done.
  unfold time.Format, time.DateOnly, date_string.
  cbn [time.chunks time.tail time.formatChunks]. unfold time.formatStd. cbn [time.sec].
  replace ((time.daysSinceEpoch y + year_day (leap_year y) m d) * 86400)
    with ((time.daysSinceEpoch y + year_day (leap_year y) m d) * 86400 + 0) by lia.
  rewrite absDate_year_day by (done || lia). rewrite Hmd. cbn [fst snd].
  destruct (time.absClock _) as [[? ?] ?].
  rewrite appendInt_4 by lia. rewrite !appendInt_2 by lia.
  reflexivity.
Qed.

(** C9. A calendar date written YYYY-MM-DD decodes without error, and
    the decoded date prints as the string it was decoded from. *)
Theorem Date_decode_then_String (y m d : Z) (t0 : Date) :
  calendar_date y m d ->
  exists t,
    Date_UnmarshalXML (Ok (date_string y m d)) t0 = (t, None) /\
    Date_String t = date_string y m d.
Proof.
  intros Hdate. exists (time.Date y m d 0 0 0 0). split.
  - unfold Date_UnmarshalXML. by rewrite Parse_DateOnly.
  - by apply Format_DateOnly.
Qed.

Lemma Date_decode_then_String_witness :
  exists t,
    Date_UnmarshalXML (Ok "2024-02-29") time.zero = (t, None) /\
    Date_String t = "2024-02-29".
Proof.
  apply (Date_decode_then_String 2024 2 29 time.zero).
  unfold calendar_date. vm_compute. repeat split; discriminate.
Defined.

Example Date_first_day :
  Date_String (fst (Date_UnmarshalXML (Ok "0000-01-01") time.zero)) = "0000-01-01".
Proof. reflexivity. Qed.

Example Date_last_day :
  Date_String (fst (Date_UnmarshalXML (Ok "9999-12-31") time.zero)) = "9999-12-31".
Proof. reflexivity. Qed.

(** A string of the form YYYY-MM-DD that is no calendar date is refused
    and leaves the zero date. *)
Example Date_no_such_day :
  Date_UnmarshalXML (Ok "2023-02-29") (time.mkTime 1 0)
  = (time.zero, Some (ParseError "2006-01-02" "2023-02-29" "" "" (MsgOutOfRange "day")))
  /\ Date_String time.zero = "0001-01-01".
Proof. split; reflexivity. Qed.

(** ** Time12 *)

(** C2, on the code. "3:04 PM" does not decode to 15 hours 4 minutes,
    nor "12:00 AM" to 0: time.Parse puts a clock time on January 1 of
    year 0 and time.Time{} is January 1 of year 1, so the difference is
    short of the time since midnight by the 366 days of year 0. *)
Theorem Time12_decodes_before_zero :
  Time12_UnmarshalXML (Ok "3:04 PM") 0
  = (15 * time.Hour + 4 * time.Minute - year_zero, None) /\
  Time12_UnmarshalXML (Ok "12:00 AM") 0 = (- year_zero, None) /\
  15 * time.Hour + 4 * time.Minute - year_zero <> 15 * time.Hour + 4 * time.Minute /\
  - year_zero <> 0.
Proof. repeat split; by vm_compute. Qed.

(** A string that begins with "No " decodes to -1, without error. *)
Lemma Time12_sentinel (rest : string) (t0 : Time12) :
  Time12_UnmarshalXML (Ok ("No " +:+ rest)) t0 = (-1, None).
Proof. by destruct rest. Qed.

(** Every time of the 12-hour clock decodes, without error, to the time
    since midnight less the days of year 0, and the decoded value prints
    as the time of the 24-hour clock. *)
Lemma Time12_decodes_clock (h m : Z) (pm : bool) (t0 : Time12) :
  1 <= h <= 12 -> 0 <= m < 60 ->
  let t := hour24 h pm * time.Hour + m * time.Minute - year_zero in
  Time12_UnmarshalXML (Ok (clock12_string h m pm)) t0 = (t, None) /\
  Time12_String t = clock_string (hour24 h pm) m.
Proof.
  intros Hh Hm t.
  assert (Time12_consistent ((if pm then 720 else 0) + (h - 1) * 60 + m) = true) as H.
  { apply (forall_below Time12_consistent 1440); [by vm_compute | destruct pm; lia]. }
  unfold Time12_consistent in H.
  replace (720 <=? (if pm then 720 else 0) + (h - 1) * 60 + m) with pm in H
    by (destruct pm; lia).
  replace (((if pm then 720 else 0) + (h - 1) * 60 + m) mod 720 / 60 + 1) with h in H
    by (destruct pm; Z.div_mod_to_equations; lia).
  replace (((if pm then 720 else 0) + (h - 1) * 60 + m) mod 60) with m in H
    by (destruct pm; Z.div_mod_to_equations; lia).
  change (Time12_UnmarshalXML (Ok (clock12_string h m pm)) t0)
    with (Time12_UnmarshalXML (Ok (clock12_string h m pm)) 0).
  destruct (Time12_UnmarshalXML (Ok (clock12_string h m pm)) 0) as [t' [err|]];
    [discriminate|].
  apply andb_true_iff in H as [Ht Hs]. apply Z.eqb_eq in Ht. apply String.eqb_eq in Hs.
  subst t'. by split.
Qed.

Example Time12_sunrise :
  Time12_UnmarshalXML (Ok "06:05 AM") 0
  = (6 * time.Hour + 5 * time.Minute - year_zero, None) /\
  Time12_String (6 * time.Hour + 5 * time.Minute - year_zero) = "06:05".
Proof. split; reflexivity. Qed.

Example Time12_no_moonrise :
  Time12_UnmarshalXML (Ok "No moonrise") 0 = (-1, None) /\ Time12_String (-1) = "23:59".
Proof. split; reflexivity. Qed.


(** * More about the client *)

Lemma options_sent_again (location1 location2 : string) (m : gmap string string) :
  options_sent location2 (options_sent location1 m) = options_sent location2 m.
Proof.
  unfold options_sent. apply map_eq. intros k.
  rewrite !lookup_insert. by repeat case_decide.
Qed.

Lemma request_values_keys (key : string) (entries : gmap string string) (k : string) :
  is_Some (request_values key entries !! k)
  <-> k = "key" \/ k = "format" \/ is_Some (entries !! k).
Proof.
  unfold request_values.
  destruct (decide (k = "format")) as [->|Hf].
  { rewrite lookup_insert_eq. split; eauto. }
  rewrite lookup_insert_ne, lookup_union, lookup_fmap by done.
  destruct (decide (k = "key")) as [->|Hk].
  { rewrite lookup_singleton_eq. split; [eauto|]. intros _.
    destruct (entries !! "key"); simpl; eauto. }
  rewrite lookup_singleton_ne by done.
  destruct (entries !! k); simpl; split; eauto.
  - intros [? [=]].
  - intros [?|[?|[? [=]]]]; done.
Qed.

Lemma request_values_single (key : string) (entries : gmap string string)
      (k : string) (vs : list string) :
  request_values key entries !! k = Some vs -> length vs = 1%nat.
Proof.
  unfold request_values.
  destruct (decide (k = "format")) as [->|Hf].
  { rewrite lookup_insert_eq. by intros [= <-]. }
  rewrite lookup_insert_ne, lookup_union, lookup_fmap by done.
  destruct (entries !! k); simpl.
  - destruct ({["key" := [key]]} !! k); by intros [= <-].
  - destruct (decide (k = "key")) as [->|Hk].
    + rewrite lookup_singleton_eq. by intros [= <-].
    + by rewrite lookup_singleton_ne.
Qed.

Section MoreClientFacts.

Variable transport : url.URL -> result (list Byte.byte).

Context {decodeLocal : Unmarshaler Local} {decodeMarine : Unmarshaler Marine}
        {decodeSki : Unmarshaler Ski} {decodePastLocal : Unmarshaler PastLocal}
        {decodeSearch : Unmarshaler Search} {decodeTimeZone : Unmarshaler TimeZone}.

(** fetch sends one request and leaves every map as it was, also when
    the transport fails.  The request has the parameters "key" and
    "format" and one for each entry of the options, no other; each has
    a single value, and an entry of the options not named "format" is
    sent with its own value. *)
Theorem fetch_request_parameters (w : WWO) (service : string) (query : mapref)
        (σ : World) :
  exists r u,
    fetch transport w service query σ = Returns r (mkWorld (heap σ) (sent σ ++ [u])) /\
    (forall k, is_Some (url.Query u !! k)
               <-> k = "key" \/ k = "format" \/ is_Some (entries_of query σ !! k)) /\
    (forall k vs, url.Query u !! k = Some vs -> length vs = 1%nat) /\
    (forall k v, k <> "format" -> entries_of query σ !! k = Some v ->
                 url.Query u !! k = Some [v]).
Proof.
  eexists _, _. split; [apply fetch_sends|]. simpl. split; [|split].
  - apply request_values_keys.
  - apply request_values_single.
  - intros k v. apply request_values_entry.
Qed.

(** A Get whose transport fails returns a nil report and the error of
    the transport as it is; the request was sent and the options were
    written all the same. *)
Theorem Get_returns_transport_error :
  ForEachGet transport (fun T zero Error decode service Get =>
    forall w location l m σ err,
      heap σ !! l = Some m ->
      transport (request_url w service (options_sent location m)) = Err err ->
      Get w location (Some l) σ
      = Returns (None, Some err) (world_after σ l m w service location)).
Proof.
  apply ForEachGet_runs.
  intros T zero Error decode service Get [_ Hrun] w location l m σ err Hl Ht.
  rewrite (Hrun _ _ _ _ _ Hl). unfold get_result. by rewrite Ht.
Qed.

(** A Get whose payload decodes without error into a report without an
    error message returns that report and a nil error. *)
Theorem Get_returns_report :
  ForEachGet transport (fun T zero Error decode service Get =>
    forall w location l m σ text o,
      heap σ !! l = Some m ->
      transport (request_url w service (options_sent location m)) = Ok text ->
      decode text zero = (o, None) ->
      Error o = None ->
      Get w location (Some l) σ
      = Returns (Some o, None) (world_after σ l m w service location)).
Proof.
  apply ForEachGet_runs.
  intros T zero Error decode service Get [_ Hrun] w location l m σ text o Hl Ht Hd He.
  rewrite (Hrun _ _ _ _ _ Hl). unfold get_result. by rewrite Ht, Hd, He.
Qed.

(** Of a Get that returns: the report is nil exactly when the transport
    failed; the error is nil exactly when the payload decoded without
    error into a report without an error message; a nil error never
    comes with a nil report. *)
Theorem Get_result_cases :
  ForEachGet transport (fun T zero Error decode service Get =>
    forall w location l m σ r e σ',
      heap σ !! l = Some m ->
      Get w location (Some l) σ = Returns (r, e) σ' ->
      let resp := transport (request_url w service (options_sent location m)) in
      (r = None <-> exists err, resp = Err err) /\
      (e = None <-> exists text o,
                      resp = Ok text /\ decode text zero = (o, None) /\ Error o = None) /\
      (e = None -> exists o, r = Some o /\ Error o = None)).
Proof.
  apply ForEachGet_runs.
  intros T zero Error decode service Get [_ Hrun] w location l m σ r e σ' Hl Hget resp.
  rewrite (Hrun _ _ _ _ _ Hl) in Hget. injection Hget as Hres _.
  fold resp in Hres. unfold get_result in Hres.
  destruct resp as [text|err].
  - destruct (decode text zero) as [o [derr|]] eqn:Hd.
    + injection Hres as <- <-. repeat split; try done.
      * intros [? [=]].
      * intros (? & ? & [= <-] & Hd' & _). by rewrite Hd in Hd'.
    + destruct (Error o) as [msg|] eqn:He; injection Hres as <- <-.
      * repeat split; try done.
        -- intros [? [=]].
        -- intros (? & ? & [= <-] & Hd' & He'). rewrite Hd in Hd'.
           injection Hd' as <-. by rewrite He in He'.
      * repeat split; try done.
        -- intros [? [=]].
        -- eauto.
        -- eauto.
  - injection Hres as <- <-. repeat split; try done.
    + eauto.
    + intros (? & ? & [=] & _).
Qed.

(** Each Get sends its one request to the endpoint of its service at
    the fixed host, over https unless the client is marked insecure. *)
Theorem Get_request_endpoint :
  ForEachGet transport (fun T zero Error decode service Get =>
    forall w location l m σ,
      heap σ !! l = Some m ->
      exists r σ' u,
        Get w location (Some l) σ = Returns r σ' /\
        sent σ' = (sent σ ++ [u])%list /\
        url.Scheme u = (if WWO_Insecure w then "http" else "https") /\
        url.Host u = "api.worldweatheronline.com" /\
        url.Path u = "/premium/v1/" +:+ service +:+ ".ashx").
Proof.
  apply ForEachGet_runs.
  intros T zero Error decode service Get [_ Hrun] w location l m σ Hl.
  eexists _, _, _. split; [apply (Hrun _ _ _ _ _ Hl)|]. by simpl.
Qed.

(** Two Gets in a row on the same options map: the second sends what it
    would have sent as the first, and the map ends as the second alone
    would have left it; what the first wrote is overwritten. *)
Theorem Get_twice :
  ForEachGet transport (fun T1 zero1 Error1 decode1 service1 Get1 =>
    ForEachGet transport (fun T2 zero2 Error2 decode2 service2 Get2 =>
      forall w location1 location2 l m σ,
        heap σ !! l = Some m ->
        exists r1 σ1 r2 σ2,
          Get1 w location1 (Some l) σ = Returns r1 σ1 /\
          Get2 w location2 (Some l) σ1 = Returns r2 σ2 /\
          heap σ2 = <[l := options_sent location2 m]> (heap σ) /\
          sent σ2 = (sent σ ++ [request_url w service1 (options_sent location1 m);
                                request_url w service2 (options_sent location2 m)])%list)).
Proof.
  apply ForEachGet_runs.
  intros T1 zero1 Error1 decode1 service1 Get1 [_ Hrun1].
  apply ForEachGet_runs.
  intros T2 zero2 Error2 decode2 service2 Get2 [_ Hrun2] w location1 location2 l m σ Hl.
  eexists _, _, _, _. split; [apply (Hrun1 _ _ _ _ _ Hl)|].
  split; [apply Hrun2; simpl; apply lookup_insert_eq|].
  simpl. rewrite options_sent_again, insert_insert_eq, <- app_assoc. by split.
Qed.

End MoreClientFacts.

Lemma Get_returns_transport_error_witness :
  GetLocal sample_offline sample_client "London" (Some 1%positive) sample_world
  = Returns (None,
             Some (ForeignError "net/http"
                     "dial tcp: lookup api.worldweatheronline.com: no such host"))
            (world_after sample_world 1%positive {["fx" := "no"]} sample_client
                         "weather" "London").
Proof.
  apply (proj1 (Get_returns_transport_error sample_offline)
               sample_client "London" 1%positive {["fx" := "no"]} sample_world);
    reflexivity.
Defined.

Lemma Get_returns_report_witness :
  GetLocal sample_transport sample_client "London" (Some 1%positive) sample_world
  = Returns (Some Local_zero, None)
            (world_after sample_world 1%positive {["fx" := "no"]} sample_client
                         "weather" "London").
Proof.
  apply (proj1 (Get_returns_report sample_transport)
               sample_client "London" 1%positive {["fx" := "no"]} sample_world
               (list_byte_of_string "<data></data>")).
  - reflexivity.
  - vm_compute. reflexivity.
  - vm_compute. reflexivity.
  - reflexivity.
Defined.

Lemma Get_result_cases_witness :
  let resp := sample_offline (request_url sample_client "search"
                                          (options_sent "London" {["fx" := "no"]})) in
  (@None Search = None <-> exists err, resp = Err err) /\
  (Some (ForeignError "net/http"
           "dial tcp: lookup api.worldweatheronline.com: no such host") = None
   <-> exists text o,
         resp = Ok text /\ sample_Search text Search_zero = (o, None) /\
         Search_Error o = None) /\
  (Some (ForeignError "net/http"
           "dial tcp: lookup api.worldweatheronline.com: no such host") = None
   -> exists o, @None Search = Some o /\ Search_Error o = None).
Proof.
  apply (proj1 (proj2 (proj2 (proj2 (proj2 (proj2 (Get_result_cases sample_offline))))))
               sample_client "London" 1%positive {["fx" := "no"]} sample_world
               None _ (world_after sample_world 1%positive {["fx" := "no"]} sample_client
                                   "search" "London"));
    reflexivity.
Defined.

Lemma Get_request_endpoint_witness :
  exists r σ' u,
    GetTimeZone sample_transport sample_client "London" (Some 1%positive) sample_world
    = Returns r σ' /\
    sent σ' = (sent sample_world ++ [u])%list /\
    url.Scheme u = "https" /\
    url.Host u = "api.worldweatheronline.com" /\
    url.Path u = "/premium/v1/tz.ashx".
Proof.
  apply (proj2 (proj2 (proj2 (proj2 (proj2 (proj2
           (Get_request_endpoint sample_transport))))))
         sample_client "London" 1%positive {["fx" := "no"]} sample_world).
  reflexivity.
Defined.

Lemma Get_twice_witness :
  exists r1 σ1 r2 σ2,
    GetLocal sample_transport sample_client "London" (Some 1%positive) sample_world
    = Returns r1 σ1 /\
    GetLocal sample_transport sample_client "Paris" (Some 1%positive) σ1
    = Returns r2 σ2 /\
    heap σ2 = <[1%positive := options_sent "Paris" {["fx" := "no"]}]> (heap sample_world) /\
    sent σ2 = (sent sample_world ++
               [request_url sample_client "weather" (options_sent "London" {["fx" := "no"]});
                request_url sample_client "weather" (options_sent "Paris" {["fx" := "no"]})])%list.
Proof.
  apply (proj1 (proj1 (Get_twice sample_transport))
               sample_client "London" "Paris" 1%positive {["fx" := "no"]} sample_world).
  reflexivity.
Defined.

(** * More about the scalar decoders *)

(** ** The clock of any duration *)

Lemma Add_zero (d : time.Duration) :
  - 2 ^ 63 <= d < 2 ^ 63 ->
  time.Add time.zero d = time.mkTime (d / 1000000000) (d mod 1000000000).
Proof.
  intros Hd. unfold time.Add, time.zero. cbn [time.sec time.nsec].
  rewrite !Z.add_0_l.
  assert (Z.rem d 1000000000 = d mod 1000000000 /\ Z.quot d 1000000000 = d / 1000000000
          \/ Z.rem d 1000000000 = d mod 1000000000 - 1000000000
             /\ Z.quot d 1000000000 = d / 1000000000 + 1 /\ d mod 1000000000 <> 0) as Hqr
      by (Z.to_euclidean_division_equations; lia).
  pose proof (Z.mod_pos_bound d 1000000000 ltac:(lia)) as Hmod.
  assert (- 2 ^ 63 <= d / 1000000000 < 2 ^ 63) as Hdiv
      by (Z.to_euclidean_division_equations; lia).
  destruct Hqr as [[-> ->]|(-> & -> & Hne)].
  - do 2 if_false. if_true. reflexivity.
  - if_false. if_true. if_true. f_equal; lia.
Qed.

Lemma Format_Clock24_any (s ns : Z) :
  time.Format (time.mkTime s ns) time.Clock24
  = clock_string (s mod 86400 / 3600) (s mod 86400 mod 3600 / 60).
Proof.
  unfold time.Format, time.Clock24, clock_string.
  cbn [time.chunks time.tail time.formatChunks]. unfold time.formatStd. cbn [time.sec].
  unfold time.absClock.
  change time.secondsPerDay with 86400. change time.secondsPerHour with 3600.
  change time.secondsPerMinute with 60.
  destruct (time.absDate _) as [[[? ?] ?] ?].
  pose proof (Z.mod_pos_bound s 86400 ltac:(lia)) as Hs.
  replace ((s mod 86400 - s mod 86400 / 3600 * 3600) / 60)
    with (s mod 86400 mod 3600 / 60)
    by (f_equal; Z.to_euclidean_division_equations; lia).
  rewrite !appendInt_2 by (Z.to_euclidean_division_equations; lia).
  reflexivity.
Qed.

(** The String methods of Time12 and TimeHMM print the time of day
    that the duration, added to the zero Time, falls on: whole days are
    dropped, seconds are cut off, and a negative duration counts back
    from midnight. *)
Theorem Duration_String_clock (d : time.Duration) :
  - 2 ^ 63 <= d < 2 ^ 63 ->
  TimeHMM_String d = clock_string (fst (clock_of d)) (snd (clock_of d)) /\
  Time12_String d = clock_string (fst (clock_of d)) (snd (clock_of d)).
Proof.
  intros Hd. unfold TimeHMM_String, Time12_String, clock_of.
  rewrite Add_zero by done. cbn [fst snd]. split; apply Format_Clock24_any.
Qed.

Lemma Duration_String_clock_witness :
  TimeHMM_String (-1) = "23:59" /\ Time12_String (-1) = "23:59".
Proof. apply (Duration_String_clock (-1)). lia. Defined.

(** ** What TimeHMM accepts *)

Lemma digit_of_byte (ch : ascii) :
  48 <= byte_of ch <= 57 -> time.digit (byte_of ch - 48) = ch.
Proof.
  intros H. unfold time.digit, byte_of in *.
  replace (Z.to_N (48 + (Z.of_N (N_of_ascii ch) - 48))) with (N_of_ascii ch) by lia.
  apply ascii_N_embedding.
Qed.

Lemma parseUintLoop_accepts (s0 : string) (maxVal : Z) (s : string) (n v : Z) :
  0 <= n <= maxVal -> maxVal < 2 ^ 32 ->
  strconv.parseUintLoop s0 10 (maxUint64 / 10 + 1) maxVal s n = (v, None) ->
  exists ds, Forall is_digit ds /\ s = numeral ds
             /\ v = fold_left (fun n d => n * 10 + d) ds n /\ v <= maxVal.
Proof.
  intros Hn Hmax. revert n Hn.
  induction s as [|ch s IH]; intros n Hn H; cbn [strconv.parseUintLoop] in H.
  - injection H as <-. exists []. repeat split; [constructor | lia].
  - destruct ((48 <=? byte_of ch) && (byte_of ch <=? 57)) eqn:Hdig.
    + destruct (10 <=? byte_of ch - 48) eqn:Hbase; [discriminate|].
      destruct (maxUint64 / 10 + 1 <=? n) eqn:Hcut; [discriminate|].
      rewrite (uint64_small (n * 10)) in H by lia.
      rewrite (uint64_small (n * 10 + _)) in H by lia.
      destruct ((n * 10 + (byte_of ch - 48) <? n * 10)
                || (maxVal <? n * 10 + (byte_of ch - 48))) eqn:Hover; [discriminate|].
      apply IH in H as (ds & Hds & -> & -> & Hle); [|lia].
      exists (byte_of ch - 48 :: ds). split; [|split; [|split]].
      * constructor; [unfold is_digit; lia | done].
      * cbn [numeral]. by rewrite digit_of_byte by lia.
      * reflexivity.
      * exact Hle.
    + destruct ((97 <=? strconv.lower (byte_of ch))
                && (strconv.lower (byte_of ch) <=? 122)) eqn:Hletter; [|discriminate].
      destruct (10 <=? strconv.lower (byte_of ch) - 97 + 10) eqn:Hbase; [discriminate|].
      lia.
Qed.

Lemma parseUintLoop_refuses (s0 : string) (base cutoff maxVal : Z) (s : string)
      (n v : Z) (e : error) :
  strconv.parseUintLoop s0 base cutoff maxVal s n = (v, Some e) ->
  v = 0 /\ e = strconv.syntaxError "ParseUint" s0
  \/ v = maxVal /\ e = strconv.rangeError "ParseUint" s0.
Proof.
  revert n. induction s as [|ch s IH]; intros n H; cbn [strconv.parseUintLoop] in H;
    [discriminate|].
  repeat match type of H with
         | (if ?c then _ else _) = _ => destruct c
         | match ?c with Some _ => _ | None => _ end = _ => destruct c
         end;
    try (injection H as <- <-; auto); eauto.
Qed.

(** TimeHMM.UnmarshalXML returns a nil error for the non-empty strings
    of decimal digits of value at most 4095 and for no other content
    (no sign, no space); the value v decodes to v / 100 hours and
    v % 100 minutes whether or not these are an hour and a minute of
    the clock. *)
Theorem TimeHMM_accepts_exactly (content : string) (t0 t : TimeHMM) :
  TimeHMM_UnmarshalXML (Ok content) t0 = (t, None)
  <-> exists ds,
        ds <> [] /\ Forall is_digit ds /\ content = numeral ds /\
        digits_value ds <= 4095 /\
        t = digits_value ds / 100 * time.Hour + digits_value ds mod 100 * time.Minute.
Proof.
  assert (forall u, 0 <= u <= 4095 ->
            int64 (int64 (int64 (u / 100) * time.Hour) + int64 (int64 (u mod 100) * time.Minute))
            = u / 100 * time.Hour + u mod 100 * time.Minute) as Hval.
  { intros u Hu.
    assert (0 <= u / 100 <= 40) by (Z.to_euclidean_division_equations; lia).
    assert (0 <= u mod 100 < 100) by (Z.to_euclidean_division_equations; lia).
    change time.Hour with 3600000000000. change time.Minute with 60000000000.
    rewrite (int64_small (u / 100)), (int64_small (u mod 100)) by lia.
    rewrite (int64_small (_ * _)), (int64_small (_ * _)) by lia.
    apply int64_small. lia. }
  split.
  - unfold TimeHMM_UnmarshalXML, strconv.ParseUint.
    destruct content as [|ch rest]; [discriminate|].
    cbv iota. change ((2 <=? 10) && (10 <=? 36) && (1 <=? 12) && (12 <=? 64)) with true.
    cbv iota. change (Z.shiftl 1 12 - 1) with 4095.
    destruct (strconv.parseUintLoop _ _ _ _ _ _) as [u [e|]] eqn:Hloop; [discriminate|].
    intros [= <-].
    apply parseUintLoop_accepts in Hloop as (ds & Hds & Hs & Hu & Hle); [|lia..].
    fold (digits_value ds) in Hu. subst u.
    exists ds. repeat split; try done.
    + by destruct ds.
    + apply Hval. split; [|done]. apply (digits_fold_ge ds 0 Hds). lia.
  - intros (ds & Hne & Hds & -> & Hle & ->).
    unfold TimeHMM_UnmarshalXML. rewrite ParseUint_numeral by done.
    f_equal. apply Hval. split; [|done].
    apply (digits_fold_ge ds 0 Hds). lia.
Qed.

(** When TimeHMM.UnmarshalXML returns the error of strconv.ParseUint the
    time is overwritten all the same: with zero on a syntax error, with
    the hours and minutes of 4095 when the value is out of range. *)
Theorem TimeHMM_refused_values (content : string) (t0 t : TimeHMM) (e : error) :
  TimeHMM_UnmarshalXML (Ok content) t0 = (t, Some e) ->
  t = 0 /\ e = strconv.syntaxError "ParseUint" content
  \/ t = TimeHMM_out_of_range /\ e = strconv.rangeError "ParseUint" content.
Proof.
  unfold TimeHMM_UnmarshalXML, strconv.ParseUint.
  destruct content as [|ch rest]; [intros [= <- <-]; by left|].
  cbv iota. change ((2 <=? 10) && (10 <=? 36) && (1 <=? 12) && (12 <=? 64)) with true.
  cbv iota. change (Z.shiftl 1 12 - 1) with 4095.
  destruct (strconv.parseUintLoop _ _ _ _ _ _) as [u [e'|]] eqn:Hloop; [|discriminate].
  intros [= <- <-].
  apply parseUintLoop_refuses in Hloop as [[-> ->]|[-> ->]]; [left|right]; by split.
Qed.

Lemma TimeHMM_refused_values_witness :
  TimeHMM_out_of_range = 0
  /\ strconv.rangeError "ParseUint" "12345" = strconv.syntaxError "ParseUint" "12345"
  \/ TimeHMM_out_of_range = TimeHMM_out_of_range
     /\ strconv.rangeError "ParseUint" "12345" = strconv.rangeError "ParseUint" "12345".
Proof. apply (TimeHMM_refused_values "12345" (9 * time.Hour)). reflexivity. Defined.

Example TimeHMM_no_clock_time :
  TimeHMM_UnmarshalXML (Ok "2475") 0 = (24 * time.Hour + 75 * time.Minute, None) /\
  TimeHMM_String (24 * time.Hour + 75 * time.Minute) = "01:15".
Proof. split; reflexivity. Qed.

Example TimeHMM_signed :
  TimeHMM_UnmarshalXML (Ok "+930") (9 * time.Hour)
  = (0, Some (strconv.syntaxError "ParseUint" "+930")).
Proof. reflexivity. Qed.

(** ** What time.Parse went through when it accepts *)

Lemma byte_of_inj (a b : ascii) : byte_of a = byte_of b -> a = b.
Proof.
  unfold byte_of. intros H. apply N2Z.inj in H.
  by rewrite <- (ascii_N_embedding a), <- (ascii_N_embedding b), H.
Qed.

Lemma parseChunks_cons_ok (alayout avalue prefix : string) (std : time.Std)
      (cs : list (string * time.Std)) (tail value : string) (p p' : time.parsed) :
  time.parseChunks alayout avalue ((prefix, std) :: cs) tail value p = Ok p' ->
  exists v1 p1 v2,
    time.skip value prefix = (v1, false) /\
    time.parseStd std v1 p = (p1, v2, "", false) /\
    time.parseChunks alayout avalue cs tail v2 p1 = Ok p'.
Proof.
  cbn [time.parseChunks].
  destruct (time.skip value prefix) as [v1 [|]]; [discriminate|].
  destruct (time.parseStd std v1 p) as [[[p1 v2] r] [|]] eqn:Hstd;
    destruct (String.eqb_spec r "") as [->|Hr]; cbn [negb]; try discriminate.
  intros H. exists v1, p1, v2. done.
Qed.

Lemma parseChunks_nil_ok (alayout avalue value : string) (p p' : time.parsed) :
  time.parseChunks alayout avalue [] "" value p = Ok p' -> value = "" /\ p' = p.
Proof.
  cbn [time.parseChunks]. rewrite skip_nothing.
  destruct value; [|discriminate]. by intros [= <-].
Qed.

Lemma skip_dash_ok (value rest : string) :
  time.skip value "-" = (rest, false) -> value = String "-" rest.
Proof.
  unfold time.skip. cbn [String.length time.skipLoop].
  change (byte_of "-" =? 32) with false. cbv iota.
  destruct value as [|v0 vrest]; [discriminate|].
  destruct (Z.eqb_spec (byte_of v0) (byte_of "-")) as [Heq|Hne]; cbn [negb]; [|discriminate].
  apply byte_of_inj in Heq as ->. by intros [= <-].
Qed.

Lemma getnum_ok (s rest : string) (fixed : bool) (n : Z) :
  time.getnum s fixed = (n, rest, false) ->
  (exists e f, is_digit e /\ is_digit f /\
               s = String (time.digit e) (String (time.digit f) rest) /\ n = e * 10 + f)
  \/ (fixed = false /\ exists e, is_digit e /\ s = String (time.digit e) rest /\ n = e
       /\ time.isDigit rest 0 = false).
Proof.
  unfold time.getnum, time.isDigit, time.digitAt.
  destruct s as [|c1 s1]; cbn [String.get negb]; [discriminate|].
  destruct ((48 <=? byte_of c1) && (byte_of c1 <=? 57)) eqn:H1; cbn [negb]; [|discriminate].
  destruct s1 as [|c2 s2]; cbn [String.get negb str_drop].
  - destruct fixed; [discriminate|]. intros [= <- <-]. right. split; [done|].
    exists (byte_of c1 - 48). repeat split; try (unfold is_digit; lia).
    by rewrite digit_of_byte by lia.
  - destruct ((48 <=? byte_of c2) && (byte_of c2 <=? 57)) eqn:H2; cbn [negb].
    + intros [= <- <-]. left. exists (byte_of c1 - 48), (byte_of c2 - 48).
      repeat split; try (unfold is_digit; lia).
      by rewrite !digit_of_byte by lia.
    + destruct fixed; [discriminate|]. intros [= <- <-]. right. split; [done|].
      exists (byte_of c1 - 48). repeat split; try (unfold is_digit; lia).
      * by rewrite digit_of_byte by lia.
      * cbn [String.get]. exact H2.
Qed.

Lemma getnum_fixed_ok (s rest : string) (n : Z) :
  time.getnum s true = (n, rest, false) ->
  exists e f, is_digit e /\ is_digit f /\
              s = String (time.digit e) (String (time.digit f) rest) /\ n = e * 10 + f.
Proof. intros H. by apply getnum_ok in H as [H|[[=] _]]. Qed.

Lemma leadingInt_all (s : string) (x q : Z) :
  time.leadingInt s x = Some (q, "") ->
  exists ds, Forall is_digit ds /\ s = numeral ds
             /\ q = fold_left (fun n d => n * 10 + d) ds x.
Proof.
  revert x. induction s as [|ch s IH]; intros x H; cbn [time.leadingInt] in H.
  - injection H as <-. by exists [].
  - destruct ((byte_of ch <? 48) || (57 <? byte_of ch)) eqn:Hd; [discriminate|].
    destruct (2 ^ 63 / 10 <? x); [discriminate|].
    destruct (2 ^ 63 <? x * 10 + byte_of ch - 48); [discriminate|].
    apply IH in H as (ds & Hds & -> & ->).
    exists (byte_of ch - 48 :: ds). split; [|split].
    + constructor; [unfold is_digit; lia | done].
    + cbn [numeral]. by rewrite digit_of_byte by lia.
    + cbn [fold_left]. f_equal. lia.
Qed.

Lemma parse_year_ok (value rest : string) (p p1 : time.parsed) :
  time.parseStd time.stdLongYear value p = (p1, rest, "", false) ->
  exists a b c d,
    is_digit a /\ is_digit b /\ is_digit c /\ is_digit d /\
    value = String (time.digit a) (String (time.digit b) (String (time.digit c)
              (String (time.digit d) rest))) /\
    p1 = time.set_year (a * 1000 + b * 100 + c * 10 + d) p.
Proof.
  unfold time.parseStd.
  destruct ((str_len value <? 4) || negb (time.isDigit value 0)) eqn:Hlen; [discriminate|].
  destruct value as [|c1 [|c2 [|c3 [|c4 value]]]];
    try (exfalso; unfold str_len in Hlen; cbn [String.length] in Hlen; lia).
  cbn [str_take str_drop].
  destruct (time.atoi _) as [y|] eqn:Hatoi; [|discriminate].
  intros [= <- <-].
  unfold time.isDigit in Hlen. cbn [String.get] in Hlen.
  unfold time.atoi in Hatoi.
  destruct ((byte_of c1 =? 45) || (byte_of c1 =? 43)) eqn:Hsign; [exfalso; lia|].
  destruct (time.leadingInt _ 0) as [[q rem]|] eqn:Hlead; [|discriminate].
  destruct rem; [|discriminate]. injection Hatoi as <-.
  apply leadingInt_all in Hlead as (ds & Hds & Hs & ->).
  destruct ds as [|a [|b [|c [|d [|? ?]]]]]; try discriminate.
  cbn [numeral] in Hs. injection Hs as -> -> -> ->.
  inversion Hds as [|? ? Ha Hds1]; subst. inversion Hds1 as [|? ? Hb Hds2]; subst.
  inversion Hds2 as [|? ? Hc Hds3]; subst. inversion Hds3 as [|? ? Hd _]; subst.
  exists a, b, c, d. do 4 (split; [assumption|]). split; [reflexivity|].
  cbn [fold_left]. f_equal. destruct Ha, Hb, Hc, Hd. rewrite int64_small; lia.
Qed.

(** ** What Date accepts *)

Lemma Parse_DateOnly_ok (content : string) (t : time.Time) :
  time.Parse time.DateOnly content = (t, None) ->
  exists y m d,
    calendar_date y m d /\ content = date_string y m d /\ t = time.Date y m d 0 0 0 0.
Proof.
  unfold time.Parse.
  destruct (time.parseChunks _ _ _ _ _ _) as [p|e] eqn:Hp; [|discriminate].
  unfold time.DateOnly in Hp. cbn [time.chunks time.tail] in Hp.
  apply parseChunks_cons_ok in Hp as (v1 & p1 & v2 & Hs1 & Hy & Hp).
  rewrite skip_nothing in Hs1. injection Hs1 as <-.
  apply parse_year_ok in Hy as (a & b & c & dd & Ha & Hb & Hc & Hdd & -> & ->).
  apply parseChunks_cons_ok in Hp as (v3 & p2 & v4 & Hs2 & Hm & Hp).
  apply skip_dash_ok in Hs2 as ->.
  unfold time.parseStd in Hm.
  destruct (time.getnum v3 true) as [[m v3'] errm] eqn:Hgm.
  injection Hm as <- <- Hrange ->.
  apply getnum_fixed_ok in Hgm as (e & f & He & Hf & -> & ->).
  cbn [negb andb] in Hrange.
  destruct ((e * 10 + f <=? 0) || (12 <? e * 10 + f)) eqn:Hmr; [discriminate|].
  apply parseChunks_cons_ok in Hp as (v5 & p3 & v6 & Hs3 & Hd & Hp).
  apply skip_dash_ok in Hs3 as ->.
  unfold time.parseStd in Hd.
  destruct (time.getnum v5 true) as [[d v5'] errd] eqn:Hgd.
  injection Hd as <- <- ->.
  apply getnum_fixed_ok in Hgd as (g & h & Hg & Hh & -> & ->).
  apply parseChunks_nil_ok in Hp as [-> ->].
  cbn [time.year time.month time.day time.hour time.min time.amSet time.pmSet
       time.set_year time.set_month time.set_day time.parsed0 andb].
  change (0 =? 12) with false. cbv iota.
  destruct Ha as [Ha0 Ha9], Hb as [Hb0 Hb9], Hc as [Hc0 Hc9], Hdd as [Hd0 Hd9],
           He as [He0 He9], Hf as [Hf0 Hf9], Hg as [Hg0 Hg9], Hh as [Hh0 Hh9].
  replace (e * 10 + f <? 0) with false by lia.
  replace (g * 10 + h <? 0) with false by lia.
  rewrite daysIn_month_length by lia.
  destruct ((g * 10 + h <? 1) || _) eqn:Hday; [discriminate|].
  intros [= <-].
  exists (a * 1000 + b * 100 + c * 10 + dd), (e * 10 + f), (g * 10 + h).
  split; [|split; [|reflexivity]].
  - unfold calendar_date. lia.
  - unfold date_string. str_norm.
    replace ((a * 1000 + b * 100 + c * 10 + dd) / 1000) with a
      by (Z.to_euclidean_division_equations; lia).
    replace ((a * 1000 + b * 100 + c * 10 + dd) / 100 mod 10) with b
      by (Z.to_euclidean_division_equations; lia).
    replace ((a * 1000 + b * 100 + c * 10 + dd) / 10 mod 10) with c
      by (Z.to_euclidean_division_equations; lia).
    replace ((a * 1000 + b * 100 + c * 10 + dd) mod 10) with dd
      by (Z.to_euclidean_division_equations; lia).
    replace ((e * 10 + f) / 10) with e by (Z.to_euclidean_division_equations; lia).
    replace ((e * 10 + f) mod 10) with f by (Z.to_euclidean_division_equations; lia).
    replace ((g * 10 + h) / 10) with g by (Z.to_euclidean_division_equations; lia).
    replace ((g * 10 + h) mod 10) with h by (Z.to_euclidean_division_equations; lia).
    reflexivity.
Qed.

(** Date.UnmarshalXML returns a nil error for the strings YYYY-MM-DD of
    the dates of the calendar and for no other content, and the date it
    stores is that date at midnight UTC. *)
Theorem Date_accepts_exactly (content : string) (t0 t : Date) :
  Date_UnmarshalXML (Ok content) t0 = (t, None)
  <-> exists y m d,
        calendar_date y m d /\ content = date_string y m d /\
        t = time.Date y m d 0 0 0 0.
Proof.
  unfold Date_UnmarshalXML. split.
  - destruct (time.Parse time.DateOnly content) as [ti err] eqn:HP.
    intros [= <- ->]. by apply Parse_DateOnly_ok.
  - intros (y & m & d & Hdate & -> & ->). by rewrite Parse_DateOnly.
Qed.

(** On any content that is not the string of a calendar date,
    Date.UnmarshalXML returns an error and overwrites the date with the
    zero Time, which prints as 0001-01-01. *)
Theorem Date_refused_is_zero (content : string) (t0 : Date) :
  (forall y m d, calendar_date y m d -> content <> date_string y m d) ->
  exists e,
    Date_UnmarshalXML (Ok content) t0 = (time.zero, Some e) /\
    Date_String time.zero = "0001-01-01".
Proof.
  intros Hno. unfold Date_UnmarshalXML.
  destruct (time.Parse time.DateOnly content) as [ti [e|]] eqn:HP.
  - exists e. split; [|reflexivity]. f_equal.
    unfold time.Parse in HP.
    destruct (time.parseChunks _ _ _ _ _ _); [|by injection HP as <- _].
    destruct (_ || _); [by injection HP as <- _ | discriminate].
  - apply Parse_DateOnly_ok in HP as (y & m & d & Hdate & -> & _).
    by destruct (Hno y m d Hdate).
Qed.

Lemma Date_refused_is_zero_witness :
  exists e,
    Date_UnmarshalXML (Ok "2023-2-9") (time.mkTime 63844761600 0) = (time.zero, Some e) /\
    Date_String time.zero = "0001-01-01".
Proof.
  apply (Date_refused_is_zero "2023-2-9").
  intros y m d _. unfold date_string. simpl. discriminate.
Defined.

(** ** The order of dates *)

Lemma daysSinceEpoch_closed (y : Z) :
  time.daysSinceEpoch y
  = 365 * (y - 1) + (y - 1) / 4 - (y - 1) / 100 + (y - 1) / 400.
Proof.
  unfold time.daysSinceEpoch.
  change time.daysPer400Years with 146097. change time.daysPer100Years with 36524.
  change time.daysPer4Years with 1461.
  Z.to_euclidean_division_equations. lia.
Qed.

Lemma daysSinceEpoch_next (y : Z) :
  time.daysSinceEpoch (y + 1)
  = time.daysSinceEpoch y + 365 + (if leap_year y then 1 else 0).
Proof.
  rewrite !daysSinceEpoch_closed. unfold leap_year.
  replace (y + 1 - 1) with y by lia.
  destruct ((y mod 4 =? 0) && (negb (y mod 100 =? 0) || (y mod 400 =? 0))) eqn:Hleap;
    Z.to_euclidean_division_equations; lia.
Qed.

Lemma daysSinceEpoch_later (y y' : Z) :
  y < y' ->
  time.daysSinceEpoch y + 365 + (if leap_year y then 1 else 0) <= time.daysSinceEpoch y'.
Proof.
  intros Hlt. replace y' with (y + 1 + (y' - y - 1)) by lia.
  assert (0 <= y' - y - 1) as Hn by lia. revert Hn. generalize (y' - y - 1).
  apply natlike_ind.
  - rewrite Z.add_0_r, daysSinceEpoch_next. lia.
  - intros n Hn IH. replace (y + 1 + Z.succ n) with (y + 1 + n + 1) by lia.
    rewrite daysSinceEpoch_next. destruct (leap_year (y + 1 + n)); lia.
Qed.

Lemma year_day_order (leap : bool) (m d m' d' : Z) :
  1 <= m <= 12 -> 1 <= d <= month_length leap m ->
  1 <= m' <= 12 -> 1 <= d' <= month_length leap m' ->
  (year_day leap m d < year_day leap m' d' <-> m < m' \/ m = m' /\ d < d').
Proof.
  intros Hm Hd Hm' Hd'.
  assert (m = 1 \/ m = 2 \/ m = 3 \/ m = 4 \/ m = 5 \/ m = 6 \/ m = 7 \/ m = 8
          \/ m = 9 \/ m = 10 \/ m = 11 \/ m = 12) as Hc by lia.
  assert (m' = 1 \/ m' = 2 \/ m' = 3 \/ m' = 4 \/ m' = 5 \/ m' = 6 \/ m' = 7 \/ m' = 8
          \/ m' = 9 \/ m' = 10 \/ m' = 11 \/ m' = 12) as Hc' by lia.
  clear Hm Hm'.
  repeat (destruct Hc as [->|Hc]); try subst m;
    repeat (destruct Hc' as [->|Hc']); try subst m';
    destruct leap;
    match type of Hd with
    | context [month_length ?l ?k] =>
        let v := eval vm_compute in (month_length l k) in
        change (month_length l k) with v in Hd
    end;
    match type of Hd' with
    | context [month_length ?l ?k] =>
        let v := eval vm_compute in (month_length l k) in
        change (month_length l k) with v in Hd'
    end;
    match goal with
    | |- context [year_day ?l ?k d] =>
        let v := eval vm_compute in (year_day l k 1) in
        change (year_day l k d) with (v + (d - 1))
    end;
    match goal with
    | |- context [year_day ?l ?k d'] =>
        let v := eval vm_compute in (year_day l k 1) in
        change (year_day l k d') with (v + (d' - 1))
    end;
    lia.
Qed.

(** Decoded dates compare as the calendar: of two calendar dates the
    earlier decodes to the smaller number of seconds, both at zero
    nanoseconds. *)
Theorem Date_order (y m d y' m' d' : Z) (t0 : Date) :
  calendar_date y m d -> calendar_date y' m' d' ->
  let t := fst (Date_UnmarshalXML (Ok (date_string y m d)) t0) in
  let t' := fst (Date_UnmarshalXML (Ok (date_string y' m' d')) t0) in
  time.nsec t = 0 /\ time.nsec t' = 0 /\
  (time.sec t < time.sec t' <-> y < y' \/ y = y' /\ (m < m' \/ m = m' /\ d < d')).
Proof.
  intros Hdate Hdate' t t'. subst t t'. unfold Date_UnmarshalXML.
  rewrite !Parse_DateOnly by done. cbn [fst].
  destruct Hdate as (Hy & Hm & Hd), Hdate' as (Hy' & Hm' & Hd').
  rewrite !Date_year_day by done. cbn [time.sec time.nsec].
  do 2 (split; [reflexivity|]).
  destruct (monthDay_year_day _ _ _ Hm Hd) as [_ Hk].
  destruct (monthDay_year_day _ _ _ Hm' Hd') as [_ Hk'].
  destruct (Z.lt_trichotomy y y') as [Hlt|[<-|Hgt]].
  - pose proof (daysSinceEpoch_later y y' Hlt) as Hlater. revert Hlater Hk Hk'.
    destruct (leap_year y), (leap_year y'); intros; lia.
  - pose proof (year_day_order _ _ _ _ _ Hm Hd Hm' Hd'). lia.
  - pose proof (daysSinceEpoch_later y' y ltac:(lia)) as Hlater. revert Hlater Hk Hk'.
    destruct (leap_year y), (leap_year y'); intros; lia.
Qed.

Lemma Date_order_witness :
  let t := fst (Date_UnmarshalXML (Ok "2024-02-29") time.zero) in
  let t' := fst (Date_UnmarshalXML (Ok "2024-03-01") time.zero) in
  time.nsec t = 0 /\ time.nsec t' = 0 /\
  (time.sec t < time.sec t' <-> 2024 < 2024 \/ 2024 = 2024 /\ (2 < 3 \/ 2 = 3 /\ 29 < 1)).
Proof.
  apply (Date_order 2024 2 29 2024 3 1 time.zero);
    unfold calendar_date; vm_compute; repeat split; discriminate.
Defined.

(** ** What Time12 accepts and what it stores *)

Lemma Time12_clock_text_ok (padded : bool) (h m : Z) (pm : bool) (t0 : Time12) :
  0 <= h <= 12 -> 0 <= m < 60 ->
  let t := hour24 h pm * time.Hour + m * time.Minute - year_zero in
  Time12_UnmarshalXML (Ok (clock12_text padded h m pm)) t0 = (t, None) /\
  Time12_String t = clock_string (hour24 h pm) m.
Proof.
  intros Hh Hm t.
  assert (Time12_text_consistent
            ((if padded then 1560 else 0) + (if pm then 780 else 0) + h * 60 + m) = true)
    as H.
  { apply (forall_below Time12_text_consistent 3120); [by vm_compute|].
    destruct padded, pm; lia. }
  unfold Time12_text_consistent in H.
  replace (1560 <=? (if padded then 1560 else 0) + (if pm then 780 else 0) + h * 60 + m)
    with padded in H by (destruct padded, pm; lia).
  replace (780 <=? ((if padded then 1560 else 0) + (if pm then 780 else 0) + h * 60 + m)
                     mod 1560)
    with pm in H by (destruct padded, pm; Z.to_euclidean_division_equations; lia).
  replace (((if padded then 1560 else 0) + (if pm then 780 else 0) + h * 60 + m)
             mod 780 / 60) with h in H
    by (destruct padded, pm; Z.to_euclidean_division_equations; lia).
  replace (((if padded then 1560 else 0) + (if pm then 780 else 0) + h * 60 + m) mod 60)
    with m in H by (destruct padded, pm; Z.to_euclidean_division_equations; lia).
  change (Time12_UnmarshalXML (Ok (clock12_text padded h m pm)) t0)
    with (Time12_UnmarshalXML (Ok (clock12_text padded h m pm)) 0).
  destruct (Time12_UnmarshalXML (Ok (clock12_text padded h m pm)) 0) as [t' [err|]];
    [discriminate|].
  apply andb_true_iff in H as [Ht Hs]. apply Z.eqb_eq in Ht. apply String.eqb_eq in Hs.
  subst t'. by split.
Qed.

(** Every time of the 12-hour clock, with the hour written in one or in
    two digits, from 0 to 12, decodes without error to the time since
    midnight less the days of year 0, a negative duration, and prints
    as the time of the 24-hour clock; hour 0 is taken as hour 12. *)
Theorem Time12_decodes_clock_text (padded : bool) (h m : Z) (pm : bool) (t0 : Time12) :
  0 <= h <= 12 -> 0 <= m < 60 ->
  let t := hour24 h pm * time.Hour + m * time.Minute - year_zero in
  Time12_UnmarshalXML (Ok (clock12_text padded h m pm)) t0 = (t, None) /\
  Time12_String t = clock_string (hour24 h pm) m /\
  - year_zero <= t < - year_zero + 24 * time.Hour.
Proof.
  intros Hh Hm t.
  destruct (Time12_clock_text_ok padded h m pm t0 Hh Hm) as [Hdec Hstr].
  split; [done|]. split; [done|].
  subst t. unfold hour24, year_zero.
  change time.Hour with 3600000000000. change time.Minute with 60000000000.
  destruct pm; [destruct (h <? 12) eqn:? | destruct (h =? 12) eqn:?]; lia.
Qed.

Lemma Time12_decodes_clock_text_witness :
  let t := 14 * time.Hour + 45 * time.Minute - year_zero in
  Time12_UnmarshalXML (Ok "02:45 PM") 0 = (t, None) /\
  Time12_String t = "14:45" /\
  - year_zero <= t < - year_zero + 24 * time.Hour.
Proof. apply (Time12_decodes_clock_text true 2 45 true 0); lia. Defined.

Lemma getnum_bounds (s rest : string) (fixed : bool) (n : Z) :
  time.getnum s fixed = (n, rest, false) -> 0 <= n <= 99.
Proof.
  intros H. apply getnum_ok in H as [(e & f & [? ?] & [? ?] & _ & ->)
                                    |(_ & e & [? ?] & _ & -> & _)]; lia.
Qed.

Lemma Date_year_zero (h m : Z) :
  0 <= h < 24 -> 0 <= m < 60 ->
  time.Date 0 1 1 h m 0 0 = time.mkTime (- 366 * 86400 + h * 3600 + m * 60) 0.
Proof.
  intros Hh Hm. unfold time.Date.
  rewrite (norm_in_range 0 (1 - 1) 12) by lia.
  rewrite (norm_in_range 0 0 1000000000), (norm_in_range m 0 60) by lia.
  rewrite (norm_in_range h m 60), (norm_in_range 1 h 24) by lia.
  f_equal.
  match goal with
  | |- (?x + (1 - 1)) * _ + _ = _ => let v := eval vm_compute in x in change x with v
  end.
  change time.secondsPerDay with 86400. change time.secondsPerHour with 3600.
  change time.secondsPerMinute with 60. lia.
Qed.

Lemma Parse_Clock12_ok (content : string) (t : time.Time) :
  time.Parse time.Clock12 content = (t, None) ->
  exists h m, 0 <= h < 24 /\ 0 <= m < 60 /\
              t = time.mkTime (- 366 * 86400 + h * 3600 + m * 60) 0.
Proof.
  unfold time.Parse.
  destruct (time.parseChunks _ _ _ _ _ _) as [p|e] eqn:Hp; [|discriminate].
  unfold time.Clock12 in Hp. cbn [time.chunks time.tail] in Hp.
  apply parseChunks_cons_ok in Hp as (v1 & p1 & v2 & _ & Hh & Hp).
  unfold time.parseStd in Hh.
  destruct (time.getnum v1 false) as [[h v1'] errh] eqn:Hgh.
  injection Hh as <- <- Hrh ->. apply getnum_bounds in Hgh.
  destruct ((h <? 0) || (12 <? h)) eqn:Hhr; [discriminate|].
  apply parseChunks_cons_ok in Hp as (v3 & p2 & v4 & _ & Hm & Hp).
  unfold time.parseStd in Hm.
  destruct (time.getnum v3 true) as [[m v3'] errm] eqn:Hgm.
  injection Hm as <- <- Hrm ->. apply getnum_bounds in Hgm.
  destruct ((m <? 0) || (60 <=? m)) eqn:Hmr; [discriminate|].
  apply parseChunks_cons_ok in Hp as (v5 & p3 & v6 & _ & Hpm & Hp).
  apply parseChunks_nil_ok in Hp as [_ ->].
  assert (p3 = time.set_pmSet (time.set_min m (time.set_hour h time.parsed0))
          \/ p3 = time.set_amSet (time.set_min m (time.set_hour h time.parsed0))) as Hp3.
  { unfold time.parseStd in Hpm.
    destruct (str_len v5 <? 2); [discriminate|].
    destruct (String.eqb _ "PM"); [injection Hpm as <- _; by left|].
    destruct (String.eqb _ "AM"); [injection Hpm as <- _; by right|discriminate]. }
  destruct Hp3 as [-> | ->];
    cbn [time.year time.month time.day time.hour time.min time.amSet time.pmSet
         time.set_year time.set_month time.set_day time.set_hour time.set_min
         time.set_amSet time.set_pmSet time.parsed0 andb];
    change (-1 <? 0) with true; cbv iota;
    change ((1 <? 1) || (time.daysIn time.January 0 <? 1)) with false; cbv iota;
    intros [= <-].
  - destruct (h <? 12) eqn:Hlt.
    + exists (h + 12), m. rewrite Date_year_zero by lia. repeat split; lia.
    + exists h, m. rewrite Date_year_zero by lia. repeat split; lia.
  - destruct (h =? 12) eqn:Heq.
    + exists 0, m. rewrite Date_year_zero by lia. repeat split; lia.
    + exists h, m. rewrite Date_year_zero by lia. repeat split; lia.
Qed.

Lemma Parse_refused_is_zero (layout : time.Layout) (content : string) (t : time.Time)
      (e : error) :
  time.Parse layout content = (t, Some e) -> t = time.zero.
Proof.
  unfold time.Parse.
  destruct (time.parseChunks _ _ _ _ _ _); [|by intros [= <- _]].
  destruct (_ || _); [by intros [= <- _] | discriminate].
Qed.

(** What Time12.UnmarshalXML stores: decoded without error, -1 or a
    time of day less the days of year 0, which is negative and is not
    -1; decoded with the error of time.Parse, 0.  So the three, no such
    event, a time and a failure, are told apart by the value. *)
Theorem Time12_stored_values (content : string) (t0 : Time12) :
  match Time12_UnmarshalXML (Ok content) t0 with
  | (t, None) =>
      t = -1 \/
      exists h m, 0 <= h < 24 /\ 0 <= m < 60 /\
                  t = h * time.Hour + m * time.Minute - year_zero /\ t < -1
  | (t, Some _) => t = 0
  end.
Proof.
  unfold Time12_UnmarshalXML.
  destruct (strings.HasPrefix content "No "); [by left|].
  destruct (time.Parse time.Clock12 content) as [ti [e|]] eqn:HP.
  - by apply Parse_refused_is_zero in HP as ->.
  - apply Parse_Clock12_ok in HP as (h & m & Hh & Hm & ->). right.
    exists h, m. split; [done|]. split; [done|].
    unfold time.Sub, time.zero, year_zero. cbn [time.sec time.nsec].
    change time.Second with 1000000000.
    change time.Hour with 3600000000000. change time.Minute with 60000000000.
    change time.minDuration with (- 2 ^ 63). change time.maxDuration with (2 ^ 63 - 1).
    do 2 if_false. lia.
Qed.

(** An hour above 12 is refused, also when it is an hour of the 24-hour
    clock, whatever follows it; the time is overwritten with 0. *)
Theorem Time12_refuses_hour_above_12 (a b : Z) (rest : string) (t0 : Time12) :
  is_digit a -> is_digit b -> 12 < a * 10 + b ->
  let content := numeral [a; b] +:+ rest in
  Time12_UnmarshalXML (Ok content) t0
  = (0, Some (ParseError "3:04 PM" content "3" rest (MsgOutOfRange "hour"))).
Proof.
  intros Ha Hb Hgt content. subst content. str_norm. unfold Time12_UnmarshalXML.
  assert (strings.HasPrefix (String (time.digit a) (String (time.digit b) rest)) "No "
          = false) as ->.
  { unfold strings.HasPrefix. cbn [String.prefix].
    destruct (ascii_dec "N" (time.digit a)) as [E|]; [|done].
    apply (f_equal byte_of) in E. rewrite byte_of_digit in E by done.
    change (byte_of "N") with 78 in E. destruct Ha. lia. }
  unfold time.Parse, time.Clock12. cbn [time.chunks time.tail time.text time.parseChunks].
  rewrite skip_nothing. unfold time.parseStd. rewrite getnum_two by done.
  destruct Ha, Hb. if_true. reflexivity.
Qed.

Lemma Time12_refuses_hour_above_12_witness :
  Time12_UnmarshalXML (Ok "15:04") (-1)
  = (0, Some (ParseError "3:04 PM" "15:04" "3" ":04" (MsgOutOfRange "hour"))).
Proof.
  apply (Time12_refuses_hour_above_12 1 5 ":04" (-1)); unfold is_digit; lia.
Defined.

(** * More about the data model *)

Lemma unmarshalStruct_app {T : Type} (fields : list (Field T))
      (before after : list Element) (t : T) :
  unmarshalStruct fields (before ++ after) t
  = match unmarshalStruct fields before t with
    | (t', None) => unmarshalStruct fields after t'
    | (t', Some err) => (t', Some err)
    end.
Proof.
  revert t. induction before as [|e before IH]; intros t; [reflexivity|].
  rewrite <- app_comm_cons, !unmarshalStruct_cons.
  destruct (unmarshalChild fields e t) as [t' [err|]]; [reflexivity|apply IH].
Qed.

(** The decoding of a temperature range stops at the first of its four
    elements that does not convert: it returns the error of the
    conversion and the range as the elements before had made it; the
    elements after are not read. *)
Theorem TempRange_stops_at_error (copyInt : string -> result Z)
        (before after : list Element) (name data : string) (t0 t1 : TempRange)
        (err : error) :
  TempRange_unmarshal copyInt before t0 = (t1, None) ->
  In name ["maxtempC"; "maxtempF"; "mintempC"; "mintempF"] ->
  copyInt data = Err err ->
  TempRange_unmarshal copyInt (before ++ mkElement name data :: after) t0 = (t1, Some err).
Proof.
  unfold TempRange_unmarshal. intros Hbefore Hname Herr.
  rewrite unmarshalStruct_app, Hbefore, unmarshalStruct_cons.
  unfold unmarshalChild. cbn [Element_Name Element_CharData].
  destruct Hname as [<-|[<-|[<-|[<-|[]]]]];
    cbn [TempRange_fields findField String.eqb Ascii.eqb Bool.eqb];
    unfold storeInt; by rewrite Herr.
Qed.

Lemma TempRange_stops_at_error_witness :
  TempRange_unmarshal sample_copyInt
    ([mkElement "maxtempC" "20"] ++ mkElement "maxtempF" "68.5" :: [mkElement "mintempC" "11"])
    TempRange_zero
  = (mkTempRange 20 0 0 0, Some (strconv.syntaxError "ParseInt" "68.5")).
Proof.
  apply (TempRange_stops_at_error sample_copyInt [mkElement "maxtempC" "20"]).
  - reflexivity.
  - simpl. tauto.
  - reflexivity.
Defined.

Lemma Astronomy_child (ne : string * event) (a : Astronomy) :
  event_on_clock (snd ne) ->
  unmarshalChild Astronomy_fields (event_element ne) a
  = (mkAstronomy
       (if String.eqb "moonrise" (fst ne) then event_value (snd ne) else Astronomy_Moonrise a)
       (if String.eqb "moonset" (fst ne) then event_value (snd ne) else Astronomy_Moonset a)
       (if String.eqb "sunrise" (fst ne) then event_value (snd ne) else Astronomy_Sunrise a)
       (if String.eqb "sunset" (fst ne) then event_value (snd ne) else Astronomy_Sunset a),
     None).
Proof.
  destruct ne as [name ev]. cbn [fst snd]. intros Hev.
  assert (forall t0, Time12_UnmarshalXML (Ok (event_text ev)) t0 = (event_value ev, None))
    as Hdec.
  { intros t0. destruct ev as [padded h m pm|what]; cbn [event_text event_value].
    - destruct Hev as [Hh Hm]. apply (Time12_clock_text_ok padded h m pm t0 Hh Hm).
    - apply Time12_sentinel. }
  unfold unmarshalChild, event_element, Astronomy_fields.
  cbn [findField Element_Name Element_CharData fst snd].
  destruct (String.eqb_spec "moonrise" name) as [<-|N1];
    [|destruct (String.eqb_spec "moonset" name) as [<-|N2];
      [|destruct (String.eqb_spec "sunrise" name) as [<-|N3];
        [|destruct (String.eqb_spec "sunset" name) as [<-|N4]]]];
    unfold storeTime12; rewrite ?Hdec; cbn; by destruct a.
Qed.

(** An astronomy block whose elements hold times of the 12-hour clock
    or texts that begin with "No " decodes without error: each of the
    four events gets the value of the last element of its name, -1
    where the text says there is no such event, and keeps its old
    value where there is no element of its name; other elements are
    skipped. *)
Theorem Astronomy_events (events : list (string * event)) (a0 : Astronomy) :
  Forall (fun ne => event_on_clock (snd ne)) events ->
  Astronomy_unmarshal (map event_element events) a0
  = (mkAstronomy (last_event "moonrise" events (Astronomy_Moonrise a0))
                 (last_event "moonset" events (Astronomy_Moonset a0))
                 (last_event "sunrise" events (Astronomy_Sunrise a0))
                 (last_event "sunset" events (Astronomy_Sunset a0)),
     None).
Proof.
  unfold Astronomy_unmarshal, last_event. intros Hev. revert a0.
  induction Hev as [|ne events Hne _ IH]; intros a0; [by destruct a0|].
  cbn [map fold_left]. rewrite unmarshalStruct_cons, (Astronomy_child ne a0 Hne).
  apply IH.
Qed.

Lemma Astronomy_events_witness :
  Astronomy_unmarshal
    [mkElement "sunrise" "06:05 AM"; mkElement "sunset" "08:30 PM";
     mkElement "moonrise" "No moonrise"; mkElement "moonset" "11:15 AM";
     mkElement "moon_phase" "No moon"]
    Astronomy_zero
  = (mkAstronomy (-1) (11 * time.Hour + 15 * time.Minute - year_zero)
                 (6 * time.Hour + 5 * time.Minute - year_zero)
                 (20 * time.Hour + 30 * time.Minute - year_zero), None).
Proof.
  apply (Astronomy_events
           [("sunrise", Occurs true 6 5 false); ("sunset", Occurs true 8 30 true);
            ("moonrise", NoEvent "moonrise"); ("moonset", Occurs true 11 15 false);
            ("moon_phase", NoEvent "moon")] Astronomy_zero).
  repeat constructor; simpl; lia.
Defined.

(** * The example program *)

Lemma append_Empty_r (s : string) : s +:+ "" = s.
Proof. induction s as [|c s IH]; [reflexivity|]. by rewrite append_String, IH. Qed.

Lemma append_assoc (s1 s2 s3 : string) : (s1 +:+ s2) +:+ s3 = s1 +:+ (s2 +:+ s3).
Proof. induction s1 as [|c s1 IH]; [reflexivity|]. by rewrite !append_String, IH. Qed.

Lemma example_values (key location : string) :
  request_values key (options_sent location {["fx" := "no"]})
  = {[ "format" := ["xml"]; "date_format" := [""]; "q" := [location];
       "fx" := ["no"]; "key" := [key] ]}.
Proof.
  unfold request_values, options_sent.
  rewrite !fmap_insert, map_fmap_singleton, <- !insert_union_l.
  by rewrite <- insert_union_singleton_l.
Qed.

Lemma example_options_sent (location : string) :
  options_sent location {["fx" := "no"]} = example_options location.
Proof. reflexivity. Qed.

Section ExampleFacts.

Variable transport : url.URL -> result (list Byte.byte).
Context {decodeLocal : Unmarshaler Local}.
Variable describe : error -> string.
Variable fmtFloat : float64 -> string.

(** main with its two arguments, read off the response to its request. *)
Lemma main_runs (arg0 key location : string) (rest : list string) (σ : World) :
  main transport describe fmtFloat (arg0 :: key :: location :: rest) σ
  = match get_result Local_zero Local_Error xml_Unmarshal
                     (transport (example_request key location)) with
    | (_, Some err) =>
        mkRun (example_world σ key location) ""
              ("Error: " +:+ Error describe err +:+ newline) (Exit 2)
    | (None, None) =>
        mkRun (example_world σ key location) "Current Conditions: " ""
              (Panic "nil pointer dereference")
    | (Some forecast, None) =>
        mkRun (example_world σ key location)
              (print_conditions fmtFloat (Local_Current forecast)) "" (Exit 0)
    end.
Proof.
  unfold main.
  replace (Z.of_nat (length (arg0 :: key :: location :: rest)) <? 3) with false
    by (cbn [length]; lia).
  cbn [nth WWO_Insecure].
  unfold mbind, Go_bind, newmap.
  destruct (GetLocal_runs transport) as [_ Hruns].
  rewrite (Hruns _ _ _ {["fx" := "no"]}) by (cbn [heap]; apply lookup_insert_eq).
  unfold world_after, request_url. cbn [heap sent WWO_Insecure WWO_Key].
  rewrite insert_insert_eq, example_values, example_options_sent.
  fold (example_request key location). fold (example_world σ key location).
  reflexivity.
Qed.

(** With fewer than two arguments the program writes one line on the
    standard error, which names the program as it was invoked, and
    exits with status 1: it sends no request, makes no map and writes
    nothing on the standard output. *)
Theorem main_usage (arg0 : string) (rest : list string) (σ : World) :
  (length rest < 2)%nat ->
  main transport describe fmtFloat (arg0 :: rest) σ
  = mkRun σ "" ("Usage: " +:+ arg0 +:+ " (apikey) (location)" +:+ newline) (Exit 1).
Proof.
  intros Hlen. unfold main.
  replace (Z.of_nat (length (arg0 :: rest)) <? 3) with true by (cbn [length]; lia).
  reflexivity.
Qed.

(** With two arguments or more the program sends exactly one request:
    over https, to the weather service, with the first argument as the
    key, the second as the location, no forecast asked for, an empty
    date format and the xml format; further arguments are ignored, and
    the maps there were before are as they were. *)
Theorem main_request (arg0 key location : string) (rest : list string) (σ : World) :
  let run := main transport describe fmtFloat (arg0 :: key :: location :: rest) σ in
  sent (Run_world run) = (sent σ ++ [example_request key location])%list /\
  forall l, is_Some (heap σ !! l) -> heap (Run_world run) !! l = heap σ !! l.
Proof.
  intros run.
  assert (Run_world run = example_world σ key location) as ->.
  { subst run. rewrite main_runs.
    destruct (get_result _ _ _ _) as [[o|] [err|]]; reflexivity. }
  split; [reflexivity|].
  intros l Hl. cbn [example_world heap]. apply lookup_insert_ne.
  intros <-. apply elem_of_dom in Hl. by apply is_fresh in Hl.
Qed.

(** When the operation returns an error, whichever it is, the program
    writes it after "Error: " on the standard error, writes nothing on
    the standard output and exits with status 2. *)
Theorem main_reports_error (arg0 key location : string) (rest : list string) (σ : World)
        (o : option Local) (err : error) :
  get_result Local_zero Local_Error xml_Unmarshal
             (transport (example_request key location)) = (o, Some err) ->
  main transport describe fmtFloat (arg0 :: key :: location :: rest) σ
  = mkRun (example_world σ key location) ""
          ("Error: " +:+ Error describe err +:+ newline) (Exit 2).
Proof. intros Hget. rewrite main_runs, Hget. by destruct o. Qed.

(** The message of the service's error document appears as it is on
    the line the program writes on the standard error. *)
Theorem main_reports_remote_error (arg0 key location : string) (rest : list string)
        (σ : World) (text : list Byte.byte) (o : Local) (msg : string) :
  transport (example_request key location) = Ok text ->
  xml_Unmarshal text Local_zero = (o, None) ->
  Local_Error o = Some msg ->
  let run := main transport describe fmtFloat (arg0 :: key :: location :: rest) σ in
  Run_stdout run = "" /\
  Run_stderr run = "Error: " +:+ msg +:+ newline /\
  Run_ending run = Exit 2.
Proof.
  intros Hresp Hdec Hmsg run. subst run.
  rewrite main_runs. unfold get_result. by rewrite Hresp, Hdec, Hmsg.
Qed.

(** Started the way a process is, with its own name as the first
    argument, the program never panics: it gives the options as a map
    that is not nil and reads the forecast only when there is no error,
    and then there is one.  It exits with status 1 exactly when it has
    fewer than two arguments, and otherwise with 0 or 2; it writes on
    the standard output only when the status is 0, and then nothing on
    the standard error. *)
Theorem main_exit_status (Args : list string) (σ : World) :
  Args <> [] ->
  let run := main transport describe fmtFloat Args σ in
  exists code,
    Run_ending run = Exit code /\
    (code = 0 \/ code = 1 \/ code = 2) /\
    (code = 1 <-> (length Args < 3)%nat) /\
    (code <> 0 -> Run_stdout run = "") /\
    (code = 0 -> Run_stderr run = "").
Proof.
  intros Hargs run. subst run.
  destruct Args as [|arg0 [|key [|location rest]]]; [done| | |].
  - exists 1. unfold main. cbn. repeat split; try done; lia.
  - exists 1. unfold main. cbn. repeat split; try done; lia.
  - rewrite main_runs. unfold get_result.
    destruct (transport _) as [text|err].
    + destruct (xml_Unmarshal text Local_zero) as [o [err|]].
      * exists 2. cbn. repeat split; try done; lia.
      * destruct (Local_Error o) as [msg|].
        -- exists 2. cbn. repeat split; try done; lia.
        -- exists 0. cbn. repeat split; try done; lia.
    + exists 2. cbn. repeat split; try done; lia.
Qed.

(** A forecast in which the eleven quantities the program looks at are
    all zero gives the heading alone, with no end of line, whatever the
    other fields hold: a temperature of 0 degrees or calm air are not
    told from a missing value. *)
Theorem main_prints_heading_alone (arg0 key location : string) (rest : list string)
        (σ : World) (text : list Byte.byte) (o : Local) :
  transport (example_request key location) = Ok text ->
  xml_Unmarshal text Local_zero = (o, None) ->
  Local_Error o = None ->
  nothing_to_print (Local_Current o) ->
  main transport describe fmtFloat (arg0 :: key :: location :: rest) σ
  = mkRun (example_world σ key location) "Current Conditions: " "" (Exit 0).
Proof.
  intros Hresp Hdec Hmsg (H1 & H2 & H3 & H4 & H5 & H6 & H7 & H8 & H9 & H10 & H11).
  rewrite main_runs. unfold get_result. rewrite Hresp, Hdec, Hmsg.
  f_equal. unfold print_conditions.
  rewrite H1, H2, H3, H4, H5, H6, H7, H8, H9, H10, H11.
  reflexivity.
Qed.

(** An observation time that was decoded from a time of the 12-hour
    clock is always printed, first, as the time of the 24-hour clock:
    also midnight, which is not the zero value. *)
Theorem main_prints_observation_time (arg0 key location : string) (rest : list string)
        (σ : World) (text : list Byte.byte) (o : Local)
        (padded : bool) (h m : Z) (pm : bool) :
  transport (example_request key location) = Ok text ->
  xml_Unmarshal text Local_zero = (o, None) ->
  Local_Error o = None ->
  0 <= h <= 12 -> 0 <= m < 60 ->
  CurrentCondition_Time (Local_Current o) = event_value (Occurs padded h m pm) ->
  let run := main transport describe fmtFloat (arg0 :: key :: location :: rest) σ in
  Run_ending run = Exit 0 /\
  exists more,
    Run_stdout run
    = "Current Conditions: at " +:+ clock_string (hour24 h pm) m +:+ newline +:+ more.
Proof.
  intros Hresp Hdec Hmsg Hh Hm Htime run. subst run.
  rewrite main_runs. unfold get_result. rewrite Hresp, Hdec, Hmsg.
  split; [reflexivity|]. cbn [Run_stdout]. unfold print_conditions.
  rewrite Htime. cbn [event_value].
  destruct (Time12_clock_text_ok padded h m pm 0 Hh Hm) as [_ ->].
  replace (hour24 h pm * time.Hour + m * time.Minute - year_zero =? 0) with false.
  2:{ unfold hour24, year_zero.
      change time.Hour with 3600000000000. change time.Minute with 60000000000.
      destruct pm; [destruct (h <? 12) eqn:? | destruct (h =? 12) eqn:?]; lia. }
  unfold print_if at 1. cbn [negb]. unfold fmt.Sprint at 1 2.
  cbn [fmt.doPrint fmt.isString fmt.printArg negb andb].
  rewrite !append_Empty, !append_Empty_r.
  change "Current Conditions: at " with ("Current Conditions: " +:+ "at ").
  rewrite !append_assoc. eexists. reflexivity.
Qed.

End ExampleFacts.

Lemma main_usage_witness :
  main sample_transport sample_describe sample_fmtFloat ["./example"; "0123456789abcdef"]
       sample_world
  = mkRun sample_world ""
          ("Usage: ./example (apikey) (location)" +:+ newline) (Exit 1).
Proof.
  apply (main_usage sample_transport sample_describe sample_fmtFloat
                    "./example" ["0123456789abcdef"] sample_world).
  simpl. lia.
Defined.


Lemma main_reports_error_witness :
  main sample_offline sample_describe sample_fmtFloat
       ["./example"; "0123456789abcdef"; "London"] sample_world
  = mkRun (example_world sample_world "0123456789abcdef" "London") ""
          ("Error: dial tcp: lookup api.worldweatheronline.com: no such host" +:+ newline)
          (Exit 2).
Proof.
  apply (main_reports_error sample_offline sample_describe sample_fmtFloat
                            "./example" "0123456789abcdef" "London" [] sample_world None
                            (ForeignError "net/http"
                               "dial tcp: lookup api.worldweatheronline.com: no such host")).
  reflexivity.
Defined.

Lemma main_reports_remote_error_witness :
  let run := main (decodeLocal := serve error_report) served_transport sample_describe
                  sample_fmtFloat ["./example"; "0123456789abcdef"; "Nowhere"]
                  sample_world in
  Run_stdout run = "" /\
  Run_stderr run = "Error: " +:+ sample_error +:+ newline /\
  Run_ending run = Exit 2.
Proof.
  apply (main_reports_remote_error (decodeLocal := serve error_report) served_transport
           sample_describe sample_fmtFloat "./example" "0123456789abcdef" "Nowhere" []
           sample_world [] error_report sample_error); reflexivity.
Defined.

Lemma main_exit_status_witness :
  let run := main sample_offline sample_describe sample_fmtFloat
                  ["./example"; "0123456789abcdef"; "London"; "tomorrow"] sample_world in
  exists code,
    Run_ending run = Exit code /\
    (code = 0 \/ code = 1 \/ code = 2) /\
    (code = 1 <-> (length ["./example"; "0123456789abcdef"; "London"; "tomorrow"] < 3)%nat) /\
    (code <> 0 -> Run_stdout run = "") /\
    (code = 0 -> Run_stderr run = "").
Proof.
  apply (main_exit_status sample_offline sample_describe sample_fmtFloat
           ["./example"; "0123456789abcdef"; "London"; "tomorrow"] sample_world).
  discriminate.
Defined.

Lemma main_prints_heading_alone_witness :
  main (decodeLocal := serve calm_report) served_transport sample_describe sample_fmtFloat
       ["./example"; "0123456789abcdef"; "London"] sample_world
  = mkRun (example_world sample_world "0123456789abcdef" "London")
          "Current Conditions: " "" (Exit 0).
Proof.
  apply (main_prints_heading_alone (decodeLocal := serve calm_report) served_transport
           sample_describe sample_fmtFloat "./example" "0123456789abcdef" "London" []
           sample_world [] calm_report); try reflexivity.
  repeat split; reflexivity.
Defined.

Lemma main_prints_observation_time_witness :
  let run := main (decodeLocal := serve midnight_report) served_transport sample_describe
                  sample_fmtFloat ["./example"; "0123456789abcdef"; "London"]
                  sample_world in
  Run_ending run = Exit 0 /\
  exists more,
    Run_stdout run
    = "Current Conditions: at " +:+ clock_string (hour24 12 false) 0 +:+ newline +:+ more.
Proof.
  apply (main_prints_observation_time (decodeLocal := serve midnight_report)
           served_transport sample_describe sample_fmtFloat "./example" "0123456789abcdef"
           "London" [] sample_world [] midnight_report true 12 0 false);
    try reflexivity; lia.
Defined.

(** The example output of the README. *)
Example main_readme_output :
  Run_stdout (main (decodeLocal := serve readme_report) served_transport sample_describe
                   sample_fmtFloat ["./example"; "0123456789abcdef"; "London"]
                   sample_world)
  = "Current Conditions: at 14:45" +:+ newline
    +:+ "Temperature" +:+ tab +:+ "20" +:+ degree +:+ "C" +:+ newline
    +:+ "Feels Like" +:+ tab +:+ "20" +:+ degree +:+ "C" +:+ newline
    +:+ "Humidity" +:+ tab +:+ "60%" +:+ newline
    +:+ "Pressure" +:+ tab +:+ "1022mbar" +:+ newline
    +:+ "Visibility" +:+ tab +:+ "10km" +:+ newline
    +:+ "Wind Speed" +:+ tab +:+ "15km/h" +:+ newline
    +:+ "Wind Direction" +:+ tab +:+ "90" +:+ degree +:+ "E of N (E)" +:+ newline.
Proof.
  rewrite main_runs.
  cbv [get_result served_transport serve xml_Unmarshal readme_report Local_Error].
  cbn [Run_stdout]. by vm_compute.
Qed.

(** At midnight the embedded fields of the same names stay hidden: the
    time printed is the observation time and the temperature is the
    current one, here zero and so left out. *)
Example main_midnight_output :
  Run_stdout (main (decodeLocal := serve midnight_report) served_transport sample_describe
                   sample_fmtFloat ["./example"; "0123456789abcdef"; "London"]
                   sample_world)
  = "Current Conditions: at 00:00" +:+ newline.
Proof.
  rewrite main_runs.
  cbv [get_result served_transport serve xml_Unmarshal midnight_report Local_Error].
  cbn [Run_stdout]. by vm_compute.
Qed.
